(** * multicentric_harmonization: the training glue, embedded in Rocq

    A shallow embedding of the bespoke Python code of the repository:
    - [harmonization/swin_contrastive/train.py]: [group_data],
      [create_datasets], [Train.train], [Train.train_epoch],
      [Train.train_step], [Train.contrastive_step], [Train.save_losses],
      [Train.plot_losses], [Train.test_epoch];
    - [harmonization/torch_oscar.py]: [run_inference].

    Calls into external libraries (torch, sklearn, monai, csv, ...) are
    section variables or oracles; what the repository's own code does with
    their results is written out. *)

From Stdlib Require Import ZArith QArith Qround String Sorted Lia.
From stdpp Require Import base option list gmap strings.

Local Open Scope string_scope.
Local Open Scope list_scope.
Local Open Scope Z_scope.

(** ** Common Python notions *)

(** Outcome of a Python call: a value, or a raised exception. *)
Inductive exn : Type :=
| KeyError (key : string)
| IndexError
| ValueError (msg : string)
| AttributeError (msg : string)
| RuntimeError (msg : string)
| ZeroDivisionError
| OtherException (msg : string)
| KeyboardInterrupt.

Inductive result (A : Type) : Type :=
| Ok (a : A)
| Raise (e : exn).
Arguments Ok {A} a.
Arguments Raise {A} e.

#[global] Instance result_ret : MRet result := λ A a, Ok a.

#[global] Instance result_bind : MBind result := λ A B k r,
  match r with
  | Ok a => k a
  | Raise e => Raise e
  end.

(** [except Exception]: every exception class of the model derives from
    [Exception], apart from [KeyboardInterrupt] (a [BaseException]). *)
Definition is_Exception (e : exn) : bool :=
  match e with
  | KeyboardInterrupt => false
  | _ => true
  end.

(** [l[i]] for a Python list and a non-negative index. *)
Definition py_getitem {A : Type} (l : list A) (i : nat) : result A :=
  match l !! i with
  | Some a => Ok a
  | None => Raise IndexError
  end.

(** [d[k]] for a dict with string keys. *)
Definition dict_get {V : Type} (d : gmap string V) (k : string) : result V :=
  match d !! k with
  | Some v => Ok v
  | None => Raise (KeyError k)
  end.

(** [[l[i] for i in idx]] *)
Fixpoint py_select {A : Type} (l : list A) (idx : list nat) : result (list A) :=
  match idx with
  | [] => Ok []
  | i :: idx' =>
      a ← py_getitem l i;
      rest ← py_select l idx';
      Ok (a :: rest)
  end.

(** [np.unique] / [torch.unique] on a 1-D integer array: the sorted
    distinct values. *)
Fixpoint insert_unique (x : Z) (l : list Z) : list Z :=
  match l with
  | [] => [x]
  | y :: l' =>
      if x <? y then x :: y :: l'
      else if x =? y then y :: l'
      else y :: insert_unique x l'
  end.

Definition unique (l : list Z) : list Z := foldr insert_unique [] l.

(** Position of the first occurrence of [x] in [l] ([length l] if none). *)
Fixpoint index_of (x : Z) (l : list Z) : nat :=
  match l with
  | [] => 0%nat
  | y :: l' => if x =? y then 0%nat else S (index_of x l')
  end.

(** ** Group-aware train/test split: [group_data], [create_datasets] *)

Module GroupSplit.

(** One entry of the dataset manifest: a dict with an ['info'] dict that
    has ['SeriesDescription'], further keys, and, once [group_data] has
    run over it, ['group_id']. *)
Record item : Type := Item {
  image : string;
  roi_label : string;
  SeriesDescription : string;
  group_id : option Z;
}.

Definition set_group_id (it : item) (g : Z) : item :=
  {| image := image it; roi_label := roi_label it;
     SeriesDescription := SeriesDescription it; group_id := Some g |}.

Inductive mode : Type := scanner | repetition.

Section Splitting.

(** [extract_base]: strips a trailing ["- #<digits>"] with a regular
    expression of the [re] library. *)
Variable extract_base : string → string.

(** [GroupShuffleSplit(n_splits=1, test_size, random_state=seed)
     .split(data_list, groups)], first split: index arrays
    [(train_idx, test_idx)], or an exception. *)
Variable splitter : Q → Z → list Z → result (list nat * list nat).

Definition group_key (m : mode) (it : item) : string :=
  match m with
  | scanner => String.substring 0 2 (SeriesDescription it)
  | repetition => extract_base (SeriesDescription it)
  end.

(** The loop of [group_data]; the items are dicts mutated in place, so
    the annotated list is returned next to [group_ids]. *)
Fixpoint group_data_loop (m : mode) (group_map : gmap string Z)
    (data_list : list item) : gmap string Z * list item * list Z :=
  match data_list with
  | [] => (group_map, [], [])
  | it :: rest =>
      let k := group_key m it in
      let group_map' :=
        match group_map !! k with
        | None => <[k := Z.of_nat (size group_map)]> group_map
        | Some _ => group_map
        end in
      let g := default 0 (group_map' !! k) in
      let '(gm, items, group_ids) := group_data_loop m group_map' rest in
      (gm, set_group_id it g :: items, g :: group_ids)
  end.

Definition group_data (data_list : list item) (m : mode)
    : list item * list Z :=
  let '(_, items, group_ids) := group_data_loop m ∅ data_list in
  (items, group_ids).

(** The literal [0.00000001]. *)
Definition min_test_size : Q := 1 # 100000000.

Definition create_datasets (data_list : list item) (test_size : Q)
    (seed : Z) : result (list item * list item) :=
  if Qle_bool test_size min_test_size then Ok (data_list, [])
  else
    let '(data_list', groups) := group_data data_list scanner in
    idx ← splitter test_size seed groups;
    let '(train_idx, test_idx) := idx in
    train_data ← py_select data_list' train_idx;
    test_data ← py_select data_list' test_idx;
    Ok (train_data, test_data).

End Splitting.

(** What [create_datasets] relies on from the splitter: the two index
    arrays it returns share no index and together hold every position of
    [groups], and no group id occurs on both sides. *)
Definition splitter_contract
    (splitter : Q → Z → list Z → result (list nat * list nat)) : Prop :=
  ∀ test_size seed groups train_idx test_idx,
    splitter test_size seed groups = Ok (train_idx, test_idx) →
    train_idx ++ test_idx ≡ₚ seq 0 (length groups) ∧
    ∀ i j g, i ∈ train_idx → j ∈ test_idx →
             groups !! i = Some g → groups !! j ≠ Some g.

(** Invariant of [group_map] in [group_data]: the ids handed out so far
    are the numbers below [len(group_map)], one per key. *)
Definition group_map_inv (gm : gmap string Z) : Prop :=
  (∀ k g, gm !! k = Some g → 0 ≤ g < Z.of_nat (size gm)) ∧
  (∀ k1 k2 g, gm !! k1 = Some g → gm !! k2 = Some g → k1 = k2).

(** An item without its ['group_id'] annotation. *)
Definition manifest_entry (it : item) : string * string * string :=
  (image it, roi_label it, SeriesDescription it).

(** The acquisition groups of two lists of items are disjoint. *)
Definition group_disjoint (key : item → string) (l1 l2 : list item) : Prop :=
  ∀ a b, a ∈ l1 → b ∈ l2 → key a ≠ key b.

(** *** The external splitter

    [sklearn.model_selection.GroupShuffleSplit] as the scikit-learn
    library documents and implements it ([_validate_shuffle_split],
    [ShuffleSplit._iter_indices], [GroupShuffleSplit._iter_indices]),
    for a float [test_size] and [train_size=None].  The random
    permutation is left to the caller. *)
Section Sklearn.

(** [check_random_state(seed).permutation(n)] *)
Variable rng_permutation : Z → nat → list nat.

Definition validate_shuffle_split (n_samples : nat) (test_size : Q)
    : result (nat * nat) :=
  if Qle_bool test_size 0 || Qle_bool 1 test_size then
    Raise (ValueError "test_size should be a float in the (0, 1) range")
  else
    let n_test :=
      Z.to_nat (Qceiling (test_size * inject_Z (Z.of_nat n_samples))) in
    let n_train := (n_samples - n_test)%nat in
    if (n_train =? 0)%nat then
      Raise (ValueError "the resulting train set will be empty")
    else Ok (n_train, n_test).

Definition isin (a b : list nat) : list bool :=
  (λ x, bool_decide (x ∈ b)) <$> a.

Definition flatnonzero (mask : list bool) : list nat :=
  filter (λ i, mask !! i = Some true) (seq 0 (length mask)).

Definition group_shuffle_split (test_size : Q) (seed : Z)
    (groups : list Z) : result (list nat * list nat) :=
  let classes := unique groups in
  let group_indices := (λ g, index_of g classes) <$> groups in
  sizes ← validate_shuffle_split (length classes) test_size;
  let '(n_train, n_test) := sizes in
  let permutation := rng_permutation seed (length classes) in
  let ind_test := take n_test permutation in
  let ind_train := take n_train (drop n_test permutation) in
  Ok (flatnonzero (isin group_indices ind_train),
      flatnonzero (isin group_indices ind_test)).

End Sklearn.

(** A deterministic stand-in for the seeded generator. *)
Definition rotate_permutation (seed : Z) (n : nat) : list nat :=
  rotate (Z.to_nat (Z.abs seed)) (seq 0 n).

Definition ct (series_description : string) : item :=
  {| image := "ct.nii.gz"; roi_label := "cyst1";
     SeriesDescription := series_description; group_id := None |}.

End GroupSplit.

(** ** Tensors *)

Module Torch.

Section Tensor.
Context {F : Type}.

(** A 5-D tensor of shape [(N, C, D, H, W)]: its shape, and its
    elements as [data[n][c]], the [D*H*W] voxels of channel [c] of
    sample [n] in row-major order. *)
Record tensor : Type := Tensor {
  size0 : nat;
  size1 : nat;
  spatial : nat * nat * nat;
  data : list (list (list F));
}.

(** [t.shape[2] * t.shape[3] * t.shape[4]] *)
Definition numel_spatial (t : tensor) : nat :=
  let '(d, h, w) := spatial t in (d * h * w)%nat.

(** The elements agree with the shape. *)
Definition wf (t : tensor) : Prop :=
  length (data t) = size0 t ∧
  Forall (λ sample,
            length sample = size1 t ∧
            Forall (λ channel, length channel = numel_spatial t) sample)
         (data t).

(** [torch.split(t, [s1, s2], dim=1)] *)
Definition split_dim1 (t : tensor) (s1 s2 : Z) : result (tensor * tensor) :=
  if (s1 <? 0) || (s2 <? 0) then
    Raise (RuntimeError "split_with_sizes expects split_sizes have only non-negative entries")
  else if negb (s1 + s2 =? Z.of_nat (size1 t)) then
    Raise (RuntimeError "split_with_sizes expects split_sizes to sum exactly to the size of dim 1")
  else
    Ok ({| size0 := size0 t; size1 := Z.to_nat s1; spatial := spatial t;
           data := take (Z.to_nat s1) <$> data t |},
        {| size0 := size0 t; size1 := Z.to_nat s2; spatial := spatial t;
           data := drop (Z.to_nat s1) <$> data t |}).

(** The split of [train_step]:
    [torch.split(latents4, [k, latents4.size(1) - k], dim=1)]. *)
Definition split_latent (latents4 : tensor) (k : Z) : result (tensor * tensor) :=
  split_dim1 latents4 k (Z.of_nat (size1 latents4) - k).

(** [torch.cat([a, b], dim=1)] *)
Definition cat_dim1 (a b : tensor) : result tensor :=
  if bool_decide (size0 a = size0 b ∧ spatial a = spatial b) then
    Ok {| size0 := size0 a; size1 := size1 a + size1 b;
          spatial := spatial a;
          data := zip_with app (data a) (data b) |}
  else
    Raise (RuntimeError "Sizes of tensors must match except in dimension 1").

(** [l[mask]] along the first axis. *)
Fixpoint select_mask {A : Type} (mask : list bool) (l : list A) : list A :=
  match mask, l with
  | b :: mask', x :: l' =>
      if b then x :: select_mask mask' l' else select_mask mask' l'
  | _, _ => []
  end.

(** [t[mask]] for a boolean [mask] over the batch axis. *)
Definition mask_select (t : tensor) (mask : list bool) : result tensor :=
  if (length mask =? size0 t)%nat then
    Ok {| size0 := length (select_mask mask (data t)); size1 := size1 t;
          spatial := spatial t; data := select_mask mask (data t) |}
  else Raise IndexError.

(** The channel vector of a sample at voxel [p]. *)
Definition voxel_row (sample : list (list F)) (p : nat) : list F :=
  omap (λ channel, channel !! p) sample.

(** [t.permute(0, 2, 3, 4, 1)], as rows of [C] elements: one row per
    sample and voxel. *)
Definition permute_02341 (t : tensor) : list (list F) :=
  sample ← data t; voxel_row sample <$> seq 0 (numel_spatial t).

Fixpoint chunks (n rows : nat) (l : list F) : list (list F) :=
  match rows with
  | O => []
  | S rows' => take n l :: chunks n rows' (drop n l)
  end.

(** [x.reshape(-1, latentsize)] for the elements [flat] of [x]. *)
Definition reshape_rows (flat : list F) (latentsize : Z)
    : result (list (list F)) :=
  if latentsize <=? 0 then
    Raise (RuntimeError "invalid shape dimension")
  else if negb (Z.of_nat (length flat) mod latentsize =? 0) then
    Raise (RuntimeError "shape is invalid for input size")
  else
    Ok (chunks (Z.to_nat latentsize)
          (length flat / Z.to_nat latentsize)%nat flat).

(** [buf[start:stop] = vals] on the first axis: the slice is clamped
    to the buffer, [vals] fills it or, with a single row, is broadcast
    over it. *)
Definition slice_assign {A : Type} (buf : list A) (start stop : nat)
    (vals : list A) : result (list A) :=
  let n := (Nat.min stop (length buf) - start)%nat in
  if (length vals =? n)%nat then
    Ok (take start buf ++ vals ++ drop (start + n) buf)
  else
    match vals with
    | [v] => Ok (take start buf ++ replicate n v ++ drop (start + n) buf)
    | _ => Raise (RuntimeError "shape mismatch")
    end.

End Tensor.
Arguments tensor F : clear implicits.

End Torch.

(** ** The [Train] class *)

Module Train.
Import Torch.

Section Train.
Context {F : Type}.

(** Float arithmetic, left abstract. *)
Variables (fadd fdiv : F → F → F) (float_of_Z : Z → F).

(** The values the loss dictionaries hold: Python ints and floats and
    0-d tensors. *)
Inductive pyval : Type :=
| PyInt (z : Z)
| PyFloat (x : F)
| PyTensor (x : F).

Definition to_float (v : pyval) : F :=
  match v with
  | PyInt z => float_of_Z z
  | PyFloat x => x
  | PyTensor x => x
  end.

(** [a + b] *)
Definition py_add (a b : pyval) : pyval :=
  match a, b with
  | PyInt x, PyInt y => PyInt (x + y)
  | PyTensor _, _ | _, PyTensor _ => PyTensor (fadd (to_float a) (to_float b))
  | _, _ => PyFloat (fadd (to_float a) (to_float b))
  end.

(** [v.item()] *)
Definition item (v : pyval) : result F :=
  match v with
  | PyTensor x => Ok x
  | PyInt _ => Raise (AttributeError "'int' object has no attribute 'item'")
  | PyFloat _ => Raise (AttributeError "'float' object has no attribute 'item'")
  end.

(** [v.detach()] *)
Definition detach (v : pyval) : result F :=
  match v with
  | PyTensor x => Ok x
  | PyInt _ => Raise (AttributeError "'int' object has no attribute 'detach'")
  | PyFloat _ => Raise (AttributeError "'float' object has no attribute 'detach'")
  end.

Record batch : Type := Batch {
  image : tensor F;
  roi_label : list Z;
  scanner_label : list Z;
}.

(** The external networks and loss modules. *)
Variable swinViT : tensor F → list (tensor F).
Variable reconstruct : tensor F → tensor F.
Variable recons_loss : tensor F → tensor F → F.
Variable contrast_loss : list (option (list F)) → list (option Z) → F.

(** Calls that leave the process or act on external objects, in the
    order they happen. *)
Inductive event : Type :=
| ProgressWrite (msg : string)
| DatasetStart
| TestDatasetStart
| ModelTrain
| IterateBatch (step : nat)
| ZeroGrad
| Reconstruct (x_rec : tensor F)
| NibSave (path : string)
| Backward (loss : pyval)
| OptimizerStep
| SetDescription (step : nat) (average_loss : F)
| JsonDump (path : string) (losses : list pyval)
| ProgressUpdate
| LrSchedulerStep
| DatasetUpdateCache
| PlotLatentSpace (epoch : Z)
| PrintPlotError (e : exn)
| DatasetShutdown
| TestDatasetShutdown
| SaveModel (path : string)
| SaveReconstructionModel (path : string)
| CreateGif (plots : list string)
| PlotLosses.

Record losses_log : Type := LossesLog {
  contrast_losses : list pyval;
  classification_losses : list pyval;
  reconstruction_losses : list pyval;
  total_losses : list pyval;
}.

(** The attributes of [self] that [train_epoch] and the methods below
    it read or write. *)
Record core : Type := Core {
  epoch : Z;
  contrastive_latentsize : Z;
  acc_dict : gmap string pyval;
  losses_dict : gmap string pyval;
  train_losses : losses_log;
}.

Definition set_epoch (s : core) (e : Z) : core :=
  {| epoch := e; contrastive_latentsize := contrastive_latentsize s;
     acc_dict := acc_dict s; losses_dict := losses_dict s;
     train_losses := train_losses s |}.

Definition set_acc_dict (s : core) (d : gmap string pyval) : core :=
  {| epoch := epoch s; contrastive_latentsize := contrastive_latentsize s;
     acc_dict := d; losses_dict := losses_dict s;
     train_losses := train_losses s |}.

Definition set_losses_dict (s : core) (d : gmap string pyval) : core :=
  {| epoch := epoch s; contrastive_latentsize := contrastive_latentsize s;
     acc_dict := acc_dict s; losses_dict := d;
     train_losses := train_losses s |}.

Definition set_train_losses (s : core) (l : losses_log) : core :=
  {| epoch := epoch s; contrastive_latentsize := contrastive_latentsize s;
     acc_dict := acc_dict s; losses_dict := losses_dict s;
     train_losses := l |}.

(** [self.step_interval], [self.log_summary_interval] *)
Definition step_interval : Z := 10.
Definition log_summary_interval : Z := 5.

(** A method body over the attributes [S]: from the attributes to an
    outcome, the attributes afterwards and the calls made; a raised
    exception keeps what was done before it. *)
Definition M (S A : Type) : Type := S → result A * S * list event.

#[global] Instance M_ret {S : Type} : MRet (M S) := λ A a s, (Ok a, s, []).

#[global] Instance M_bind {S : Type} : MBind (M S) := λ A B k m s,
  match m s with
  | (Ok a, s', evs) => let '(r, s'', evs') := k a s' in (r, s'', evs ++ evs')
  | (Raise e, s', evs) => (Raise e, s', evs)
  end.

Definition emit {S : Type} (e : event) : M S unit := λ s, (Ok tt, s, [e]).
Definition lift {S A : Type} (r : result A) : M S A := λ s, (r, s, []).
Definition get {S : Type} : M S S := λ s, (Ok s, s, []).
Definition modify {S : Type} (f : S → S) : M S unit := λ s, (Ok tt, f s, []).

(** [self.losses_dict[k] = v] *)
Definition set_loss (k : string) (v : pyval) : M core unit :=
  modify (λ s, set_losses_dict s (<[k := v]> (losses_dict s))).

(** [self.losses_dict[k]] *)
Definition get_loss (k : string) : M core pyval :=
  s ← get; lift (dict_get (losses_dict s) k).

(** *** [contrastive_step] *)

(** The buffers [all_embeddings] and [all_labels] ([torch.empty]: a
    row not written yet is [None]) and the two counters. *)
Record contrastive_state : Type := ContrastiveState {
  offset : Z;
  start_idx : nat;
  all_embeddings : list (option (list F));
  all_labels : list (option Z);
}.

(** One round of [for id in torch.unique(ids)]. *)
Definition contrastive_round (latents4 : tensor F) (ids : list Z)
    (latentsize : Z) (st : contrastive_state) (id : Z)
    : result contrastive_state :=
  let boolids := (λ x, bool_decide (x = id)) <$> ids in
  btneck ← mask_select latents4 boolids;
  let num_elements := numel_spatial btneck in
  embeddings ← reshape_rows (concat (permute_02341 btneck)) latentsize;
  let contrast_ind := replicate num_elements (offset st) in
  let labels := concat (replicate (size0 btneck) contrast_ind) in
  let end_idx := (start_idx st + length embeddings)%nat in
  embs ← slice_assign (all_embeddings st) (start_idx st) end_idx
            (Some <$> embeddings);
  labs ← slice_assign (all_labels st) (start_idx st) end_idx
            (Some <$> labels);
  Ok {| offset := offset st + Z.of_nat num_elements;
        start_idx := end_idx;
        all_embeddings := embs; all_labels := labs |}.

Fixpoint contrastive_loop (latents4 : tensor F) (ids : list Z)
    (latentsize : Z) (st : contrastive_state) (todo : list Z)
    : result contrastive_state :=
  match todo with
  | [] => Ok st
  | id :: todo' =>
      st' ← contrastive_round latents4 ids latentsize st id;
      contrastive_loop latents4 ids latentsize st' todo'
  end.

(** What [contrastive_step] hands to [self.contrast_loss]. *)
Definition contrastive_inputs (latents : list (tensor F)) (ids : list Z)
    (latentsize : Z) : result (list (option (list F)) * list (option Z)) :=
  latents4 ← py_getitem latents 4;
  let total_num_elements :=
    (size0 latents4 * numel_spatial latents4)%nat in
  if latentsize <? 0 then
    Raise (RuntimeError "negative dimension")
  else
    st ← contrastive_loop latents4 ids latentsize
           {| offset := 0; start_idx := 0%nat;
              all_embeddings := replicate total_num_elements None;
              all_labels := replicate total_num_elements None |}
           (unique ids);
    Ok (all_embeddings st, all_labels st).

Definition contrastive_step (latents : list (tensor F)) (ids : list Z)
    (latentsize : Z) : M core unit :=
  inputs ← lift (contrastive_inputs latents ids latentsize);
  let llss := contrast_loss inputs.1 inputs.2 in
  set_loss "contrast_loss" (PyTensor llss).

(** The batch position every row of [all_embeddings] is taken from:
    ids in the order of [torch.unique], the samples of one id in batch
    order, [num_elements] rows per sample. *)
Definition positions_of (ids : list Z) (id : Z) : list nat :=
  filter (λ i, ids !! i = Some id) (seq 0 (length ids)).

Definition row_origins (ids : list Z) (num_elements : nat) : list nat :=
  id ← unique ids; i ← positions_of ids id; replicate num_elements i.

(** The rows [contrastive_step] writes for the [j]-th distinct id, each
    with the batch position it is taken from and its label. *)
Definition labelled_block (latents4 : tensor F) (ids : list Z) (j : nat)
    (id : Z) : list (nat * Z * list F) :=
  i ← positions_of ids id;
  (λ p, (i, Z.of_nat j * Z.of_nat (numel_spatial latents4),
         voxel_row (default [] (data latents4 !! i)) p))
    <$> seq 0 (numel_spatial latents4).

Fixpoint labelled_rows (latents4 : tensor F) (ids : list Z) (j : nat)
    (todo : list Z) : list (nat * Z * list F) :=
  match todo with
  | [] => []
  | id :: todo' =>
      labelled_block latents4 ids j id ++ labelled_rows latents4 ids (S j) todo'
  end.

(** *** [reconstruction_step], [reconstruct_image] *)

Definition reconstruction_step (reconstructed_imgs original_imgs : tensor F)
    : M core unit :=
  let reconstruction_loss := recons_loss reconstructed_imgs original_imgs in
  set_loss "reconstruction_loss" (PyTensor reconstruction_loss).

(** [flatten(start_dim=2, end_dim=4)] followed by [view(-1, c, h, w, d)]
    gives the tensor back; [view] cannot infer [-1] when the other
    sizes multiply to zero. *)
Definition reconstruct_image (bottleneck : tensor F) : M core (tensor F) :=
  if ((size1 bottleneck * numel_spatial bottleneck)%nat =? 0)%nat then
    lift (Raise (RuntimeError "cannot reshape tensor of 0 elements"))
  else
    let x_rec := bottleneck in
    emit (Reconstruct x_rec) ;;
    mret (reconstruct x_rec).

(** [t[0,:,:,:,:]] *)
Definition first_sample (t : tensor F) : result (list (list F)) :=
  py_getitem (data t) 0.

(** [v.backward()] *)
Definition backward (v : pyval) : M core unit :=
  match v with
  | PyTensor _ => emit (Backward v)
  | PyInt _ => lift (Raise (AttributeError "'int' object has no attribute 'backward'"))
  | PyFloat _ => lift (Raise (AttributeError "'float' object has no attribute 'backward'"))
  end.

(** *** [train_step] *)

Definition train_step (b : batch) : M core (gmap string pyval * Z) :=
  emit ZeroGrad ;;
  let imgs_s := image b in
  let all_labels := roi_label b in
  let scanner_labels := scanner_label b in
  let ids := all_labels in
  let latents := swinViT imgs_s in
  s ← get;
  latents4 ← lift (py_getitem latents 4);
  parts ← lift (split_latent latents4 (contrastive_latentsize s));
  let '(nlatents4, bottleneck) := parts in
  l0 ← lift (py_getitem latents 0);
  l1 ← lift (py_getitem latents 1);
  l2 ← lift (py_getitem latents 2);
  l3 ← lift (py_getitem latents 3);
  let nlatents := [l0; l1; l2; l3; nlatents4] in
  let accu := 0 in
  set_loss "classification_loss" (PyFloat (float_of_Z 0)) ;;
  reconstructed_imgs ← reconstruct_image latents4;
  lift (first_sample reconstructed_imgs) ;;
  emit (NibSave "reconstructed_image.nii") ;;
  lift (first_sample imgs_s) ;;
  emit (NibSave "original_image.nii") ;;
  reconstruction_step reconstructed_imgs imgs_s ;;
  s ← get;
  total_loss ←
    (if 0 <=? epoch s then
       classification ← get_loss "classification_loss";
       contrast ← get_loss "contrast_loss";
       reconstruction ← get_loss "reconstruction_loss";
       mret (py_add (py_add classification contrast) reconstruction)
     else get_loss "contrast_loss");
  set_loss "total_loss" total_loss ;;
  total_loss ← get_loss "total_loss";
  backward total_loss ;;
  emit OptimizerStep ;;
  s ← get;
  mret (losses_dict s, accu).

(** The losses dictionary after one step that starts from [d]. *)
Definition losses_after (d : gmap string pyval) (contrast : pyval)
    (reconstruction : F) : gmap string pyval :=
  <["total_loss" :=
      py_add (py_add (PyFloat (float_of_Z 0)) contrast) (PyTensor reconstruction)]>
    (<["reconstruction_loss" := PyTensor reconstruction]>
       (<["classification_loss" := PyFloat (float_of_Z 0)]> d)).

(** A step on a non-empty batch whose encoder output has a bottleneck that
    can be split. *)
Record steppable (s : core) (b : batch) (latents4 : tensor F)
    (contrast : pyval) : Prop := {
  step_latents4 : swinViT (image b) !! 4%nat = Some latents4;
  step_split : 0 ≤ contrastive_latentsize s ≤ Z.of_nat (size1 latents4);
  step_numel : (size1 latents4 * numel_spatial latents4)%nat ≠ 0%nat;
  step_rec : is_Some (data (reconstruct latents4) !! 0%nat);
  step_img : is_Some (data (image b) !! 0%nat);
  step_contrast : losses_dict s !! "contrast_loss" = Some contrast;
  step_epoch : 0 ≤ epoch s;
}.

(** The tensors handed to the decoder [self.reconstruct]. *)
Definition decoder_inputs (evs : list event) : list (tensor F) :=
  omap (λ e, match e with Reconstruct x_rec => Some x_rec | _ => None end) evs.

(** *** [save_losses], [train_epoch] *)

Definition save_losses (train_loss : pyval) : M core unit :=
  modify (λ s, set_train_losses s
    {| contrast_losses := contrast_losses (train_losses s);
       classification_losses := classification_losses (train_losses s);
       reconstruction_losses := reconstruction_losses (train_losses s);
       total_losses := total_losses (train_losses s) ++ [train_loss] |}) ;;
  contrast ← get_loss "contrast_loss";
  modify (λ s, set_train_losses s
    {| contrast_losses := contrast_losses (train_losses s) ++ [contrast];
       classification_losses := classification_losses (train_losses s);
       reconstruction_losses := reconstruction_losses (train_losses s);
       total_losses := total_losses (train_losses s) |}) ;;
  classification ← get_loss "classification_loss";
  modify (λ s, set_train_losses s
    {| contrast_losses := contrast_losses (train_losses s);
       classification_losses :=
         classification_losses (train_losses s) ++ [classification];
       reconstruction_losses := reconstruction_losses (train_losses s);
       total_losses := total_losses (train_losses s) |}) ;;
  reconstruction ← get_loss "reconstruction_loss";
  modify (λ s, set_train_losses s
    {| contrast_losses := contrast_losses (train_losses s);
       classification_losses := classification_losses (train_losses s);
       reconstruction_losses :=
         reconstruction_losses (train_losses s) ++ [reconstruction];
       total_losses := total_losses (train_losses s) |}) ;;
  s ← get;
  emit (JsonDump "contrast_losses.json" (contrast_losses (train_losses s))) ;;
  emit (JsonDump "classification_losses.json"
          (classification_losses (train_losses s))) ;;
  emit (JsonDump "total_losses.json" (total_losses (train_losses s))) ;;
  emit (JsonDump "reconstruction_losses.json"
          (reconstruction_losses (train_losses s))).

(** The body of [for step, batch in enumerate(epoch_iterator)], with
    [running_loss] threaded through. *)
Fixpoint train_epoch_loop (step : nat) (running_loss : pyval)
    (batches : list batch) : M core unit :=
  match batches with
  | [] => mret tt
  | b :: batches' =>
      emit (IterateBatch step) ;;
      out ← train_step b;
      let loss := out.1 in
      total ← lift (dict_get loss "total_loss");
      x ← lift (item total);
      let running_loss := py_add running_loss (PyFloat x) in
      let average_loss :=
        fdiv (to_float running_loss) (float_of_Z (Z.of_nat step + 1)) in
      lift (dict_get loss "contrast_loss") ;;
      lift (dict_get loss "classification_loss") ;;
      emit (SetDescription (step + 1) average_loss) ;;
      (if Z.of_nat step `mod` step_interval =? 0
       then save_losses (PyFloat average_loss) else mret tt) ;;
      train_epoch_loop (S step) running_loss batches'
  end.

Definition train_epoch (train_loader : list batch) : M core unit :=
  train_epoch_loop 0 (PyInt 0) train_loader ;;
  emit ProgressUpdate ;;
  modify (λ s, set_epoch s (epoch s + 1)).

(** *** [plot_losses], [test_epoch] *)

(** [[loss.detach().numpy() for loss in losses]] *)
Fixpoint detach_all (losses : list pyval) : result (list F) :=
  match losses with
  | [] => Ok []
  | v :: rest => x ← detach v; xs ← detach_all rest; Ok (x :: xs)
  end.

Definition plot_losses : M core unit :=
  s ← get;
  lift (detach_all (contrast_losses (train_losses s))) ;;
  lift (detach_all (classification_losses (train_losses s))) ;;
  lift (detach_all (reconstruction_losses (train_losses s))) ;;
  lift (detach_all (total_losses (train_losses s))) ;;
  emit PlotLosses.

(** [np.mean] *)
Variable np_mean : list Z → F.

Fixpoint test_epoch_loop (running_val_loss : pyval) (test_loader : list batch)
    : M core pyval :=
  match test_loader with
  | [] => mret running_val_loss
  | _ :: rest =>
      total ← get_loss "total_loss";
      x ← lift (item total);
      test_epoch_loop (py_add running_val_loss (PyFloat x)) rest
  end.

(** The only writer of [acc_dict['best_test_acc']]. *)
Definition test_epoch (test_loader : list batch) : M core unit :=
  running_val_loss ← test_epoch_loop (PyInt 0) test_loader;
  let total_test_accuracy := replicate (length test_loader) 0 in
  let avg_test_accuracy := np_mean total_test_accuracy in
  (if (length test_loader =? 0)%nat
   then lift (Raise ZeroDivisionError) else mret tt) ;;
  modify (λ s, set_acc_dict s
                 (<["best_test_acc" := PyFloat avg_test_accuracy]> (acc_dict s))).

(** *** [train] *)

(** [self], with the attributes only [train], [plot_latent_space] and
    [create_gif] use kept next to [core]. *)
Record self : Type := Self {
  inner : core;
  num_epoch : Z;
  save_name : string;
  tsne_plots : list string;
}.

Definition set_inner (st : self) (c : core) : self :=
  {| inner := c; num_epoch := num_epoch st; save_name := save_name st;
     tsne_plots := tsne_plots st |}.

Definition set_tsne_plots (st : self) (l : list string) : self :=
  {| inner := inner st; num_epoch := num_epoch st;
     save_name := save_name st; tsne_plots := l |}.

(** Run a method that only uses [core]. *)
Definition zoom {A : Type} (m : M core A) : M self A := λ st,
  let '(r, c, evs) := m (inner st) in (r, set_inner st c, evs).

(** [__init__], as far as the attributes above go. *)
Definition init (num_epoch contrastive_latentsize : Z) (savename : string)
    : self :=
  {| inner :=
       {| epoch := 0;
          contrastive_latentsize := contrastive_latentsize;
          acc_dict := {[ "src_best_train_acc" := PyInt 0;
                         "src_best_test_acc" := PyInt 0;
                         "tgt_best_test_acc" := PyInt 0 ]};
          losses_dict := {[ "total_loss" := PyInt 0;
                            "src_classification_loss" := PyInt 0;
                            "contrast_loss" := PyInt 0 ]};
          train_losses := LossesLog [] [] [] [] |};
     num_epoch := num_epoch;
     save_name := savename;
     tsne_plots := [] |}.

(** What the surroundings decide: the batches the train loader yields
    in the epoch that starts with counter [epoch], whether the t-SNE
    plot made after [epoch] epochs raises, and two string operations. *)
Variable train_loader : Z → list batch.
Variable plot_outcome : Z → option exn.
Variable plot_path : string → Z → string.
Variable reconstruction_path : string → string.

Definition plot_latent_space (ep : Z) : M self unit :=
  emit (PlotLatentSpace ep) ;;
  match plot_outcome ep with
  | Some e => lift (Raise e)
  | None =>
      modify (λ st, set_tsne_plots st
                      (tsne_plots st ++ [plot_path (save_name st) ep]))
  end.

(** [try: body / except Exception as e: handler e] *)
Definition try_except {S : Type} (body : M S unit) (handler : exn → M S unit)
    : M S unit := λ s,
  match body s with
  | (Raise e, s', evs) =>
      if is_Exception e then
        let '(r, s'', evs') := handler e s' in (r, s'', evs ++ evs')
      else (Raise e, s', evs)
  | returned => returned
  end.

(** One round of [while self.epoch < self.num_epoch]; the branch on
    [self.epoch % self.log_summary_interval] holds only [pass]. *)
Definition train_round : M self unit :=
  st ← get;
  zoom (train_epoch (train_loader (epoch (inner st)))) ;;
  emit LrSchedulerStep ;;
  emit DatasetUpdateCache ;;
  st ← get;
  if epoch (inner st) `mod` 5 =? 0 then
    try_except (plot_latent_space (epoch (inner st)))
               (λ e, emit (PrintPlotError e))
  else mret tt.

(** The [while] loop; [None] when [fuel] rounds do not finish it. *)
Fixpoint train_loop (fuel : nat) (st : self)
    : option (result unit * self * list event) :=
  if epoch (inner st) <? num_epoch st then
    match fuel with
    | O => None
    | S fuel' =>
        match train_round st with
        | (Ok _, st', evs) =>
            match train_loop fuel' st' with
            | Some (r, st'', evs') => Some (r, st'', evs ++ evs')
            | None => None
            end
        | (Raise e, st', evs) => Some (Raise e, st', evs)
        end
    end
  else Some (Ok tt, st, []).

(** [return self.acc_dict['best_test_acc']] *)
Definition return_best_test_acc : M self pyval :=
  st ← get; lift (dict_get (acc_dict (inner st)) "best_test_acc").

(** What follows the loop in [train]. *)
Definition train_finish : M self pyval :=
  emit DatasetShutdown ;;
  emit TestDatasetShutdown ;;
  emit (ProgressWrite "Finish training") ;;
  st ← get;
  emit (SaveModel (save_name st)) ;;
  emit (SaveReconstructionModel (reconstruction_path (save_name st))) ;;
  emit (CreateGif (tsne_plots st)) ;;
  zoom plot_losses ;;
  return_best_test_acc.

Definition train_start : list event :=
  [ProgressWrite "Start training"; DatasetStart; TestDatasetStart; ModelTrain].

Definition train (fuel : nat) (st : self)
    : option (result pyval * self * list event) :=
  match train_loop fuel st with
  | Some (Ok _, st', evs) =>
      let '(r, st'', evs') := train_finish st' in
      Some (r, st'', train_start ++ evs ++ evs')
  | Some (Raise e, st', evs) => Some (Raise e, st', train_start ++ evs)
  | None => None
  end.

(** *** Views of a run *)

(** The calls on the train dataset and the marks of the epochs: a batch
    taken from the loader, the end of an epoch. *)
Definition lifecycle (e : event) : bool :=
  match e with
  | DatasetStart | IterateBatch _ | ProgressUpdate | DatasetUpdateCache
  | DatasetShutdown => true
  | _ => false
  end.

Definition lifecycle_view (evs : list event) : list event :=
  filter (λ e, lifecycle e) evs.

(** The lifecycle of [n] epochs, the first with counter [first]. *)
Fixpoint epoch_schedule (first : Z) (n : nat) : list event :=
  match n with
  | O => []
  | S n' =>
      (IterateBatch <$> seq 0 (length (train_loader first)))
        ++ [ProgressUpdate; DatasetUpdateCache]
        ++ epoch_schedule (first + 1) n'
  end.

(** What the latent-space plots leave behind. *)
Definition plot_related (e : event) : bool :=
  match e with
  | PlotLatentSpace _ | PrintPlotError _ | CreateGif _ => true
  | _ => false
  end.

(** A method leaves [epoch] and [acc_dict] alone, makes no call that has
    to do with the plots and, when it returns, has made the lifecycle
    calls [v]. *)
Definition traces {A : Type} (m : M core A) (v : list event) : Prop :=
  ∀ s, let '(r, s', evs) := m s in
       epoch s' = epoch s ∧ acc_dict s' = acc_dict s ∧
       Forall (λ e, plot_related e = false) evs ∧
       (∀ a, r = Ok a → lifecycle_view evs = v).

Definition without_plots (evs : list event) : list event :=
  filter (λ e, ¬ plot_related e) evs.

(** A run without the traces of the plots: its outcome, the attributes
    apart from [tsne_plots], and the other calls. *)
Definition training_view (run : result pyval * self * list event)
    : result pyval * core * Z * string * list event :=
  let '(r, st, evs) := run in
  (r, inner st, num_epoch st, save_name st, without_plots evs).

(** Two states of [self] that differ at most in [tsne_plots]. *)
Definition same_training (st1 st2 : self) : Prop :=
  inner st1 = inner st2 ∧ num_epoch st1 = num_epoch st2 ∧
  save_name st1 = save_name st2.

(** The epochs at which a plot was attempted, and the errors printed. *)
Definition plots_attempted (evs : list event) : list Z :=
  omap (λ e, match e with PlotLatentSpace ep => Some ep | _ => None end) evs.

Definition errors_printed (evs : list event) : list exn :=
  omap (λ e, match e with PrintPlotError x => Some x | _ => None end) evs.

(** Every attempted plot that raised was printed. *)
Definition logged (evs : list event) : Prop :=
  errors_printed evs = omap plot_outcome (plots_attempted evs).

(** The plots raise nothing but subclasses of [Exception]. *)
Definition only_Exception : Prop :=
  ∀ ep e, plot_outcome ep = Some e → is_Exception e = true.

End Train.
Arguments self F : clear implicits.
Arguments pyval F : clear implicits.
Arguments batch F : clear implicits.
Arguments event F : clear implicits.
Arguments losses_log F : clear implicits.
Arguments core F : clear implicits.
Arguments contrastive_state F : clear implicits.
Arguments M F S A : clear implicits.
End Train.

(** ** [torch_oscar.run_inference] *)

Module Oscar.

Section RunInference.
Context {F Img : Type}.

(** The field names of [qa4iqi_extraction.constants]. *)
Variables SERIES_NUMBER_FIELD SERIES_DESCRIPTION_FIELD
          MANUFACTURER_MODEL_NAME_FIELD MANUFACTURER_FIELD
          SLICE_THICKNESS_FIELD : string.

(** [pytorch_model(image.view(-1, 1, 64, 64, 32))
     .cpu().numpy().reshape(-1).tolist()] *)
Variable forward : Img → result (list F).

(** A collated batch of size one. *)
Record batch : Type := Batch {
  image : Img;
  info : gmap string (list string);
  roi_label : list string;
}.

(** A value written to the CSV file. *)
Inductive cell : Type :=
| Str (s : string)
| Features (latentrep : list F).

Record csv_file : Type := CsvFile {
  path : string;
  rows : list (list cell);
}.

Definition fieldnames : list string :=
  ["SeriesNumber"; "deepfeatures"; "ROI"; "SeriesDescription";
   "ManufacturerModelName"; "Manufacturer"; "SliceThickness"].

(** [batch["info"][field][0]] *)
Definition info_first (b : batch) (field : string) : result cell :=
  l ← dict_get (info b) field;
  v ← py_getitem l 0;
  Ok (Str v).

(** The dict [record] built for one batch. *)
Definition make_record (b : batch) : result (gmap string cell) :=
  latentrep ← forward (image b);
  series_number ← info_first b SERIES_NUMBER_FIELD;
  roi ← py_getitem (roi_label b) 0;
  series_description ← info_first b SERIES_DESCRIPTION_FIELD;
  model_name ← info_first b MANUFACTURER_MODEL_NAME_FIELD;
  manufacturer ← info_first b MANUFACTURER_FIELD;
  slice_thickness ← info_first b SLICE_THICKNESS_FIELD;
  Ok (<["SliceThickness" := slice_thickness]>
      (<["Manufacturer" := manufacturer]>
      (<["ManufacturerModelName" := model_name]>
      (<["SeriesDescription" := series_description]>
      (<["ROI" := Str roi]>
      (<["deepfeatures" := Features latentrep]>
      (<["SeriesNumber" := series_number]> ∅))))))).

(** [csv.DictWriter.writerow] with the default [extrasaction='raise']
    and [restval='']: the row it appends. *)
Definition writerow (fields : list string) (rowdict : gmap string cell)
    : result (list cell) :=
  if decide (dom rowdict ⊆ list_to_set fields) then
    Ok ((λ k, default (Str "") (rowdict !! k)) <$> fields)
  else Raise (ValueError "dict contains fields not in fieldnames").

(** [csv.DictWriter.writeheader] *)
Definition writeheader (fields : list string) : list cell :=
  Str <$> fields.

(** [for batch in tqdm(dataload)]: the rows written so far travel
    along, a raised exception leaves them in the file. *)
Fixpoint write_records (dataload : list batch) (written : list (list cell))
    : result unit * list (list cell) :=
  match dataload with
  | [] => (Ok tt, written)
  | b :: rest =>
      match record ← make_record b; writerow fieldnames record with
      | Ok row => write_records rest (written ++ [row])
      | Raise e => (Raise e, written)
      end
  end.

Definition run_inference (dataload : list batch) : result unit * csv_file :=
  let '(r, written) := write_records dataload [writeheader fieldnames] in
  (r, {| path := "torch_normalized_deepfeaturesoscar.csv";
         rows := written |}).

(** A batch that [run_inference] can process. *)
Definition processable (b : batch) : Prop :=
  (∃ latentrep, forward (image b) = Ok latentrep) ∧
  (∃ roi, roi_label b !! 0%nat = Some roi) ∧
  Forall (λ field, ∃ l v, info b !! field = Some l ∧ l !! 0%nat = Some v)
    [SERIES_NUMBER_FIELD; SERIES_DESCRIPTION_FIELD;
     MANUFACTURER_MODEL_NAME_FIELD; MANUFACTURER_FIELD;
     SLICE_THICKNESS_FIELD].

(** [row] is the CSV record of batch [b]: the values of the dict built
    for [b], which has the seven fields and no other, in the order of
    [fieldnames]. *)
Definition record_of (b : batch) (row : list cell) : Prop :=
  ∃ record,
    make_record b = Ok record ∧
    dom record = list_to_set fieldnames ∧
    Forall2 (λ k v, record !! k = Some v) fieldnames row.

End RunInference.
Arguments batch Img : clear implicits.
Arguments cell F : clear implicits.
Arguments csv_file F : clear implicits.

(** A batch of the phantom dataset, with DICOM attribute names as the
    field constants. *)
Definition toy_batch : batch unit :=
  {| image := tt;
     info := {[ "SeriesNumber" := ["4"];
                "SeriesDescription" := ["A1 - #1"];
                "ManufacturerModelName" := ["SOMATOM"];
                "Manufacturer" := ["SIEMENS"];
                "SliceThickness" := ["2.0"] ]};
     roi_label := ["cyst1"] |}.

Definition toy_run_inference :=
  run_inference (F := Z) "SeriesNumber" "SeriesDescription"
    "ManufacturerModelName" "Manufacturer" "SliceThickness"
    (λ _ : unit, Ok [1; 2]).

End Oscar.

(** ** A small concrete instance

    Integers for floats, a bottleneck of two samples with three channels
    of two voxels, and constant stand-ins for the networks. *)

Module Toy.
Import Torch Train.

Definition bottleneck_1x3x2 : tensor Z :=
  {| size0 := 1; size1 := 3; spatial := (1, 1, 2)%nat;
     data := [[[1; 2]; [3; 4]; [5; 6]]] |}.

Definition latent_2x3x2 : tensor Z :=
  {| size0 := 2; size1 := 3; spatial := (1, 1, 2)%nat;
     data := [[[1; 2]; [3; 4]; [5; 6]]; [[7; 8]; [9; 10]; [11; 12]]] |}.

Definition image_2 : tensor Z :=
  {| size0 := 2; size1 := 1; spatial := (1, 1, 1)%nat;
     data := [[[0]]; [[1]]] |}.

Definition swinViT (img : tensor Z) : list (tensor Z) :=
  [img; img; img; img; latent_2x3x2].

Definition reconstruct (x_rec : tensor Z) : tensor Z := image_2.

Definition recons_loss (output target : tensor Z) : Z := 7.

Definition contrast_loss (embeddings : list (option (list Z)))
    (labels : list (option Z)) : Z := 1.

Definition batch0 : batch Z :=
  {| image := image_2; roi_label := [3; 5]; scanner_label := [0; 1] |}.

Definition train_loader (epoch : Z) : list (batch Z) := [batch0].

Definition plot_path (save_name : string) (epoch : Z) : string :=
  (save_name ++ "_latent_space_tsne_epoch.png")%string.

Definition reconstruction_path (save_name : string) : string :=
  "model_reconstruction.pth".

(** A loader without batches. *)
Definition no_batches (epoch : Z) : list (batch Z) := [].

(** Every plot fails. *)
Definition plot_outcome (epoch : Z) : option exn :=
  Some (RuntimeError "t-SNE failed").

(** [train] on integers. *)
Definition train_loop :=
  Train.train_loop Z.add Z.div id swinViT reconstruct recons_loss train_loader.
Definition train :=
  Train.train Z.add Z.div id swinViT reconstruct recons_loss train_loader.

(** [train_step] and [contrastive_step] on integers. *)
Definition train_step := Train.train_step Z.add id swinViT reconstruct recons_loss.
Definition contrastive_step := Train.contrastive_step (F := Z) contrast_loss.

End Toy.

(** ** The scanner label of the transform pipeline *)

Module Transforms.
Import GroupSplit.

(** [ExtractScannerLabel.__call__]: the value it stores under
    ['scanner_label'], [data['info']['SeriesDescription'][:2]]. *)
Definition ExtractScannerLabel (it : item) : string :=
  String.substring 0 2 (SeriesDescription it).

End Transforms.

(** ** The first version of the split: [swin_contrastive/train.py] *)

Module LegacySplit.
Import GroupSplit.

Section Splitting.

Variable extract_base : string → string.
Variable splitter : Q → Z → list Z → result (list nat * list nat).

(** The loop of this version's [group_data], which writes ['group_id']
    into every item and keeps no list of the ids. *)
Fixpoint group_data_loop (m : mode) (group_map : gmap string Z)
    (data_list : list item) : list item :=
  match data_list with
  | [] => []
  | it :: rest =>
      let k := group_key extract_base m it in
      let group_map' :=
        match group_map !! k with
        | None => <[k := Z.of_nat (size group_map)]> group_map
        | Some _ => group_map
        end in
      set_group_id it (default 0 (group_map' !! k))
        :: group_data_loop m group_map' rest
  end.

(** [group_data] returns [data_list], annotated. *)
Definition group_data (data_list : list item) (m : mode) : list item :=
  group_data_loop m ∅ data_list.

(** [[item['group_id'] for item in data_list]] *)
Fixpoint group_ids (data_list : list item) : result (list Z) :=
  match data_list with
  | [] => Ok []
  | it :: rest =>
      g ← match group_id it with
          | Some g => Ok g
          | None => Raise (KeyError "group_id")
          end;
      gs ← group_ids rest;
      Ok (g :: gs)
  end.

(** [create_datasets] without the guard on [test_size]. *)
Definition create_datasets (data_list : list item) (test_size : Q)
    (seed : Z) : result (list item * list item) :=
  let data_list := group_data data_list scanner in
  groups ← group_ids data_list;
  idx ← splitter test_size seed groups;
  let '(train_idx, test_idx) := idx in
  train_data ← py_select data_list train_idx;
  test_data ← py_select data_list test_idx;
  Ok (train_data, test_data).

End Splitting.

End LegacySplit.

(** ** [compute_accuracy] *)

Module Accuracy.

Section Accuracy.
Context {F : Type}.

(** Float arithmetic, and the index [torch.max] returns for one row of
    logits. *)
Variables (fmul fdiv : F → F → F) (float_of_Z : Z → F).
Variable argmax : list F → Z.

(** [torch.max(logits, dim=1)[1]] for logits of shape
    [(len(logits), classes)]; a reduction over a dimension of size zero
    is refused. *)
Definition max_indices (logits : list (list F)) (classes : nat)
    : result (list Z) :=
  if (classes =? 0)%nat then Raise IndexError
  else Ok (argmax <$> logits).

(** [(a == b).sum().item()] *)
Definition count_equal (a b : list Z) : nat :=
  length (filter (λ p, p.1 = p.2) (zip a b)).

(** [(a == c).sum().item()] for a scalar [c] *)
Definition count_is (c : Z) (a : list Z) : nat :=
  length (filter (λ x, x = c) a).

(** The list [class_accuracies] that the loop over
    [range(num_classes)] builds. *)
Definition class_accuracies (predictions true_labels : list Z)
    (num_classes : nat) : list F :=
  (λ class_label : nat,
     let class_mask :=
       (λ l, bool_decide (l = Z.of_nat class_label)) <$> true_labels in
     let class_count := count_is (Z.of_nat class_label) true_labels in
     if (class_count =? 0)%nat then float_of_Z 0
     else
       fdiv (fmul (float_of_Z 100)
               (float_of_Z
                  (Z.of_nat
                     (count_is (Z.of_nat class_label)
                        (Torch.select_mask class_mask predictions)))))
            (float_of_Z (Z.of_nat class_count)))
    <$> seq 0 num_classes.

(** [torch.mean] of a Python list: the argument is not a tensor. *)
Definition torch_mean_of_list (l : list F) : result F :=
  Raise (OtherException "TypeError: mean(): argument 'input' must be Tensor, not list").

Definition compute_accuracy (logits : list (list F)) (classes : nat)
    (true_labels : list Z) (acc_metric : string) : result F :=
  if negb (length logits =? length true_labels)%nat then
    Raise (OtherException "AssertionError")
  else if String.eqb acc_metric "total_mean" then
    predictions ← max_indices logits classes;
    let correct := count_equal predictions true_labels in
    if (length logits =? 0)%nat then Raise ZeroDivisionError
    else
      Ok (fdiv (fmul (float_of_Z 100) (float_of_Z (Z.of_nat correct)))
               (float_of_Z (Z.of_nat (length logits))))
  else if String.eqb acc_metric "class_mean" then
    let num_classes := classes in
    predictions ← max_indices logits classes;
    torch_mean_of_list (class_accuracies predictions true_labels num_classes)
  else
    Raise (ValueError ("acc_metric, " ++ acc_metric ++ " is not available.")).

End Accuracy.

End Accuracy.

(** ** Views of the calls of a run, and the shape of [train_losses] *)

Module TrainViews.
Import Torch Train.

Section Views.
Context {F : Type}.

(** The four lists of [train_losses] have the same length. *)
Definition balanced (l : losses_log F) : Prop :=
  length (contrast_losses l) = length (total_losses l) ∧
  length (classification_losses l) = length (total_losses l) ∧
  length (reconstruction_losses l) = length (total_losses l).

Definition is_tensor (v : pyval F) : bool :=
  match v with
  | PyTensor _ => true
  | _ => false
  end.

(** The calls on the optimizer. *)
Definition optimizer_call (e : event F) : bool :=
  match e with
  | ZeroGrad | Backward _ | OptimizerStep => true
  | _ => false
  end.

Definition optimizer_view (evs : list (event F)) : list (event F) :=
  filter (λ e, optimizer_call e) evs.

(** What [train] does once the loop is over. *)
Definition closing_call (e : event F) : bool :=
  match e with
  | DatasetShutdown | TestDatasetShutdown | SaveModel _
  | SaveReconstructionModel _ | CreateGif _ | PlotLosses => true
  | _ => false
  end.

(** The calls one training step makes. *)
Definition step_call (e : event F) : bool :=
  match e with
  | ZeroGrad | Reconstruct _ | NibSave _ | Backward _ | OptimizerStep => true
  | _ => false
  end.

(** [self] after a call [save_losses(train_loss)] that finds the losses
    [c], [k] and [r] in [losses_dict], and the four JSON files it
    writes. *)
Definition recorded (s : core F) (train_loss c k r : pyval F) : core F :=
  set_train_losses s
    {| contrast_losses := contrast_losses (train_losses s) ++ [c];
       classification_losses := classification_losses (train_losses s) ++ [k];
       reconstruction_losses := reconstruction_losses (train_losses s) ++ [r];
       total_losses := total_losses (train_losses s) ++ [train_loss] |}.

Definition json_dumps (l : losses_log F) : list (event F) :=
  [JsonDump "contrast_losses.json" (contrast_losses l);
   JsonDump "classification_losses.json" (classification_losses l);
   JsonDump "total_losses.json" (total_losses l);
   JsonDump "reconstruction_losses.json" (reconstruction_losses l)].

End Views.

End TrainViews.

(** ** Runs of the concrete instance *)

Module ToyRuns.
Import Torch Train.

Definition train_epoch :=
  Train.train_epoch Z.add Z.div id Toy.swinViT Toy.reconstruct Toy.recons_loss.

(** [self] after [__init__] and after one training step. *)
Definition fresh : core Z := inner (init 1 2 "model.pth").
Definition stepped : core Z := (Toy.train_step Toy.batch0 fresh).1.2.

(** [np.mean] on integers. *)
Definition np_mean (l : list Z) : Z := foldr Z.add 0 l / Z.of_nat (length l).

Definition test_epoch := Train.test_epoch Z.add id np_mean.

End ToyRuns.

(** * Verification *)

(** ** Sorted distinct values and positions *)

Lemma elem_of_insert_unique (x y : Z) (l : list Z) :
  y ∈ insert_unique x l ↔ y = x ∨ y ∈ l.
Proof.
  induction l as [|z l IH]; simpl.
  - set_solver.
  - destruct (Z.ltb_spec x z); [set_solver|].
    destruct (Z.eqb_spec x z) as [->|]; [set_solver|].
    rewrite !elem_of_cons, IH. tauto.
Qed.

Lemma elem_of_unique (x : Z) (l : list Z) : x ∈ unique l ↔ x ∈ l.
Proof.
  induction l as [|y l IH]; simpl; [done|].
  rewrite elem_of_insert_unique, elem_of_cons, IH. done.
Qed.

Lemma insert_unique_sorted (x : Z) (l : list Z) :
  StronglySorted Z.lt l → StronglySorted Z.lt (insert_unique x l).
Proof.
  induction 1 as [|z l Hs IH Hz]; simpl.
  - repeat constructor.
  - destruct (Z.ltb_spec x z).
    + constructor; [by constructor|].
      constructor; [done|].
      eapply Forall_impl; [exact Hz|]. intros; simpl in *; lia.
    + destruct (Z.eqb_spec x z); [by constructor|].
      constructor; [done|].
      apply Forall_forall. intros y [->|Hy]%elem_of_insert_unique; [lia|].
      by eapply Forall_forall in Hz.
Qed.

Lemma unique_sorted (l : list Z) : StronglySorted Z.lt (unique l).
Proof.
  induction l; simpl; [constructor|by apply insert_unique_sorted].
Qed.

Lemma NoDup_unique (l : list Z) : NoDup (unique l).
Proof.
  generalize (unique_sorted l).
  induction 1 as [|z k Hs IH Hz]; constructor; [|done].
  intros Hin. eapply Forall_forall in Hz; [|exact Hin]. lia.
Qed.

Lemma index_of_lookup (x : Z) (l : list Z) :
  x ∈ l → l !! index_of x l = Some x.
Proof.
  induction l as [|y l IH]; [by intros ?%elem_of_nil|].
  intros Hin. simpl. destruct (Z.eqb_spec x y) as [->|Hne]; [done|].
  apply elem_of_cons in Hin as [?|?]; [done|]. by apply IH.
Qed.

Lemma index_of_lt (x : Z) (l : list Z) :
  x ∈ l → (index_of x l < length l)%nat.
Proof. intros Hin. eapply lookup_lt_Some, index_of_lookup, Hin. Qed.

Lemma index_of_inj (x y : Z) (l : list Z) :
  x ∈ l → y ∈ l → index_of x l = index_of y l → x = y.
Proof.
  intros Hx%index_of_lookup Hy%index_of_lookup Heq.
  rewrite Heq in Hx. congruence.
Qed.

(** ** Selecting by index *)

Lemma py_select_omap {A : Type} (l : list A) (idx : list nat) (r : list A) :
  py_select l idx = Ok r → r = omap (λ i, l !! i) idx.
Proof.
  revert r. induction idx as [|i idx IH]; intros r; simpl.
  - by intros [= <-].
  - unfold py_getitem. destruct (l !! i) as [a|]; simpl; [|done].
    destruct (py_select l idx) as [rest|]; simpl; [|done].
    intros [= <-]. by rewrite (IH rest).
Qed.

Lemma py_select_ok {A : Type} (l : list A) (idx : list nat) :
  (∀ i, i ∈ idx → (i < length l)%nat) → ∃ r, py_select l idx = Ok r.
Proof.
  induction idx as [|i idx IH]; intros Hlt; simpl; [by eexists|].
  destruct (lookup_lt_is_Some_2 l i) as [a Ha]; [apply Hlt; set_solver|].
  destruct IH as [rest Hrest]; [intros; apply Hlt; set_solver|].
  unfold py_getitem. rewrite Ha. simpl. rewrite Hrest. simpl. by eexists.
Qed.

Lemma omap_lookup_seq_app {A : Type} (k l : list A) :
  omap (λ i, (k ++ l) !! i) (seq (length k) (length l)) = l.
Proof.
  revert k. induction l as [|a l IH]; intros k; [done|].
  simpl. rewrite list_lookup_middle by done. f_equal.
  specialize (IH (k ++ [a])).
  rewrite <- (assoc_L (++)), length_app, Nat.add_1_r in IH. exact IH.
Qed.

Lemma omap_lookup_seq {A : Type} (l : list A) :
  omap (λ i, l !! i) (seq 0 (length l)) = l.
Proof. exact (omap_lookup_seq_app [] l). Qed.

Lemma py_select_Permutation {A : Type} (l : list A) (idx1 idx2 : list nat)
    (r1 r2 : list A) :
  idx1 ++ idx2 ≡ₚ seq 0 (length l) →
  py_select l idx1 = Ok r1 → py_select l idx2 = Ok r2 →
  r1 ++ r2 ≡ₚ l.
Proof.
  intros Hp ->%py_select_omap ->%py_select_omap.
  rewrite <- omap_app, Hp. by rewrite omap_lookup_seq.
Qed.

(** ** The channel split *)

Module TorchFacts.
Import Torch.

Section Split.
Context {F : Type}.
Implicit Types (t a b : tensor F).

Lemma zip_take_drop {A : Type} (n : nat) (l : list (list A)) :
  zip_with app (take n <$> l) (drop n <$> l) = l.
Proof.
  induction l as [|x l IH]; [done|].
  rewrite !fmap_cons. cbn [zip_with]. by rewrite take_drop, IH.
Qed.

Lemma split_latent_Ok t (k : Z) :
  0 ≤ k ≤ Z.of_nat (size1 t) →
  split_latent t k
  = Ok ({| size0 := size0 t; size1 := Z.to_nat k; spatial := spatial t;
           data := take (Z.to_nat k) <$> data t |},
        {| size0 := size0 t; size1 := size1 t - Z.to_nat k;
           spatial := spatial t;
           data := drop (Z.to_nat k) <$> data t |}).
Proof.
  intros Hk. unfold split_latent, split_dim1.
  destruct (Z.ltb_spec k 0); [lia|].
  destruct (Z.ltb_spec (Z.of_nat (size1 t) - k) 0); [lia|].
  destruct (Z.eqb_spec (k + (Z.of_nat (size1 t) - k)) (Z.of_nat (size1 t)));
    [|lia].
  simpl. do 3 f_equal. lia.
Qed.

(** C4: for a bottleneck of [C] channels and [0 <= k <= C], the split
    of [train_step] returns a first part of [k] channels and a second
    of [C - k], both well-shaped, and concatenating them along the
    channel axis gives the bottleneck back. *)
Theorem split_latent_partition t (k : Z) :
  wf t →
  0 ≤ k ≤ Z.of_nat (size1 t) →
  ∃ a b,
    split_latent t k = Ok (a, b) ∧
    Z.of_nat (size1 a) = k ∧
    Z.of_nat (size1 b) = Z.of_nat (size1 t) - k ∧
    wf a ∧ wf b ∧
    cat_dim1 a b = Ok t.
Proof.
  intros [Hlen Hall] Hk. eexists _, _.
  split; [by apply split_latent_Ok|]. cbn [size0 size1 spatial data].
  split_and!; try lia.
  - split; simpl; [by rewrite length_fmap|].
    apply Forall_fmap. eapply Forall_impl; [exact Hall|].
    intros sample [Hs Hch]. simpl. split.
    + rewrite length_take. lia.
    + by apply Forall_take.
  - split; simpl; [by rewrite length_fmap|].
    apply Forall_fmap. eapply Forall_impl; [exact Hall|].
    intros sample [Hs Hch]. simpl. split.
    + rewrite length_drop. lia.
    + by apply Forall_drop.
  - unfold cat_dim1. cbn [size0 size1 spatial data].
    rewrite bool_decide_eq_true_2 by done.
    rewrite zip_take_drop. destruct t as [n c sp d].
    cbn [size0 size1 spatial data] in *.
    do 2 f_equal. lia.
Qed.

End Split.

Import Toy.

Lemma split_latent_partition_witness :
  ∃ a b,
    split_latent bottleneck_1x3x2 2 = Ok (a, b) ∧
    Z.of_nat (size1 a) = 2 ∧
    Z.of_nat (size1 b) = Z.of_nat (size1 bottleneck_1x3x2) - 2 ∧
    wf a ∧ wf b ∧
    cat_dim1 a b = Ok bottleneck_1x3x2.
Proof.
  apply (split_latent_partition bottleneck_1x3x2 2).
  - split; [reflexivity|]. repeat constructor.
  - simpl. lia.
Defined.

End TorchFacts.

Module GroupSplitFacts.
Import GroupSplit.

Lemma group_map_inv_empty : group_map_inv ∅.
Proof. split; intros *; by rewrite lookup_empty. Qed.

Lemma group_map_inv_fresh (gm : gmap string Z) (k : string) :
  group_map_inv gm → gm !! k = None →
  group_map_inv (<[k := Z.of_nat (size gm)]> gm).
Proof.
  intros [Hrange Hinj] Hk. split.
  - intros k' g. rewrite map_size_insert_None by done.
    rewrite lookup_insert. case_decide.
    + intros [= <-]. lia.
    + intros Hg%Hrange. lia.
  - intros k1 k2 g. rewrite !lookup_insert.
    repeat case_decide; subst; try done.
    + intros [= <-] Hg%Hrange. lia.
    + intros Hg%Hrange [= <-]. lia.
    + apply Hinj.
Qed.

Section Grouping.
Context (extract_base : string → string) (m : mode).
Local Abbreviation key := (group_key extract_base m).

Lemma group_key_set_group_id (it : item) (g : Z) :
  key (set_group_id it g) = key it.
Proof. by destruct m. Qed.

Lemma group_data_loop_spec (l : list item) :
  ∀ (gm gm' : gmap string Z) (items : list item) (ids : list Z),
    group_data_loop extract_base m gm l = (gm', items, ids) →
    group_map_inv gm →
    group_map_inv gm' ∧ gm ⊆ gm' ∧
    items = zip_with set_group_id l ids ∧
    Forall2 (λ it g, gm' !! key it = Some g) l ids.
Proof.
  induction l as [|it l IH]; intros gm gm' items ids; simpl.
  - intros [= <- <- <-] Hinv. split_and!; [done|done|done|constructor].
  - set (k := key it).
    set (gm1 := match gm !! k with
                | None => <[k := Z.of_nat (size gm)]> gm
                | Some _ => gm
                end).
    destruct (group_data_loop extract_base m gm1 l)
      as [[gm2 items2] ids2] eqn:Hloop.
    intros [= <- <- <-] Hinv.
    assert (group_map_inv gm1 ∧ gm ⊆ gm1 ∧ is_Some (gm1 !! k))
      as (Hinv1 & Hsub1 & [g Hg]).
    { subst gm1. destruct (gm !! k) as [g|] eqn:Hk.
      - by eauto.
      - split_and!; [by apply group_map_inv_fresh
                    |by apply insert_subseteq
                    |by rewrite lookup_insert_eq]. }
    destruct (IH _ _ _ _ Hloop Hinv1) as (Hinv2 & Hsub2 & Hitems & Hall).
    rewrite Hg. simpl. split_and!; [done|by etrans|by f_equal|].
    constructor; [|done].
    by eapply lookup_weaken.
Qed.

(** What [group_data] returns: one id per item, written into the
    item, and equal ids exactly for equal keys. *)
Lemma group_data_spec (l items : list item) (ids : list Z) :
  group_data extract_base l m = (items, ids) →
  length ids = length l ∧
  items = zip_with set_group_id l ids ∧
  ∀ i j a b g h,
    l !! i = Some a → l !! j = Some b →
    ids !! i = Some g → ids !! j = Some h →
    (g = h ↔ key a = key b).
Proof.
  unfold group_data.
  destruct (group_data_loop extract_base m ∅ l)
    as [[gm items'] ids'] eqn:Hloop.
  intros [= <- <-].
  destruct (group_data_loop_spec _ _ _ _ _ Hloop group_map_inv_empty)
    as ([_ Hinj] & _ & Hitems & Hall).
  split_and!; [symmetry; by eapply Forall2_length|done|].
  intros i j a b g h Ha Hb Hg Hh.
  pose proof (Forall2_lookup_lr _ _ _ _ _ _ Hall Ha Hg) as Hka.
  pose proof (Forall2_lookup_lr _ _ _ _ _ _ Hall Hb Hh) as Hkb.
  simpl in *. split.
  - intros <-. by eapply Hinj.
  - intros Heq. rewrite Heq in Hka. congruence.
Qed.

End Grouping.

Lemma manifest_entry_annotated (l : list item) (ids : list Z) :
  length ids = length l →
  manifest_entry <$> zip_with set_group_id l ids = manifest_entry <$> l.
Proof.
  revert ids. induction l as [|it l IH]; intros [|g ids] [=]; [done|].
  simpl. f_equal. by apply IH.
Qed.

(** *** The scikit-learn splitter meets the contract *)

Lemma filter_split_Permutation {A : Type} (P1 P2 : A → Prop)
    `{!∀ x, Decision (P1 x), !∀ x, Decision (P2 x)} (l : list A) :
  (∀ x, x ∈ l → (P2 x ↔ ¬ P1 x)) →
  filter P1 l ++ filter P2 l ≡ₚ l.
Proof.
  induction l as [|a l IH]; intros Hx; [done|].
  assert (filter P1 l ++ filter P2 l ≡ₚ l) as IH'.
  { apply IH. intros x Hin. apply Hx. by right. }
  specialize (Hx a (list_elem_of_here _ _)).
  destruct (decide (P1 a)) as [H1|H1].
  - rewrite filter_cons_True, filter_cons_False by tauto.
    simpl. by f_equiv.
  - rewrite filter_cons_False, filter_cons_True by tauto.
    rewrite <- Permutation_middle. by f_equiv.
Qed.

Lemma validate_shuffle_split_Ok (n : nat) (test_size : Q) (n_train n_test : nat) :
  validate_shuffle_split n test_size = Ok (n_train, n_test) →
  (n_train = n - n_test ∧ n_train ≠ 0)%nat.
Proof.
  unfold validate_shuffle_split.
  destruct (_ || _); [done|].
  destruct (Nat.eqb_spec (n - Z.to_nat (Qceiling (test_size * inject_Z (Z.of_nat n)))) 0);
    [done|].
  by intros [= <- <-].
Qed.

Lemma elem_of_flatnonzero_isin (a b : list nat) (i : nat) :
  i ∈ flatnonzero (isin a b) ↔ ∃ x, a !! i = Some x ∧ x ∈ b.
Proof.
  unfold flatnonzero, isin.
  rewrite list_elem_of_filter, list_lookup_fmap, elem_of_seq, length_fmap.
  split.
  - intros [Hi _]. destruct (a !! i) as [x|]; [|done].
    exists x. split; [done|]. simpl in Hi.
    injection Hi as Hi. by apply bool_decide_eq_true in Hi.
  - intros (x & Hx & Hin). rewrite Hx. simpl. split.
    + f_equal. by apply bool_decide_eq_true.
    + apply lookup_lt_Some in Hx. lia.
Qed.

Lemma group_shuffle_split_contract (rng_permutation : Z → nat → list nat) :
  (∀ seed n, rng_permutation seed n ≡ₚ seq 0 n) →
  splitter_contract (group_shuffle_split rng_permutation).
Proof.
  intros Hrng test_size seed groups train_idx test_idx.
  unfold group_shuffle_split.
  set (classes := unique groups).
  set (gi := (λ g, index_of g classes) <$> groups).
  destruct (validate_shuffle_split (length classes) test_size)
    as [[n_train n_test]|] eqn:Hsizes; [|done].
  apply validate_shuffle_split_Ok in Hsizes as [Htrain Hne].
  set (perm := rng_permutation seed (length classes)).
  simpl. intros [= <- <-].
  assert (perm ≡ₚ seq 0 (length classes)) as Hperm by apply Hrng.
  assert (take n_train (drop n_test perm) = drop n_test perm) as Hdrop.
  { apply take_ge. rewrite length_drop, Hperm, length_seq. lia. }
  rewrite Hdrop.
  assert (NoDup (take n_test perm ++ drop n_test perm)) as Hnd.
  { rewrite take_drop, Hperm. apply NoDup_seq. }
  apply NoDup_app in Hnd as (_ & Hdisj & _).
  assert (∀ i g, groups !! i = Some g →
            gi !! i = Some (index_of g classes) ∧
            index_of g classes ∈ perm) as Hgi.
  { intros i g Hg. subst gi. rewrite list_lookup_fmap, Hg. split; [done|].
    rewrite Hperm, elem_of_seq.
    assert (g ∈ classes) as Hcl.
    { apply elem_of_unique, list_elem_of_lookup. eauto. }
    pose proof (index_of_lt g classes Hcl). lia. }
  split.
  - unfold flatnonzero at 1 2. unfold isin. rewrite !length_fmap.
    assert (length gi = length groups) as Hlen by apply length_fmap.
    rewrite <- Hlen.
    apply filter_split_Permutation.
    intros i [_ Hi]%elem_of_seq.
    destruct (lookup_lt_is_Some_2 groups i) as [g Hg]; [lia|].
    destruct (Hgi i g Hg) as [Hlk Hin].
    rewrite !list_lookup_fmap, Hlk. simpl.
    rewrite <- (take_drop n_test perm) in Hin.
    apply elem_of_app in Hin as [Hin|Hin].
    + rewrite (bool_decide_eq_true_2 _ Hin).
      rewrite bool_decide_eq_false_2; [done|]. by apply Hdisj.
    + rewrite (bool_decide_eq_true_2 _ Hin).
      rewrite bool_decide_eq_false_2; [naive_solver|].
      intros Hin'. by eapply Hdisj.
  - intros i j g (x & Hx & Hin)%elem_of_flatnonzero_isin
      (y & Hy & Hin')%elem_of_flatnonzero_isin Hi Hj.
    destruct (Hgi i g Hi) as [Hlk _]. destruct (Hgi j g Hj) as [Hlk' _].
    eapply Hdisj; [exact Hin'|]. congruence.
Qed.

Lemma rotate_permutation_seq (seed : Z) (n : nat) :
  rotate_permutation seed n ≡ₚ seq 0 n.
Proof.
  unfold rotate_permutation, rotate.
  by rewrite Permutation_app_comm, take_drop.
Qed.

(** *** [create_datasets] *)

(** C10: when [test_size <= 0.00000001], [create_datasets] returns the
    input list itself as the training set (same items, same order, no
    ['group_id'] written) and the empty list as the test set, whatever
    the splitter would do. *)
Theorem create_datasets_without_split
    (extract_base : string → string)
    (splitter : Q → Z → list Z → result (list nat * list nat))
    (data_list : list item) (test_size : Q) (seed : Z) :
  (test_size <= min_test_size)%Q →
  create_datasets extract_base splitter data_list test_size seed
  = Ok (data_list, []).
Proof.
  intros Hle%Qle_bool_iff. unfold create_datasets. by rewrite Hle.
Qed.

Lemma create_datasets_without_split_witness :
  (0 <= min_test_size)%Q ∧
  create_datasets id (λ _ _ _, Raise (RuntimeError "not called"))
    [ct "A1 - #1"; ct "B2 - #1"] 0 42
  = Ok ([ct "A1 - #1"; ct "B2 - #1"], []).
Proof.
  split; [done|].
  apply (create_datasets_without_split id
           (λ _ _ _, Raise (RuntimeError "not called"))
           [ct "A1 - #1"; ct "B2 - #1"] 0 42).
  done.
Defined.

(** C2, as the claim states it, fails: with a single scanner the
    splitter has no group to leave on the training side and raises, so
    [create_datasets] returns nothing. *)
Lemma create_datasets_single_group_raises :
  (0 < 1 # 2 < 1)%Q ∧
  create_datasets id (group_shuffle_split rotate_permutation)
    [ct "A1 - #1"; ct "A1 - #2"] (1 # 2) 42
  = Raise (ValueError "the resulting train set will be empty").
Proof. split; [done|]. vm_compute. reflexivity. Qed.

(** C2, amended: for [0 < test_size < 1], whenever the splitter returns
    a split (or is not called because [test_size <= 0.00000001]),
    [create_datasets] returns [(train_data, test_data)] that hold the
    items of [data_list], each once, and no scanner key (first two
    characters of [SeriesDescription]) has items on both sides. *)
Theorem create_datasets_group_aware
    (extract_base : string → string)
    (splitter : Q → Z → list Z → result (list nat * list nat))
    (data_list : list item) (test_size : Q) (seed : Z) :
  splitter_contract splitter →
  (0 < test_size < 1)%Q →
  (¬ (test_size <= min_test_size)%Q →
   ∃ idx, splitter test_size seed
            (group_data extract_base data_list scanner).2 = Ok idx) →
  ∃ train_data test_data,
    create_datasets extract_base splitter data_list test_size seed
    = Ok (train_data, test_data) ∧
    manifest_entry <$> (train_data ++ test_data)
      ≡ₚ manifest_entry <$> data_list ∧
    group_disjoint (group_key extract_base scanner) train_data test_data.
Proof.
  intros Hcontract _ Hsplit. unfold create_datasets.
  destruct (Qle_bool test_size min_test_size) eqn:Hle.
  { exists data_list, []. split_and!; [done|by rewrite app_nil_r|].
    by intros a b _ ?%elem_of_nil. }
  destruct Hsplit as [[train_idx test_idx] Hidx].
  { rewrite <- Qle_bool_iff. by rewrite Hle. }
  destruct (group_data extract_base data_list scanner)
    as [items ids] eqn:Hgd.
  apply group_data_spec in Hgd as (Hlen & Hitems & Hids).
  simpl in Hidx. rewrite Hidx. simpl.
  destruct (Hcontract _ _ _ _ _ Hidx) as [Hperm Hdisj].
  assert (length items = length ids) as Hlen'.
  { rewrite Hitems, length_zip_with. lia. }
  rewrite <- Hlen' in Hperm.
  assert (∀ i, i ∈ train_idx ++ test_idx → (i < length items)%nat) as Hlt.
  { intros i. rewrite Hperm, elem_of_seq. lia. }
  destruct (py_select_ok items train_idx) as [train_data Htrain].
  { intros i Hi. apply Hlt, elem_of_app. by left. }
  destruct (py_select_ok items test_idx) as [test_data Htest].
  { intros i Hi. apply Hlt, elem_of_app. by right. }
  rewrite Htrain, Htest. simpl.
  exists train_data, test_data. split_and!; [done| |].
  - rewrite (py_select_Permutation _ _ _ _ _ Hperm Htrain Htest).
    rewrite Hitems. by rewrite manifest_entry_annotated.
  - intros a b Ha Hb Hkey.
    apply py_select_omap in Htrain, Htest. subst train_data test_data.
    apply list_elem_of_omap in Ha as (i & Hi & Hai).
    apply list_elem_of_omap in Hb as (j & Hj & Hbj).
    rewrite Hitems in Hai, Hbj.
    apply lookup_zip_with_Some in Hai as (a0 & g & -> & Ha0 & Hg).
    apply lookup_zip_with_Some in Hbj as (b0 & h & -> & Hb0 & Hh).
    rewrite !group_key_set_group_id in Hkey.
    apply (Hids i j a0 b0 g h Ha0 Hb0 Hg Hh) in Hkey. subst h.
    by eapply Hdisj.
Qed.

Lemma create_datasets_group_aware_witness :
  ∃ train_data test_data,
    create_datasets id (group_shuffle_split rotate_permutation)
      [ct "A1 - #1"; ct "B2 - #1"; ct "A1 - #2"; ct "C1 - #1"] (1 # 2) 42
    = Ok (train_data, test_data) ∧
    manifest_entry <$> (train_data ++ test_data)
      ≡ₚ manifest_entry <$>
           [ct "A1 - #1"; ct "B2 - #1"; ct "A1 - #2"; ct "C1 - #1"] ∧
    group_disjoint (group_key id scanner) train_data test_data.
Proof.
  apply (create_datasets_group_aware id
           (group_shuffle_split rotate_permutation)
           [ct "A1 - #1"; ct "B2 - #1"; ct "A1 - #2"; ct "C1 - #1"]
           (1 # 2) 42).
  - apply group_shuffle_split_contract, rotate_permutation_seq.
  - done.
  - intros _. eexists. vm_compute. reflexivity.
Defined.

End GroupSplitFacts.

(** ** The CSV file of [run_inference] *)

Module OscarFacts.
Import Oscar.

Section Csv.
Context {F Img : Type}.
Context (SERIES_NUMBER_FIELD SERIES_DESCRIPTION_FIELD
         MANUFACTURER_MODEL_NAME_FIELD MANUFACTURER_FIELD
         SLICE_THICKNESS_FIELD : string).
Context (forward : Img → result (list F)).

Local Abbreviation make_record :=
  (Oscar.make_record SERIES_NUMBER_FIELD SERIES_DESCRIPTION_FIELD
     MANUFACTURER_MODEL_NAME_FIELD MANUFACTURER_FIELD SLICE_THICKNESS_FIELD
     forward).
Local Abbreviation write_records :=
  (Oscar.write_records SERIES_NUMBER_FIELD SERIES_DESCRIPTION_FIELD
     MANUFACTURER_MODEL_NAME_FIELD MANUFACTURER_FIELD SLICE_THICKNESS_FIELD
     forward).
Local Abbreviation run_inference :=
  (Oscar.run_inference SERIES_NUMBER_FIELD SERIES_DESCRIPTION_FIELD
     MANUFACTURER_MODEL_NAME_FIELD MANUFACTURER_FIELD SLICE_THICKNESS_FIELD
     forward).
Local Abbreviation processable :=
  (Oscar.processable SERIES_NUMBER_FIELD SERIES_DESCRIPTION_FIELD
     MANUFACTURER_MODEL_NAME_FIELD MANUFACTURER_FIELD SLICE_THICKNESS_FIELD
     forward).
Local Abbreviation record_of :=
  (Oscar.record_of SERIES_NUMBER_FIELD SERIES_DESCRIPTION_FIELD
     MANUFACTURER_MODEL_NAME_FIELD MANUFACTURER_FIELD SLICE_THICKNESS_FIELD
     forward).

Lemma info_first_Ok (b : batch Img) (field : string) (l : list string)
    (v : string) :
  info b !! field = Some l → l !! 0%nat = Some v →
  info_first (F := F) b field = Ok (Str v).
Proof.
  intros Hl Hv. unfold info_first, dict_get, py_getitem.
  rewrite Hl. cbn. by rewrite Hv.
Qed.

Lemma writerow_record (b : batch Img) :
  processable b →
  ∃ row, (record ← make_record b; writerow fieldnames record) = Ok row ∧
         record_of b row.
Proof.
  intros ([latentrep Hf] & [roi Hroi] & Hinfo).
  repeat match goal with
         | H : Forall _ (_ :: _) |- _ =>
             apply Forall_cons in H as [(? & ? & ? & ?) H]
         end.
  unfold Oscar.record_of, Oscar.make_record, py_getitem.
  rewrite Hf, Hroi. cbn [mbind result_bind].
  repeat (erewrite info_first_Ok by eassumption; cbn [mbind result_bind]).
  set (record := <["SliceThickness" := _]> _).
  assert (dom record = list_to_set fieldnames) as Hdom.
  { subst record. rewrite !dom_insert_L, dom_empty_L. cbn. set_solver. }
  unfold writerow. rewrite decide_True by (by rewrite Hdom).
  eexists. split; [done|]. exists record. split_and!; [done|done|].
  subst record. repeat constructor.
Qed.

Lemma write_records_Ok (dataload : list (batch Img)) :
  ∀ written,
    Forall processable dataload →
    ∃ records,
      write_records dataload written = (Ok tt, written ++ records) ∧
      Forall2 record_of dataload records.
Proof.
  induction dataload as [|b dataload IH]; intros written Hall.
  - exists []. by rewrite app_nil_r.
  - apply Forall_cons in Hall as [Hb Hall].
    destruct (writerow_record b Hb) as (row & Hrow & Hrec).
    cbn [Oscar.write_records]. rewrite Hrow.
    destruct (IH (written ++ [row]) Hall) as (records & -> & Hrecs).
    exists (row :: records). rewrite <- (assoc_L (++)). split; [done|].
    by constructor.
Qed.

(** C8: [run_inference] writes [torch_normalized_deepfeaturesoscar.csv]:
    first the header row with the seven field names in their order, then
    one record for every batch, each with exactly those seven fields. *)
Theorem run_inference_csv (dataload : list (batch Img)) :
  Forall processable dataload →
  ∃ records,
    run_inference dataload
    = (Ok tt,
       {| path := "torch_normalized_deepfeaturesoscar.csv";
          rows :=
            (Str <$> ["SeriesNumber"; "deepfeatures"; "ROI";
                      "SeriesDescription"; "ManufacturerModelName";
                      "Manufacturer"; "SliceThickness"]) :: records |}) ∧
    length records = length dataload ∧
    Forall2 record_of dataload records.
Proof.
  intros Hall. unfold Oscar.run_inference.
  destruct (write_records_Ok dataload [writeheader fieldnames] Hall)
    as (records & -> & Hrecs).
  exists records. split_and!; [done| |done].
  symmetry. by eapply Forall2_length.
Qed.

End Csv.

Lemma toy_batch_processable :
  processable (F := Z) "SeriesNumber" "SeriesDescription"
    "ManufacturerModelName" "Manufacturer" "SliceThickness"
    (λ _ : unit, Ok [1; 2]) toy_batch.
Proof.
  split_and!; [by eexists|by eexists|].
  repeat (apply Forall_cons; split;
          [eexists _, _; split; [vm_compute; reflexivity|reflexivity]|]).
  constructor.
Qed.

Lemma run_inference_csv_witness :
  ∃ records,
    toy_run_inference [toy_batch; toy_batch]
    = (Ok tt,
       {| path := "torch_normalized_deepfeaturesoscar.csv";
          rows :=
            (Str <$> ["SeriesNumber"; "deepfeatures"; "ROI";
                      "SeriesDescription"; "ManufacturerModelName";
                      "Manufacturer"; "SliceThickness"]) :: records |}) ∧
    length records = length [toy_batch; toy_batch] ∧
    Forall2 (record_of "SeriesNumber" "SeriesDescription"
               "ManufacturerModelName" "Manufacturer" "SliceThickness"
               (λ _ : unit, Ok [1; 2]))
      [toy_batch; toy_batch] records.
Proof.
  apply (run_inference_csv "SeriesNumber" "SeriesDescription"
           "ManufacturerModelName" "Manufacturer" "SliceThickness"
           (λ _ : unit, Ok [1; 2]) [toy_batch; toy_batch]).
  constructor; [apply toy_batch_processable|].
  constructor; [apply toy_batch_processable|].
  constructor.
Defined.

(** The file for two batches. *)
Example run_inference_toy :
  toy_run_inference [toy_batch; toy_batch]
  = (Ok tt,
     {| path := "torch_normalized_deepfeaturesoscar.csv";
        rows :=
          [[Str "SeriesNumber"; Str "deepfeatures"; Str "ROI";
            Str "SeriesDescription"; Str "ManufacturerModelName";
            Str "Manufacturer"; Str "SliceThickness"];
           [Str "4"; Features [1; 2]; Str "cyst1"; Str "A1 - #1";
            Str "SOMATOM"; Str "SIEMENS"; Str "2.0"];
           [Str "4"; Features [1; 2]; Str "cyst1"; Str "A1 - #1";
            Str "SOMATOM"; Str "SIEMENS"; Str "2.0"]] |}).
Proof. vm_compute. reflexivity. Qed.

End OscarFacts.

(** ** The labels of [contrastive_step] *)

Module ContrastiveFacts.
Import Torch Train.

Section Contrastive.
Context {F : Type}.
Implicit Types (t : tensor F) (ids todo : list Z) (id : Z).

Lemma select_mask_positions_app {A : Type} id ids :
  ∀ (d : list A) (pre_ids : list Z) (pre_d : list A),
    length pre_d = length pre_ids → length d = length ids →
    select_mask ((λ x, bool_decide (x = id)) <$> ids) d
    = omap (λ i, (pre_d ++ d) !! i)
        (filter (λ i, (pre_ids ++ ids) !! i = Some id)
           (seq (length pre_ids) (length ids))).
Proof.
  induction ids as [|x ids IH]; intros d pre_ids pre_d Hpre Hd; [done|].
  destruct d as [|a d]; [done|]. injection Hd as Hd.
  cbn [length seq]. rewrite fmap_cons. cbn [select_mask].
  specialize (IH d (pre_ids ++ [x]) (pre_d ++ [a])).
  rewrite <- !(assoc_L (++)), !length_app, !Nat.add_1_r in IH.
  cbn [app] in IH. specialize (IH ltac:(lia) Hd).
  assert ((pre_ids ++ x :: ids) !! length pre_ids = Some x) as Hx
    by by apply list_lookup_middle.
  assert ((pre_d ++ a :: d) !! length pre_ids = Some a) as Ha
    by by apply list_lookup_middle.
  case_bool_decide as Hid.
  - rewrite filter_cons_True by congruence.
    cbn [omap list_omap]. rewrite Ha. by f_equal.
  - rewrite filter_cons_False by congruence. done.
Qed.

Lemma select_mask_positions {A : Type} id ids (d : list A) :
  length d = length ids →
  select_mask ((λ x, bool_decide (x = id)) <$> ids) d
  = omap (λ i, d !! i) (positions_of ids id).
Proof. intros Hd. by apply (select_mask_positions_app id ids d [] []). Qed.

Lemma elem_of_positions_of ids id (i : nat) :
  i ∈ positions_of ids id ↔ ids !! i = Some id.
Proof.
  unfold positions_of. rewrite list_elem_of_filter, elem_of_seq.
  split; [tauto|]. intros Hi. split; [done|].
  apply lookup_lt_Some in Hi. lia.
Qed.

Lemma positions_Permutation ids :
  unique ids ≫= positions_of ids ≡ₚ seq 0 (length ids).
Proof.
  apply NoDup_Permutation.
  - apply NoDup_bind; [| |apply NoDup_unique].
    + intros x1 x2 i _ _ H1%elem_of_positions_of H2%elem_of_positions_of.
      congruence.
    + intros x _. apply NoDup_filter, NoDup_seq.
  - apply NoDup_seq.
  - intros i. rewrite list_elem_of_bind, elem_of_seq. split.
    + intros (id & Hi%elem_of_positions_of & _).
      apply lookup_lt_Some in Hi. lia.
    + intros [_ Hi]. destruct (lookup_lt_is_Some_2 ids i) as [id Hid]; [lia|].
      exists id. split; [by apply elem_of_positions_of|].
      apply elem_of_unique, list_elem_of_lookup. eauto.
Qed.

Lemma fmap_seq_const {A : Type} (g : nat → A) (c : A) (k n : nat) :
  (∀ p, g p = c) → g <$> seq k n = replicate n c.
Proof.
  intros Hg. revert k. induction n as [|n IH]; intros k; [done|].
  cbn [seq replicate]. by rewrite fmap_cons, Hg, IH.
Qed.

Lemma chunks_concat (n : nat) (rows : list (list F)) :
  Forall (λ r, length r = n) rows →
  chunks n (length rows) (concat rows) = rows.
Proof.
  induction 1 as [|r rows Hr _ IH]; [done|].
  cbn [length concat chunks].
  rewrite take_app_length', drop_app_length' by done. by rewrite IH.
Qed.

Lemma length_concat_uniform (n : nat) (rows : list (list F)) :
  Forall (λ r, length r = n) rows →
  length (concat rows) = (length rows * n)%nat.
Proof.
  induction 1 as [|r rows Hr _ IH]; [done|].
  cbn [concat length]. rewrite length_app, IH, Hr. lia.
Qed.

Lemma reshape_rows_concat (n : nat) (rows : list (list F)) :
  (0 < n)%nat →
  Forall (λ r, length r = n) rows →
  reshape_rows (concat rows) (Z.of_nat n) = Ok rows.
Proof.
  intros Hn Hrows. unfold reshape_rows.
  destruct (Z.leb_spec (Z.of_nat n) 0); [lia|].
  rewrite (length_concat_uniform n) by done.
  rewrite Nat2Z.id, Nat.div_mul by lia.
  rewrite Nat2Z.inj_mul, Z_mod_mult. simpl.
  by rewrite chunks_concat.
Qed.

Lemma slice_assign_fill {A : Type} (written vals : list (option A)) (n : nat) :
  (length vals ≤ n)%nat →
  slice_assign (written ++ replicate n None) (length written)
    (length written + length vals) vals
  = Ok ((written ++ vals) ++ replicate (n - length vals) None).
Proof.
  intros Hn. unfold slice_assign.
  rewrite length_app, length_replicate.
  replace (Nat.min (length written + length vals) (length written + n)
           - length written)%nat with (length vals) by lia.
  rewrite Nat.eqb_refl.
  rewrite take_app_length, drop_app_add', drop_replicate by done.
  by rewrite <- (assoc_L (++)).
Qed.

End Contrastive.

Section Loop.
Context {F : Type} (t : tensor F) (ids : list Z).
Hypothesis Hwf : wf t.
Hypothesis Hids : length ids = size0 t.
Hypothesis Hchannels : (0 < size1 t)%nat.

Local Abbreviation num := (numel_spatial t).
Local Abbreviation block := (labelled_block t ids).
Local Abbreviation mask id := ((λ x, bool_decide (x = id)) <$> ids).

Lemma positions_valid (id : Z) (i : nat) :
  i ∈ positions_of ids id →
  ∃ sample, data t !! i = Some sample ∧ length sample = size1 t ∧
            Forall (λ channel, length channel = num) sample.
Proof.
  intros Hi%elem_of_positions_of. destruct Hwf as [Hlen Hall].
  destruct (lookup_lt_is_Some_2 (data t) i) as [sample Hs].
  { apply lookup_lt_Some in Hi. lia. }
  exists sample. split; [done|].
  by apply (Forall_lookup_1 _ _ _ _ Hall Hs).
Qed.

Lemma voxel_row_length (sample : list (list F)) (p : nat) :
  Forall (λ channel, length channel = num) sample → (p < num)%nat →
  length (voxel_row sample p) = length sample.
Proof.
  intros Hall Hp. unfold voxel_row.
  induction Hall as [|channel sample Hc _ IH]; [done|].
  cbn [omap list_omap].
  destruct (lookup_lt_is_Some_2 channel p) as [x ->]; [lia|].
  cbn [length]. by rewrite IH.
Qed.

Lemma selected_samples (id : Z) :
  select_mask (mask id) (data t)
  = (λ i, default [] (data t !! i)) <$> positions_of ids id.
Proof.
  rewrite select_mask_positions by (destruct Hwf; lia).
  pose proof (positions_valid id) as Hvalid.
  induction (positions_of ids id) as [|i pos IH]; [done|].
  destruct (Hvalid i) as (sample & Hs & _); [by left|].
  cbn [omap list_omap]. rewrite fmap_cons, Hs. cbn [default]. f_equal.
  apply IH. intros i' Hi'. apply Hvalid. by right.
Qed.

Lemma block_length (j : nat) (id : Z) :
  length (block j id) = (length (positions_of ids id) * num)%nat.
Proof.
  unfold labelled_block.
  induction (positions_of ids id) as [|i pos IH]; [done|].
  rewrite bind_cons, length_app, IH, length_fmap, length_seq.
  cbn [length]. lia.
Qed.

Lemma block_rows (j : nat) (id : Z) (n : nat) :
  permute_02341 {| size0 := n; size1 := size1 t; spatial := spatial t;
                   data := select_mask (mask id) (data t) |}
  = (block j id).*2.
Proof.
  unfold permute_02341, labelled_block, numel_spatial. cbn [data spatial].
  rewrite selected_samples.
  induction (positions_of ids id) as [|i pos IH]; [done|].
  rewrite fmap_cons, !bind_cons, fmap_app, IH. f_equal.
  rewrite <- list_fmap_compose. done.
Qed.

Lemma block_labels (j : nat) (id : Z) :
  concat (replicate (length (select_mask (mask id) (data t)))
            (replicate num (Z.of_nat j * Z.of_nat num)))
  = (block j id).*1.*2.
Proof.
  rewrite selected_samples, length_fmap. unfold labelled_block.
  induction (positions_of ids id) as [|i pos IH]; [done|].
  cbn [length replicate concat].
  rewrite bind_cons, !fmap_app, IH. f_equal.
  rewrite <- !list_fmap_compose. symmetry. by apply fmap_seq_const.
Qed.

Lemma block_rows_wf (j : nat) (id : Z) :
  Forall (λ r, length r = size1 t) (block j id).*2.
Proof.
  apply Forall_fmap, Forall_forall. intros [[i l] row] Hin.
  apply list_elem_of_bind in Hin as (i' & Hin & Hi').
  apply list_elem_of_fmap in Hin as (p & [= -> -> ->] & Hp%elem_of_seq).
  destruct (positions_valid id i' Hi') as (sample & Hs & Hlen & Hall).
  rewrite Hs. unfold compose. cbn [default snd from_option].
  rewrite voxel_row_length by (done || lia). done.
Qed.

Lemma contrastive_round_spec (id : Z) (j : nat)
    (E : list (option (list F))) (L : list (option Z)) (n : nat) :
  length L = length E →
  (length (block j id) ≤ n)%nat →
  contrastive_round t ids (Z.of_nat (size1 t))
    {| offset := Z.of_nat j * Z.of_nat num; start_idx := length E;
       all_embeddings := E ++ replicate n None;
       all_labels := L ++ replicate n None |} id
  = Ok {| offset := Z.of_nat (S j) * Z.of_nat num;
          start_idx := length (E ++ (Some <$> (block j id).*2));
          all_embeddings :=
            (E ++ (Some <$> (block j id).*2))
              ++ replicate (n - length (block j id)) None;
          all_labels :=
            (L ++ (Some <$> (block j id).*1.*2))
              ++ replicate (n - length (block j id)) None |}.
Proof.
  intros HL Hn. unfold contrastive_round, mask_select.
  rewrite length_fmap, Hids, Nat.eqb_refl.
  cbn [mbind result_bind size0 offset start_idx all_embeddings all_labels].
  rewrite (block_rows j).
  rewrite (reshape_rows_concat (size1 t)) by (done || apply block_rows_wf).
  cbn [mbind result_bind].
  change (numel_spatial _) with num.
  rewrite block_labels.
  pose proof (slice_assign_fill E (Some <$> (block j id).*2) n) as HE.
  rewrite !length_fmap in HE. rewrite !length_fmap, HE by done.
  cbn [mbind result_bind].
  pose proof (slice_assign_fill L (Some <$> (block j id).*1.*2) n) as HLs.
  rewrite !length_fmap, HL in HLs. rewrite HLs by done.
  cbn [mbind result_bind]. f_equal. f_equal.
  - lia.
  - by rewrite length_app, !length_fmap.
Qed.

Local Abbreviation rows := (labelled_rows t ids).

Lemma contrastive_loop_spec (todo : list Z) :
  ∀ (j : nat) (E : list (option (list F))) (L : list (option Z)) (m : nat),
    length L = length E →
    contrastive_loop t ids (Z.of_nat (size1 t))
      {| offset := Z.of_nat j * Z.of_nat num; start_idx := length E;
         all_embeddings := E ++ replicate (length (rows j todo) + m) None;
         all_labels := L ++ replicate (length (rows j todo) + m) None |} todo
    = Ok {| offset := Z.of_nat (j + length todo) * Z.of_nat num;
            start_idx := length (E ++ (Some <$> (rows j todo).*2));
            all_embeddings :=
              (E ++ (Some <$> (rows j todo).*2)) ++ replicate m None;
            all_labels :=
              (L ++ (Some <$> (rows j todo).*1.*2)) ++ replicate m None |}.
Proof.
  induction todo as [|id todo IH]; intros j E L m HL.
  - cbn [contrastive_loop labelled_rows length fmap list_fmap].
    rewrite !app_nil_r, Nat.add_0_r. done.
  - cbn [contrastive_loop labelled_rows].
    rewrite length_app, <- Nat.add_assoc.
    rewrite contrastive_round_spec by (done || lia).
    cbn [mbind result_bind].
    replace (length (block j id) + (length (rows (S j) todo) + m)
             - length (block j id))%nat
      with (length (rows (S j) todo) + m)%nat by lia.
    rewrite IH by (by rewrite !length_app, !length_fmap, HL).
    rewrite !fmap_app, !(assoc_L (++)). cbn [length].
    do 2 f_equal. lia.
Qed.

Lemma rows_length (j : nat) (todo : list Z) :
  length (rows j todo) = (length (todo ≫= positions_of ids) * num)%nat.
Proof.
  revert j. induction todo as [|id todo IH]; intros j; [done|].
  cbn [labelled_rows]. rewrite bind_cons, !length_app, IH, block_length. lia.
Qed.

Lemma rows_origins (j : nat) (todo : list Z) :
  (rows j todo).*1.*1 = todo ≫= λ id, positions_of ids id ≫= replicate num.
Proof.
  revert j. induction todo as [|id todo IH]; intros j; [done|].
  cbn [labelled_rows]. rewrite bind_cons, !fmap_app, IH. f_equal.
  unfold labelled_block.
  induction (positions_of ids id) as [|i pos IHpos]; [done|].
  rewrite !bind_cons, !fmap_app, IHpos. f_equal.
  rewrite <- !list_fmap_compose. by apply fmap_seq_const.
Qed.

Lemma elem_of_rows (todo : list Z) :
  ∀ (j i : nat) (l : Z) (row : list F),
    (i, l, row) ∈ rows j todo →
    ∃ (k p : nat) (id : Z) (sample : list (list F)),
      todo !! k = Some id ∧ ids !! i = Some id ∧
      l = Z.of_nat (j + k) * Z.of_nat num ∧
      data t !! i = Some sample ∧ (p < num)%nat ∧
      row = voxel_row sample p.
Proof.
  induction todo as [|id todo IH]; intros j i l row Hin;
    [by apply elem_of_nil in Hin|].
  cbn [labelled_rows] in Hin. apply elem_of_app in Hin as [Hin|Hin].
  - apply list_elem_of_bind in Hin as (i' & Hin & Hi').
    apply list_elem_of_fmap in Hin as (p & [= -> -> ->] & Hp%elem_of_seq).
    destruct (positions_valid id i' Hi') as (sample & Hs & _).
    exists 0%nat, p, id, sample. rewrite Hs, Nat.add_0_r.
    split_and!; try done; [by apply elem_of_positions_of|lia].
  - destruct (IH _ _ _ _ Hin) as (k & p & id' & sample & Hk & ?).
    exists (S k), p, id', sample. rewrite <- Nat.add_succ_comm. naive_solver.
Qed.

End Loop.

Section Labels.
Context {F : Type}.


End Labels.

Lemma toy_latent_wf : wf Toy.latent_2x3x2.
Proof. split; [reflexivity|]. repeat constructor. Qed.


(** The two samples of the toy bottleneck with ids [5] and [3]: the rows
    of the sample with id [3] come first and get label [0], those of the
    sample with id [5] get label [2]. *)
Example contrastive_inputs_toy :
  contrastive_inputs (Toy.swinViT Toy.image_2) [5; 3] 3
  = Ok ([Some [7; 9; 11]; Some [8; 10; 12]; Some [1; 3; 5]; Some [2; 4; 6]],
        [Some 0; Some 0; Some 2; Some 2]).
Proof. vm_compute. reflexivity. Qed.

End ContrastiveFacts.

(** ** Methods that keep the epoch counter and [acc_dict] *)

Module TraceFacts.
Import Torch Train.

Section Traces.
Context {F : Type} (fadd fdiv : F → F → F) (float_of_Z : Z → F).
Context (swinViT : tensor F → list (tensor F)).
Context (reconstruct : tensor F → tensor F).
Context (recons_loss : tensor F → tensor F → F).

Local Abbreviation M := (Train.M F (core F)).
Local Abbreviation train_step :=
  (Train.train_step fadd float_of_Z swinViT reconstruct recons_loss).
Local Abbreviation train_epoch_loop :=
  (Train.train_epoch_loop fadd fdiv float_of_Z swinViT reconstruct recons_loss).
Local Abbreviation train_epoch :=
  (Train.train_epoch fadd fdiv float_of_Z swinViT reconstruct recons_loss).

Lemma lifecycle_view_app (evs1 evs2 : list (event F)) :
  lifecycle_view (evs1 ++ evs2) = lifecycle_view evs1 ++ lifecycle_view evs2.
Proof. apply filter_app. Qed.

Lemma traces_ret {A : Type} (a : A) : traces (mret a : M A) [].
Proof. intros s. by cbn. Qed.

Lemma traces_bind {A B : Type} (m : M A) (k : A → M B) (v1 v2 : list (event F)) :
  traces m v1 → (∀ a, traces (k a) v2) → traces (m ≫= k) (v1 ++ v2).
Proof.
  intros Hm Hk s. unfold mbind, M_bind. specialize (Hm s).
  destruct (m s) as [[[a|e] s1] evs1]; [|naive_solver].
  specialize (Hk a s1). destruct (k a s1) as [[r s2] evs2].
  destruct Hm as (He & Ha & Hp & Hv), Hk as (He' & Ha' & Hp' & Hv').
  split_and!; [congruence..|by apply Forall_app|].
  intros b ->. rewrite lifecycle_view_app. f_equal; eauto.
Qed.

Lemma traces_bind_quiet {A B : Type} (m : M A) (k : A → M B) (v : list (event F)) :
  traces m [] → (∀ a, traces (k a) v) → traces (m ≫= k) v.
Proof. apply (traces_bind m k [] v). Qed.

Lemma traces_emit (e : event F) :
  plot_related e = false →
  traces (emit e : M unit) (if lifecycle e then [e] else []).
Proof.
  intros He s. unfold emit. split_and!; [done..|by constructor|].
  intros _ _. by destruct e.
Qed.

Lemma traces_emit_quiet (e : event F) :
  lifecycle e = false → plot_related e = false → traces (emit e : M unit) [].
Proof. intros He Hp. pose proof (traces_emit e Hp) as H. by rewrite He in H. Qed.

Lemma traces_lift {A : Type} (r : result A) : traces (lift r : M A) [].
Proof. intros s. by cbn. Qed.

Lemma traces_get : traces (get : M (core F)) [].
Proof. intros s. by cbn. Qed.

Lemma traces_modify (f : core F → core F) :
  (∀ s, epoch (f s) = epoch s ∧ acc_dict (f s) = acc_dict s) →
  traces (modify f : M unit) [].
Proof. intros Hf s. cbn. naive_solver. Qed.

Lemma traces_set_loss (k : string) (v : pyval F) : traces (set_loss k v) [].
Proof. by apply traces_modify. Qed.

Lemma traces_get_loss (k : string) : traces (get_loss (F := F) k) [].
Proof.
  unfold get_loss. apply traces_bind_quiet; [apply traces_get|].
  intros s. apply traces_lift.
Qed.

Ltac traces_step :=
  first
    [ apply traces_ret
    | apply traces_lift
    | apply traces_get
    | apply traces_set_loss
    | apply traces_get_loss
    | apply traces_emit_quiet; reflexivity
    | apply traces_modify; done
    | apply traces_bind_quiet; [|intros ?]
    | match goal with
      | |- traces (let '(_, _) := ?p in _) _ => destruct p
      | |- traces (if ?b then _ else _) _ => destruct b
      | |- traces (match ?v with _ => _ end) _ => destruct v
      end ].

Lemma traces_train_step (b : batch F) : traces (train_step b) [].
Proof.
  unfold Train.train_step, reconstruct_image, reconstruction_step, backward.
  repeat traces_step.
Qed.

Lemma traces_save_losses (train_loss : pyval F) :
  traces (save_losses train_loss) [].
Proof. unfold save_losses. repeat traces_step. Qed.

Lemma traces_plot_losses : traces (plot_losses (F := F)) [].
Proof. unfold plot_losses. repeat traces_step. Qed.

Lemma traces_train_epoch_loop (batches : list (batch F)) :
  ∀ (step : nat) (running_loss : pyval F),
    traces (train_epoch_loop step running_loss batches)
      (IterateBatch <$> seq step (length batches)).
Proof.
  induction batches as [|b batches IH]; intros step running_loss.
  - apply traces_ret.
  - cbn [Train.train_epoch_loop length seq]. rewrite fmap_cons.
    apply (traces_bind _ _ [IterateBatch step]);
      [by apply (traces_emit (IterateBatch step))|].
    intros _.
    apply traces_bind_quiet; [apply traces_train_step|]. intros out.
    do 5 (apply traces_bind_quiet; [traces_step|intros ?]).
    apply traces_bind_quiet; [|intros ?; apply IH].
    destruct (_ =? _); [apply traces_save_losses|apply traces_ret].
Qed.

(** An epoch that returns has taken every batch of the loader, marked
    its end and advanced the counter by one; [acc_dict] is as before. *)
Lemma train_epoch_Ok (batches : list (batch F)) (s s' : core F)
    (evs : list (event F)) :
  train_epoch batches s = (Ok tt, s', evs) →
  epoch s' = epoch s + 1 ∧ acc_dict s' = acc_dict s ∧
  lifecycle_view evs
  = (IterateBatch <$> seq 0 (length batches)) ++ [ProgressUpdate].
Proof.
  unfold Train.train_epoch, mbind, M_bind.
  pose proof (traces_train_epoch_loop batches 0 (PyInt 0) s) as Hloop.
  destruct (train_epoch_loop 0 (PyInt 0) batches s) as [[[[]|e] s1] evs1];
    [|done].
  destruct Hloop as (He & Ha & _ & Hv). cbn.
  intros [= <- <-]. cbn. split_and!; [lia|done|].
  rewrite lifecycle_view_app, (Hv tt eq_refl). done.
Qed.

Lemma train_epoch_Raise (batches : list (batch F)) (s s' : core F) (e : exn)
    (evs : list (event F)) :
  train_epoch batches s = (Raise e, s', evs) →
  epoch s' = epoch s ∧ acc_dict s' = acc_dict s.
Proof.
  unfold Train.train_epoch, mbind, M_bind.
  pose proof (traces_train_epoch_loop batches 0 (PyInt 0) s) as Hloop.
  destruct (train_epoch_loop 0 (PyInt 0) batches s) as [[[[]|e'] s1] evs1].
  - cbn. done.
  - intros [= <- <- <-]. naive_solver.
Qed.

Lemma train_epoch_plot_free (batches : list (batch F)) (s : core F) :
  Forall (λ e, plot_related e = false) (train_epoch batches s).2.
Proof.
  unfold Train.train_epoch, mbind, M_bind.
  pose proof (traces_train_epoch_loop batches 0 (PyInt 0) s) as Hloop.
  destruct (train_epoch_loop 0 (PyInt 0) batches s) as [[[[]|e'] s1] evs1];
    destruct Hloop as (_ & _ & Hp & _); cbn; [|done].
  apply Forall_app. split; [done|]. by repeat constructor.
Qed.

End Traces.

End TraceFacts.

(** ** The training loop *)

Module TrainLoopFacts.
Import Torch Train TraceFacts.

Section Loop.
Context {F : Type} (fadd fdiv : F → F → F) (float_of_Z : Z → F).
Context (swinViT : tensor F → list (tensor F)).
Context (reconstruct : tensor F → tensor F).
Context (recons_loss : tensor F → tensor F → F).
Context (train_loader : Z → list (batch F)).
Context (plot_path : string → Z → string).
Context (reconstruction_path : string → string).

Local Abbreviation train_epoch :=
  (Train.train_epoch fadd fdiv float_of_Z swinViT reconstruct recons_loss).
Local Abbreviation train_round :=
  (Train.train_round fadd fdiv float_of_Z swinViT reconstruct recons_loss
     train_loader).
Local Abbreviation train_loop :=
  (Train.train_loop fadd fdiv float_of_Z swinViT reconstruct recons_loss
     train_loader).
Local Abbreviation train :=
  (Train.train fadd fdiv float_of_Z swinViT reconstruct recons_loss
     train_loader).
Local Abbreviation epoch_schedule := (Train.epoch_schedule train_loader).

Implicit Types (plot_outcome : Z → option exn) (st : self F).

(** One round, case by case. *)
Lemma train_round_unfold plot_outcome st :
  train_round plot_outcome plot_path st
  = match train_epoch (train_loader (epoch (inner st))) (inner st) with
    | (Raise e, c, evs) => (Raise e, set_inner st c, evs)
    | (Ok _, c, evs) =>
        if epoch c `mod` 5 =? 0 then
          match plot_outcome (epoch c) with
          | None =>
              (Ok tt,
               set_tsne_plots (set_inner st c)
                 (tsne_plots st ++ [plot_path (save_name st) (epoch c)]),
               evs ++ [LrSchedulerStep; DatasetUpdateCache;
                       PlotLatentSpace (epoch c)])
          | Some e =>
              if is_Exception e then
                (Ok tt, set_inner st c,
                 evs ++ [LrSchedulerStep; DatasetUpdateCache;
                         PlotLatentSpace (epoch c); PrintPlotError e])
              else
                (Raise e, set_inner st c,
                 evs ++ [LrSchedulerStep; DatasetUpdateCache;
                         PlotLatentSpace (epoch c)])
          end
        else (Ok tt, set_inner st c, evs ++ [LrSchedulerStep; DatasetUpdateCache])
    end.
Proof.
  unfold Train.train_round, mbind, M_bind, mret, M_ret, get, zoom, emit.
  destruct (train_epoch _ _) as [[[[]|e] c] evs]; [|done].
  cbn [inner set_inner]. destruct (_ =? _); [|done].
  unfold try_except, plot_latent_space, mbind, M_bind, emit, lift, modify.
  destruct (plot_outcome (epoch c)) as [e|]; [|done].
  by destruct (is_Exception e).
Qed.

(** Errors of [train_epoch] are not handled: they end the round. *)
Lemma train_round_propagates plot_outcome st (e : exn) (c : core F)
    (evs : list (event F)) :
  train_epoch (train_loader (epoch (inner st))) (inner st) = (Raise e, c, evs) →
  train_round plot_outcome plot_path st = (Raise e, set_inner st c, evs).
Proof. intros H. by rewrite train_round_unfold, H. Qed.

(** What a round that returns has done. *)
Lemma train_round_Ok plot_outcome st st' (evs : list (event F)) :
  train_round plot_outcome plot_path st = (Ok tt, st', evs) →
  epoch (inner st') = epoch (inner st) + 1 ∧
  acc_dict (inner st') = acc_dict (inner st) ∧
  num_epoch st' = num_epoch st ∧
  lifecycle_view evs
  = (IterateBatch <$> seq 0 (length (train_loader (epoch (inner st)))))
      ++ [ProgressUpdate; DatasetUpdateCache].
Proof.
  rewrite train_round_unfold.
  destruct (train_epoch _ _) as [[[[]|e] c] evs0] eqn:Hepoch; [|done].
  apply train_epoch_Ok in Hepoch as (He & Ha & Hv).
  assert (∀ tail : list (event F),
            lifecycle_view tail = [DatasetUpdateCache] →
            lifecycle_view (evs0 ++ tail)
            = (IterateBatch <$> seq 0 (length (train_loader (epoch (inner st)))))
                ++ [ProgressUpdate; DatasetUpdateCache]) as Hview.
  { intros tail Htail. rewrite lifecycle_view_app, Hv, Htail.
    by rewrite <- (assoc_L (++)). }
  destruct (_ =? _); [destruct (plot_outcome (epoch c)) as [e|];
                      [destruct (is_Exception e)|]|];
    intros [= <- <-]; cbn [inner set_inner set_tsne_plots num_epoch];
    split_and!; try done; by apply Hview.
Qed.

Lemma train_round_Raise plot_outcome st st' (e : exn) (evs : list (event F)) :
  train_round plot_outcome plot_path st = (Raise e, st', evs) →
  acc_dict (inner st') = acc_dict (inner st).
Proof.
  rewrite train_round_unfold.
  destruct (train_epoch _ _) as [[[[]|e'] c] evs0] eqn:Hepoch.
  - apply train_epoch_Ok in Hepoch as (_ & Ha & _).
    destruct (_ =? _); [destruct (plot_outcome (epoch c)) as [e'|];
                        [destruct (is_Exception e')|]|];
      by intros [= <- <-].
  - apply train_epoch_Raise in Hepoch as [_ Ha]. by intros [= <- <- <-].
Qed.

(** The loop ends within [num_epoch - epoch] rounds. *)
Lemma train_loop_terminates plot_outcome (fuel : nat) :
  ∀ st, (Z.to_nat (num_epoch st - epoch (inner st)) ≤ fuel)%nat →
        is_Some (train_loop plot_outcome plot_path fuel st).
Proof.
  induction fuel as [|fuel IH]; intros st Hfuel; cbn [Train.train_loop].
  - destruct (Z.ltb_spec (epoch (inner st)) (num_epoch st)); [lia|by eexists].
  - destruct (Z.ltb_spec (epoch (inner st)) (num_epoch st)); [|by eexists].
    destruct (train_round _ _ st) as [[[[]|e] st'] evs] eqn:Hround;
      [|by eexists].
    apply train_round_Ok in Hround as (He & _ & Hn & _).
    destruct (IH st') as [[[r st''] evs'] ->]; [lia|by eexists].
Qed.

(** The lifecycle of a loop that runs to its end. *)
Lemma train_loop_lifecycle plot_outcome (fuel : nat) :
  ∀ st st' (evs : list (event F)),
    train_loop plot_outcome plot_path fuel st = Some (Ok tt, st', evs) →
    lifecycle_view evs
    = epoch_schedule (epoch (inner st))
        (Z.to_nat (num_epoch st - epoch (inner st))).
Proof.
  induction fuel as [|fuel IH]; intros st st' evs; cbn [Train.train_loop].
  - destruct (Z.ltb_spec (epoch (inner st)) (num_epoch st)); [done|].
    intros [= <- <-]. by replace (Z.to_nat _) with 0%nat by lia.
  - destruct (Z.ltb_spec (epoch (inner st)) (num_epoch st)) as [Hlt|Hge].
    2:{ intros [= <- <-]. by replace (Z.to_nat _) with 0%nat by lia. }
    destruct (train_round _ _ st) as [[[[]|e] st1] evs1] eqn:Hround; [|done].
    destruct (train_loop _ _ fuel st1) as [[[r st2] evs2]|] eqn:Hloop; [|done].
    intros [= -> <- <-].
    apply train_round_Ok in Hround as (He & _ & Hn & Hv).
    apply IH in Hloop.
    replace (Z.to_nat (num_epoch st - epoch (inner st)))
      with (S (Z.to_nat (num_epoch st1 - epoch (inner st1)))) by lia.
    cbn [Train.epoch_schedule].
    rewrite lifecycle_view_app, Hv, Hloop, He.
    by rewrite <- (assoc_L (++)).
Qed.

Lemma train_loop_acc_dict plot_outcome (fuel : nat) :
  ∀ st st' (r : result unit) (evs : list (event F)),
    train_loop plot_outcome plot_path fuel st = Some (r, st', evs) →
    acc_dict (inner st') = acc_dict (inner st).
Proof.
  induction fuel as [|fuel IH]; intros st st' r evs; cbn [Train.train_loop].
  - destruct (_ <? _); [done|]. by intros [= <- <- <-].
  - destruct (_ <? _); [|by intros [= <- <- <-]].
    destruct (train_round _ _ st) as [[[[]|e] st1] evs1] eqn:Hround.
    + destruct (train_loop _ _ fuel st1) as [[[r2 st2] evs2]|] eqn:Hloop;
        [|done].
      intros [= <- <- <-].
      apply train_round_Ok in Hround as (_ & Ha & _).
      apply IH in Hloop. congruence.
    + intros [= <- <- <-]. by apply train_round_Raise in Hround.
Qed.

(** *** After the loop *)

Lemma plot_losses_run (c : core F) :
  ∃ r evs, plot_losses c = (r, c, evs) ∧
           lifecycle_view evs = [] ∧ without_plots evs = evs ∧
           plots_attempted evs = [] ∧ errors_printed evs = [].
Proof.
  unfold plot_losses, mbind, M_bind, get, lift, emit.
  repeat (destruct (detach_all _); [|by eexists _, _]).
  by eexists _, _.
Qed.

Lemma train_finish_unfold st :
  train_finish reconstruction_path st
  = let '(r, c, evs) := plot_losses (inner st) in
    (match r with
     | Ok _ => dict_get (acc_dict c) "best_test_acc"
     | Raise e => Raise e
     end,
     set_inner st c,
     [DatasetShutdown; TestDatasetShutdown; ProgressWrite "Finish training";
      SaveModel (save_name st);
      SaveReconstructionModel (reconstruction_path (save_name st));
      CreateGif (tsne_plots st)] ++ evs).
Proof.
  unfold train_finish, return_best_test_acc, mbind, M_bind, get, lift, emit,
    zoom.
  destruct (plot_losses (inner st)) as [[[[]|e] c] evs]; [|done].
  cbn. by rewrite !app_nil_r.
Qed.

(** C7, amended: in a run whose loop runs to its end, the train dataset
    is started once, before any batch is taken; after the batches of
    every epoch and the mark of its end comes one [update_cache]; and
    [shutdown] comes once, after the last epoch. *)
Theorem train_dataset_lifecycle plot_outcome (fuel : nat) st st'
    (loop_evs : list (event F)) :
  train_loop plot_outcome plot_path fuel st = Some (Ok tt, st', loop_evs) →
  ∃ r st'' evs,
    train plot_outcome plot_path reconstruction_path fuel st
    = Some (r, st'', evs) ∧
    lifecycle_view evs
    = [DatasetStart]
        ++ epoch_schedule (epoch (inner st))
             (Z.to_nat (num_epoch st - epoch (inner st)))
        ++ [DatasetShutdown].
Proof.
  intros Hloop. unfold Train.train. rewrite Hloop, train_finish_unfold.
  destruct (plot_losses_run (inner st')) as (r & evs & Hplot & Hv & _).
  eexists _, _, _. rewrite Hplot. split; [done|].
  rewrite !lifecycle_view_app, (train_loop_lifecycle _ _ _ _ _ Hloop), Hv.
  done.
Qed.

Lemma init_acc_dict (n k : Z) (savename : string) :
  acc_dict (inner (init (F := F) n k savename)) !! "best_test_acc" = None.
Proof. done. Qed.


(** *** Plot errors *)

Lemma without_plots_app (evs1 evs2 : list (event F)) :
  without_plots (evs1 ++ evs2) = without_plots evs1 ++ without_plots evs2.
Proof. apply filter_app. Qed.

Lemma plot_free (evs : list (event F)) :
  Forall (λ e, plot_related e = false) evs →
  plots_attempted evs = [] ∧ errors_printed evs = [].
Proof.
  unfold plots_attempted, errors_printed.
  induction 1 as [|e evs He _ [IH1 IH2]]; [done|].
  cbn [omap list_omap]. rewrite IH1, IH2. by destruct e.
Qed.

Lemma logged_app plot_outcome (evs1 evs2 : list (event F)) :
  logged plot_outcome evs1 → logged plot_outcome evs2 →
  logged plot_outcome (evs1 ++ evs2).
Proof.
  unfold logged, errors_printed, plots_attempted.
  intros H1 H2. by rewrite !omap_app, H1, H2.
Qed.

Lemma logged_plot_free plot_outcome (evs : list (event F)) :
  Forall (λ e, plot_related e = false) evs → logged plot_outcome evs.
Proof. intros [H1 H2]%plot_free. unfold logged. by rewrite H1, H2. Qed.

Lemma train_round_lockstep (p1 p2 : Z → option exn) st1 st2 :
  only_Exception p1 → only_Exception p2 →
  same_training st1 st2 →
  ∃ r st1' st2' (evs1 evs2 : list (event F)),
    train_round p1 plot_path st1 = (r, st1', evs1) ∧
    train_round p2 plot_path st2 = (r, st2', evs2) ∧
    same_training st1' st2' ∧
    without_plots evs1 = without_plots evs2 ∧
    logged p1 evs1.
Proof.
  intros Hp1 Hp2 (Hinner & Hnum & Hname).
  rewrite !train_round_unfold, <- Hinner.
  pose proof (train_epoch_plot_free fadd fdiv float_of_Z swinViT reconstruct
                recons_loss (train_loader (epoch (inner st1))) (inner st1))
    as Hfree.
  destruct (train_epoch _ _) as [[[[]|e] c] evs]; cbn [snd] in Hfree.
  2:{ eexists _, _, _, _, _. split_and!; try done.
      by apply logged_plot_free. }
  pose proof (logged_plot_free p1 evs Hfree) as Hlog.
  destruct (_ =? _).
  2:{ eexists _, _, _, _, _. split_and!; try done.
      apply logged_app; [done|]. by apply logged_plot_free; repeat constructor. }
  assert (∀ tail1 tail2 : list (event F),
            without_plots tail1 = without_plots tail2 →
            without_plots (evs ++ tail1) = without_plots (evs ++ tail2))
    as Hview.
  { intros tail1 tail2 Htail. by rewrite !without_plots_app, Htail. }
  destruct (p1 (epoch c)) as [e1|] eqn:H1, (p2 (epoch c)) as [e2|] eqn:H2;
    try rewrite (Hp1 _ _ H1); try rewrite (Hp2 _ _ H2);
    eexists _, _, _, _, _;
    (split_and!; [done|done|done|by apply Hview|]);
    (apply logged_app; [done|]);
    unfold logged; cbn; by rewrite ?H1.
Qed.

Lemma train_loop_lockstep (p1 p2 : Z → option exn) (fuel : nat) :
  only_Exception p1 → only_Exception p2 →
  ∀ st1 st2,
    same_training st1 st2 →
    match train_loop p1 plot_path fuel st1, train_loop p2 plot_path fuel st2 with
    | Some (r1, st1', evs1), Some (r2, st2', evs2) =>
        r1 = r2 ∧ same_training st1' st2' ∧
        without_plots evs1 = without_plots evs2 ∧ logged p1 evs1
    | None, None => True
    | _, _ => False
    end.
Proof.
  intros Hp1 Hp2. induction fuel as [|fuel IH]; intros st1 st2 Hsame;
    cbn [Train.train_loop];
    pose proof Hsame as (Hinner & Hnum & _); rewrite <- Hinner, <- Hnum.
  - destruct (_ <? _); [done|]. split_and!; try done.
  - destruct (_ <? _); [|by split_and!].
    destruct (train_round_lockstep p1 p2 st1 st2 Hp1 Hp2 Hsame)
      as (r & st1' & st2' & evs1 & evs2 & -> & -> & Hsame' & Hview & Hlog).
    destruct r as [[]|e]; [|done].
    specialize (IH st1' st2' Hsame').
    destruct (train_loop p1 _ fuel st1') as [[[r1 st1''] evs1']|],
             (train_loop p2 _ fuel st2') as [[[r2 st2''] evs2']|]; try done.
    destruct IH as (-> & Hsame'' & Hview' & Hlog').
    split_and!; [done|done| |by apply logged_app].
    by rewrite !without_plots_app, Hview, Hview'.
Qed.


(** [test_epoch], which [train] does not call, is what writes the key. *)
Lemma test_epoch_writes (np_mean : list Z → F) (test_loader : list (batch F))
    (s s' : core F) (evs : list (event F)) :
  test_epoch fadd float_of_Z np_mean test_loader s = (Ok tt, s', evs) →
  is_Some (acc_dict s' !! "best_test_acc").
Proof.
  unfold test_epoch, mbind, M_bind, modify.
  destruct (test_epoch_loop _ _ _ _ _) as [[[v|e] s1] evs1]; [|done].
  destruct (_ =? _)%nat; [done|]. cbn.
  intros [= <- <-]. cbn. by rewrite lookup_insert_eq.
Qed.

End Loop.

Lemma toy_only_Exception : only_Exception Toy.plot_outcome.
Proof. by intros ep e [= <-]. Qed.


(** In that run the plot after the fifth epoch is attempted, fails and is
    printed. *)
Example plot_error_printed_toy :
  ∃ r st evs,
    Toy.train Toy.plot_outcome Toy.plot_path Toy.reconstruction_path 5
      (init 5 2 "model.pth") = Some (r, st, evs) ∧
    plots_attempted evs = [5] ∧
    errors_printed evs = [RuntimeError "t-SNE failed"] ∧
    epoch (inner st) = 5.
Proof.
  eexists _, _, _. split; [vm_compute; reflexivity|].
  split_and!; vm_compute; reflexivity.
Qed.


Lemma train_dataset_lifecycle_witness :
  ∃ r st'' evs,
    Toy.train Toy.plot_outcome Toy.plot_path Toy.reconstruction_path 5
      (init 5 2 "model.pth") = Some (r, st'', evs) ∧
    lifecycle_view evs
    = [DatasetStart]
        ++ epoch_schedule Toy.train_loader 0 5
        ++ [DatasetShutdown].
Proof.
  eapply (train_dataset_lifecycle Z.add Z.div id Toy.swinViT Toy.reconstruct
            Toy.recons_loss Toy.train_loader Toy.plot_path
            Toy.reconstruction_path Toy.plot_outcome 5 (init 5 2 "model.pth")).
  vm_compute. reflexivity.
Defined.

(** C7, as the claim states it, fails: [train] has no [try/finally].
    When a training step raises (here [torch.split] refuses a
    contrastive part of five channels out of three), [train] ends with
    that exception: the train dataset has been started and one batch
    taken, and neither [update_cache] nor [shutdown] is called. *)
Lemma train_step_error_leaves_dataset_running :
  ∃ msg st evs,
    Toy.train Toy.plot_outcome Toy.plot_path Toy.reconstruction_path 5
      (init 5 5 "model.pth")
    = Some (Raise (RuntimeError msg), st, evs) ∧
    lifecycle_view evs = [DatasetStart; IterateBatch 0] ∧
    epoch (inner st) = 0.
Proof.
  eexists _, _, _.
  split; [vm_compute; reflexivity|].
  split; vm_compute; reflexivity.
Qed.



(** With no batch to record a loss from, the run gets to the final
    [return] and ends with the [KeyError]. *)
Example train_no_batches_KeyError :
  ∃ st evs,
    Train.train Z.add Z.div id Toy.swinViT Toy.reconstruct Toy.recons_loss
      Toy.no_batches Toy.plot_outcome Toy.plot_path Toy.reconstruction_path 5
      (init 5 2 "model.pth")
    = Some (Raise (KeyError "best_test_acc"), st, evs).
Proof. eexists _, _. vm_compute. reflexivity. Qed.

End TrainLoopFacts.

(** ** One training step *)

Module TrainStepFacts.
Import Torch Train.

Section Step.
Context {F : Type} (fadd : F → F → F) (float_of_Z : Z → F).
Context (swinViT : tensor F → list (tensor F)).
Context (reconstruct : tensor F → tensor F).
Context (recons_loss : tensor F → tensor F → F).

Local Abbreviation train_step :=
  (Train.train_step fadd float_of_Z swinViT reconstruct recons_loss).
Local Abbreviation py_add := (Train.py_add fadd float_of_Z).
Local Abbreviation steppable := (Train.steppable swinViT reconstruct).
Local Abbreviation losses_after := (Train.losses_after fadd float_of_Z).

(** The sum of anything with a tensor is a tensor. *)
Lemma py_add_tensor (v : pyval F) (x : F) :
  py_add v (PyTensor x) = PyTensor (fadd (to_float float_of_Z v) x).
Proof. by destruct v. Qed.

Lemma train_step_run (s : core F) (b : batch F) (latents4 : tensor F)
    (contrast : pyval F) :
  steppable s b latents4 contrast →
  let reconstruction := recons_loss (reconstruct latents4) (image b) in
  let d := losses_after (losses_dict s) contrast reconstruction in
  train_step b s
  = (Ok (d, 0), set_losses_dict s d,
     [ZeroGrad; Reconstruct latents4; NibSave "reconstructed_image.nii";
      NibSave "original_image.nii";
      Backward (py_add (py_add (PyFloat (float_of_Z 0)) contrast)
                  (PyTensor reconstruction));
      OptimizerStep]).
Proof.
  intros [H4 Hsplit Hnumel [r0 Hrec] [i0 Himg] Hc Hep] reconstruction d.
  subst reconstruction d.
  assert (∃ l0 l1 l2 l3, swinViT (image b) !! 0%nat = Some l0 ∧
            swinViT (image b) !! 1%nat = Some l1 ∧
            swinViT (image b) !! 2%nat = Some l2 ∧
            swinViT (image b) !! 3%nat = Some l3) as (l0 & l1 & l2 & l3 & H0 & H1 & H2 & H3).
  { destruct (swinViT (image b)) as [|l0 [|l1 [|l2 [|l3 ?]]]]; try done.
    by eexists _, _, _, _. }
  unfold Train.train_step.
  repeat (progress unfold mbind, M_bind, mret, M_ret, emit, lift, get, set_loss,
    get_loss, modify, reconstruct_image, reconstruction_step, first_sample,
    backward, py_getitem, dict_get).
  rewrite H4, H0, H1, H2, H3.
  rewrite (TorchFacts.split_latent_Ok _ _ Hsplit).
  destruct (Nat.eqb_spec (size1 latents4 * numel_spatial latents4) 0); [done|].
  rewrite Hrec, Himg.
  cbn [epoch set_losses_dict losses_dict].
  destruct (Z.leb_spec 0 (epoch s)); [|lia].
  simpl.
  rewrite lookup_insert_ne, lookup_insert_eq by done.
  rewrite !lookup_insert_ne, Hc by done.
  rewrite lookup_insert_eq.
  cbn [epoch set_losses_dict losses_dict fst snd].
  rewrite lookup_insert_eq.
  rewrite py_add_tensor.
  cbn [epoch set_losses_dict losses_dict fst snd app].
  unfold Train.losses_after. rewrite !py_add_tensor.
  reflexivity.
Qed.

(** C1, amended: on every batch [train_step] sets
    [losses_dict['total_loss']] to
    [classification_loss + contrast_loss + reconstruction_loss] and calls
    [backward] on that sum before the optimizer step; of the three terms
    only the reconstruction loss is computed on the batch, the
    classification loss is the constant [0.0] and the contrastive loss is
    whatever [losses_dict['contrast_loss']] held before the step. *)
Theorem train_step_total_loss (s : core F) (b : batch F)
    (latents4 : tensor F) (contrast : pyval F) :
  steppable s b latents4 contrast →
  ∃ d s' before after,
    train_step b s
    = (Ok (d, 0), s', before ++ Backward (py_add (py_add (PyFloat (float_of_Z 0)) contrast)
                                 (PyTensor (recons_loss (reconstruct latents4) (image b))))
                        :: after) ∧
    OptimizerStep ∈ after ∧
    losses_dict s' = d ∧
    d !! "classification_loss" = Some (PyFloat (float_of_Z 0)) ∧
    d !! "contrast_loss" = Some contrast ∧
    d !! "reconstruction_loss"
    = Some (PyTensor (recons_loss (reconstruct latents4) (image b))) ∧
    d !! "total_loss"
    = Some (py_add (py_add (PyFloat (float_of_Z 0)) contrast)
              (PyTensor (recons_loss (reconstruct latents4) (image b)))).
Proof.
  intros Hstep. pose proof (train_step_run s b latents4 contrast Hstep) as Hrun.
  cbv zeta in Hrun.
  eexists _, _, [_; _; _; _], [_]. split; [exact Hrun|].
  unfold Train.losses_after.
  split_and!; [by left|done| | | |].
  - rewrite !lookup_insert_ne by done. by rewrite lookup_insert_eq.
  - rewrite !lookup_insert_ne by done. apply Hstep.
  - rewrite lookup_insert_ne by done. by rewrite lookup_insert_eq.
  - by rewrite lookup_insert_eq.
Qed.

(** C3, amended: in every training step the decoder is called once, on
    the whole bottleneck latent [latents[4]]; the reconstruction part of
    the split is computed and not used. *)
Theorem train_step_decoder_input (s : core F) (b : batch F)
    (latents4 : tensor F) (contrast : pyval F) :
  steppable s b latents4 contrast →
  ∃ nlatents4 bottleneck,
    split_latent latents4 (contrastive_latentsize s) = Ok (nlatents4, bottleneck) ∧
    decoder_inputs (train_step b s).2 = [latents4].
Proof.
  intros Hstep. eexists _, _.
  split; [apply TorchFacts.split_latent_Ok, Hstep|].
  pose proof (train_step_run s b latents4 contrast Hstep) as Hrun.
  cbv zeta in Hrun. by rewrite Hrun.
Qed.

End Step.

Lemma toy_steppable :
  steppable Toy.swinViT Toy.reconstruct (inner (init 1 2 "model.pth"))
    Toy.batch0 Toy.latent_2x3x2 (PyInt 0).
Proof. split; try done; by eexists. Qed.

Lemma train_step_total_loss_witness :
  ∃ d s' before after,
    Toy.train_step Toy.batch0 (inner (init 1 2 "model.pth"))
    = (Ok (d, 0), s',
       before ++ Backward (py_add Z.add id (py_add Z.add id (PyFloat 0) (PyInt 0))
                             (PyTensor 7)) :: after) ∧
    OptimizerStep ∈ after ∧
    losses_dict s' = d ∧
    d !! "classification_loss" = Some (PyFloat 0) ∧
    d !! "contrast_loss" = Some (PyInt 0) ∧
    d !! "reconstruction_loss" = Some (PyTensor 7) ∧
    d !! "total_loss"
    = Some (py_add Z.add id (py_add Z.add id (PyFloat 0) (PyInt 0)) (PyTensor 7)).
Proof.
  exact (train_step_total_loss Z.add id Toy.swinViT Toy.reconstruct
           Toy.recons_loss _ _ _ _ toy_steppable).
Defined.

(** C1, as the claim states it, fails: the contrastive term that
    [train_step] sums is the initial [0] of [losses_dict], while the
    contrastive loss computation on the same batch (the call to
    [contrastive_step] that [train_step] does not make) yields [1]. *)
Lemma train_step_contrast_not_computed :
  ∃ d s' evs nlatents4 bottleneck,
    Toy.train_step Toy.batch0 (inner (init 1 2 "model.pth"))
    = (Ok (d, 0), s', evs) ∧
    split_latent Toy.latent_2x3x2 2 = Ok (nlatents4, bottleneck) ∧
    losses_dict
      (Toy.contrastive_step
         [Toy.image_2; Toy.image_2; Toy.image_2; Toy.image_2; nlatents4]
         (roi_label Toy.batch0) 2 (inner (init 1 2 "model.pth"))).1.2
      !! "contrast_loss" = Some (PyTensor 1) ∧
    d !! "contrast_loss" = Some (PyInt 0) ∧
    d !! "total_loss" = Some (PyTensor 7).
Proof.
  eexists _, _, _, _, _.
  split; [vm_compute; reflexivity|].
  split; [vm_compute; reflexivity|].
  split_and!; vm_compute; reflexivity.
Qed.

Lemma train_step_decoder_input_witness :
  ∃ nlatents4 bottleneck,
    split_latent Toy.latent_2x3x2 2 = Ok (nlatents4, bottleneck) ∧
    decoder_inputs (Toy.train_step Toy.batch0 (inner (init 1 2 "model.pth"))).2
    = [Toy.latent_2x3x2].
Proof.
  exact (train_step_decoder_input Z.add id Toy.swinViT Toy.reconstruct
           Toy.recons_loss _ _ _ _ toy_steppable).
Defined.

(** C3, as the claim states it, fails: with three channels and a
    contrastive part of two, the reconstruction part of the split has one
    channel, and the decoder is called on the tensor of three. *)
Lemma train_step_decoder_not_bottleneck :
  ∃ nlatents4 bottleneck,
    split_latent Toy.latent_2x3x2 2 = Ok (nlatents4, bottleneck) ∧
    size1 bottleneck = 1%nat ∧
    decoder_inputs (Toy.train_step Toy.batch0 (inner (init 1 2 "model.pth"))).2
    = [Toy.latent_2x3x2] ∧
    Toy.latent_2x3x2 ≠ bottleneck.
Proof.
  eexists _, _.
  split; [vm_compute; reflexivity|].
  split; [reflexivity|].
  split; [vm_compute; reflexivity|].
  discriminate.
Qed.

End TrainStepFacts.

(** ** More on [group_data] and [create_datasets] *)

Module GroupDataFacts.
Import GroupSplit Transforms GroupSplitFacts.

Section Grouping.
Context (extract_base : string → string) (m : mode).
Local Abbreviation key := (group_key extract_base m).
Local Abbreviation group_data_loop := (GroupSplit.group_data_loop extract_base m).
Local Abbreviation group_data l := (GroupSplit.group_data extract_base l m).

Lemma group_data_unfold (l : list item) :
  group_data l
  = ((group_data_loop ∅ l).1.2, (group_data_loop ∅ l).2).
Proof.
  unfold GroupSplit.group_data. by destruct (group_data_loop ∅ l) as [[gm items] ids].
Qed.

(** X1: [group_data] hands out one id per item and writes it into the
    item's ['group_id']; the other entries of the item stay as they
    were; and two items get the same id exactly when they have the same
    group key. *)
Theorem group_data_ids_follow_keys (l : list item) :
  let items := (group_data l).1 in
  let ids := (group_data l).2 in
  length ids = length l ∧
  group_id <$> items = Some <$> ids ∧
  manifest_entry <$> items = manifest_entry <$> l ∧
  ∀ i j a b, items !! i = Some a → items !! j = Some b →
             (group_id a = group_id b ↔ key a = key b).
Proof.
  destruct (group_data l) as [items ids] eqn:Hgd. cbn [fst snd].
  apply group_data_spec in Hgd as (Hlen & -> & Hids).
  split_and!; [done| |by apply manifest_entry_annotated|].
  - clear Hids. revert ids Hlen.
    induction l as [|it l IH]; intros [|g ids] [=]; [done|].
    cbn. f_equal. by apply IH.
  - intros i j a b
      (a0 & g & -> & Ha & Hg)%lookup_zip_with_Some
      (b0 & h & -> & Hb & Hh)%lookup_zip_with_Some.
    rewrite !group_key_set_group_id. cbn [group_id set_group_id].
    rewrite <- (Hids i j a0 b0 g h Ha Hb Hg Hh). naive_solver.
Qed.

Lemma group_data_loop_dense (l : list item) :
  ∀ (gm gm' : gmap string Z) (items : list item) (ids : list Z),
    group_data_loop gm l = (gm', items, ids) →
    group_map_inv gm →
    ∀ (i : nat) (g : Z),
      ids !! i = Some g →
      0 ≤ g ≤ Z.of_nat (size gm + i) ∧
      ∀ h, Z.of_nat (size gm) ≤ h < g →
           ∃ j, (j < i)%nat ∧ ids !! j = Some h.
Proof.
  induction l as [|it l IH]; intros gm gm' items ids; simpl.
  { intros [= <- <- <-] _ i g. by rewrite lookup_nil. }
  set (k := key it).
  set (gm1 := match gm !! k with
              | None => <[k := Z.of_nat (size gm)]> gm
              | Some _ => gm
              end).
  destruct (group_data_loop gm1 l) as [[gm2 items2] ids2] eqn:Hloop.
  intros [= <- <- <-] Hinv.
  assert (group_map_inv gm1 ∧
          ∃ g0, gm1 !! k = Some g0 ∧ 0 ≤ g0 ∧
                ((g0 = Z.of_nat (size gm) ∧ size gm1 = S (size gm)) ∨
                 (g0 < Z.of_nat (size gm) ∧ size gm1 = size gm)))
    as (Hinv1 & g0 & Hg0 & Hpos & Hcase).
  { subst gm1. destruct (gm !! k) as [g0|] eqn:Hk.
    - split; [done|]. exists g0. destruct Hinv as [Hr _].
      specialize (Hr _ _ Hk). split_and!; [done|lia|right; lia].
    - split; [by apply group_map_inv_fresh|].
      exists (Z.of_nat (size gm)).
      rewrite lookup_insert_eq, map_size_insert_None by done.
      split_and!; [done|lia|by left]. }
  rewrite Hg0. cbn [default from_option].
  intros [|i] g.
  - intros [= <-]. rewrite Nat.add_0_r. split; [lia|]. intros h Hh. lia.
  - cbn [lookup list_lookup]. intros Hg.
    destruct (IH _ _ _ _ Hloop Hinv1 i g Hg) as [Hb Hdense].
    split; [lia|]. intros h Hh.
    destruct Hcase as [[-> Hsize]|[Hlt Hsize]].
    + destruct (decide (h = Z.of_nat (size gm))) as [->|Hne].
      * exists 0%nat. split; [lia|done].
      * destruct (Hdense h) as (j & Hj & Hlk); [lia|].
        exists (S j). split; [lia|done].
    + destruct (Hdense h) as (j & Hj & Hlk); [lia|].
      exists (S j). split; [lia|done].
Qed.

(** X2: [group_data] numbers the groups from 0 in the order in which
    their keys first appear: the id at position [i] is at most [i], and
    every smaller id has been given to an earlier item. *)
Theorem group_data_ids_dense (l : list item) (i : nat) (g : Z) :
  (group_data l).2 !! i = Some g →
  0 ≤ g ≤ Z.of_nat i ∧
  ∀ h, 0 ≤ h < g → ∃ j, (j < i)%nat ∧ (group_data l).2 !! j = Some h.
Proof.
  rewrite group_data_unfold. cbn [snd].
  destruct (group_data_loop ∅ l) as [[gm items] ids] eqn:Hloop.
  cbn [snd]. intros Hg.
  destruct (group_data_loop_dense l _ _ _ _ Hloop group_map_inv_empty i g Hg)
    as [Hb Hdense].
  rewrite map_size_empty in Hb, Hdense. split; [lia|].
  intros h Hh. apply Hdense. lia.
Qed.

(** The result of the loop depends on the items only through the entries
    of the manifest: a ['group_id'] already there is overwritten. *)
Lemma group_data_loop_manifest (l1 : list item) :
  ∀ (l2 : list item) (gm : gmap string Z),
    manifest_entry <$> l1 = manifest_entry <$> l2 →
    group_data_loop gm l1 = group_data_loop gm l2.
Proof.
  induction l1 as [|a l1 IH]; intros [|b l2] gm Heq; try done.
  rewrite !fmap_cons in Heq. apply (inj2 cons) in Heq as [Hab Heq].
  assert (key a = key b ∧ ∀ g, set_group_id a g = set_group_id b g)
    as [Hkey Hset].
  { unfold manifest_entry in Hab.
    assert (image a = image b ∧ roi_label a = roi_label b ∧
            SeriesDescription a = SeriesDescription b) as (Hi & Hr & Hs)
      by (by split_and!; congruence).
    unfold group_key, set_group_id. rewrite Hi, Hr, Hs. by destruct m. }
  cbn [GroupSplit.group_data_loop]. rewrite Hkey, Hset.
  by rewrite (IH l2 _ Heq).
Qed.

(** X3: [group_data] is idempotent: run again over the list it has
    annotated, it writes the same ids into the same items. *)
Theorem group_data_idempotent (l : list item) :
  group_data (group_data l).1 = group_data l.
Proof.
  destruct (group_data l) as [items ids] eqn:Hgd. cbn [fst].
  pose proof Hgd as (Hlen & -> & _)%group_data_spec.
  rewrite <- Hgd. unfold GroupSplit.group_data.
  rewrite (group_data_loop_manifest _ l); [done|].
  by apply manifest_entry_annotated.
Qed.

End Grouping.

Lemma group_data_ids_dense_witness :
  0 ≤ 2 ≤ Z.of_nat 3 ∧
  ∀ h, 0 ≤ h < 2 →
       ∃ j, (j < 3)%nat ∧
            (group_data id
               [ct "A1 - #1"; ct "B2 - #1"; ct "A1 - #2"; ct "C1 - #1"]
               scanner).2 !! j = Some h.
Proof.
  apply (group_data_ids_dense id scanner
           [ct "A1 - #1"; ct "B2 - #1"; ct "A1 - #2"; ct "C1 - #1"] 3 2).
  reflexivity.
Defined.

(** X4: on the path that splits, every item [create_datasets] returns
    carries a ['group_id'], and two returned items have the same
    ['group_id'] exactly when [ExtractScannerLabel] gives them the same
    scanner label. *)
Theorem create_datasets_group_id_is_scanner
    (extract_base : string → string)
    (splitter : Q → Z → list Z → result (list nat * list nat))
    (data_list : list item) (test_size : Q) (seed : Z)
    (train_data test_data : list item) :
  ¬ (test_size <= min_test_size)%Q →
  create_datasets extract_base splitter data_list test_size seed
  = Ok (train_data, test_data) →
  ∀ a b, a ∈ train_data ++ test_data → b ∈ train_data ++ test_data →
    ∃ g h, group_id a = Some g ∧ group_id b = Some h ∧
           (g = h ↔ ExtractScannerLabel a = ExtractScannerLabel b).
Proof.
  intros Hts. unfold create_datasets.
  destruct (Qle_bool test_size min_test_size) eqn:Hle.
  { by apply Qle_bool_iff in Hle. }
  destruct (GroupSplit.group_data extract_base data_list scanner)
    as [items ids] eqn:Hgd.
  apply group_data_spec in Hgd as (Hlen & -> & Hids).
  destruct (splitter test_size seed ids) as [[train_idx test_idx]|];
    [|done].
  cbn [mbind result_bind].
  destruct (py_select _ train_idx) as [tr|] eqn:Htr; [|done].
  destruct (py_select _ test_idx) as [te|] eqn:Hte; [|done].
  cbn [mbind result_bind]. intros [= <- <-].
  apply py_select_omap in Htr, Hte. rewrite Htr, Hte, <- omap_app.
  intros a b (i & Hi & Ha)%list_elem_of_omap (j & Hj & Hb)%list_elem_of_omap.
  apply lookup_zip_with_Some in Ha as (a0 & g & -> & Ha0 & Hg).
  apply lookup_zip_with_Some in Hb as (b0 & h & -> & Hb0 & Hh).
  exists g, h. split_and!; [done..|].
  apply (Hids i j a0 b0 g h Ha0 Hb0 Hg Hh).
Qed.

Lemma create_datasets_group_id_is_scanner_witness :
  create_datasets id (group_shuffle_split rotate_permutation)
    [ct "A1 - #1"; ct "B2 - #1"; ct "A1 - #2"; ct "C1 - #1"] (1 # 2) 42
  = Ok ([set_group_id (ct "C1 - #1") 2],
        [set_group_id (ct "A1 - #1") 0; set_group_id (ct "B2 - #1") 1;
         set_group_id (ct "A1 - #2") 0]) ∧
  ∀ a b,
    a ∈ [set_group_id (ct "C1 - #1") 2]
        ++ [set_group_id (ct "A1 - #1") 0; set_group_id (ct "B2 - #1") 1;
            set_group_id (ct "A1 - #2") 0] →
    b ∈ [set_group_id (ct "C1 - #1") 2]
        ++ [set_group_id (ct "A1 - #1") 0; set_group_id (ct "B2 - #1") 1;
            set_group_id (ct "A1 - #2") 0] →
    ∃ g h, group_id a = Some g ∧ group_id b = Some h ∧
           (g = h ↔ ExtractScannerLabel a = ExtractScannerLabel b).
Proof.
  split; [vm_compute; reflexivity|].
  apply (create_datasets_group_id_is_scanner id
           (group_shuffle_split rotate_permutation)
           [ct "A1 - #1"; ct "B2 - #1"; ct "A1 - #2"; ct "C1 - #1"]
           (1 # 2) 42).
  - vm_compute. by intros.
  - vm_compute. reflexivity.
Defined.

(** *** The first version *)

Section Legacy.
Context (extract_base : string → string).

Lemma legacy_group_data_loop (m : mode) (l : list item) :
  ∀ gm : gmap string Z,
    LegacySplit.group_data_loop extract_base m gm l
    = (GroupSplit.group_data_loop extract_base m gm l).1.2 ∧
    LegacySplit.group_ids (LegacySplit.group_data_loop extract_base m gm l)
    = Ok (GroupSplit.group_data_loop extract_base m gm l).2.
Proof.
  induction l as [|it l IH]; intros gm; [done|].
  cbn [LegacySplit.group_data_loop GroupSplit.group_data_loop].
  set (gm1 := match gm !! _ with None => _ | Some _ => _ end).
  destruct (IH gm1) as [IH1 IH2].
  destruct (GroupSplit.group_data_loop extract_base m gm1 l)
    as [[gm2 items] ids].
  cbn [fst snd] in *. split; [by rewrite IH1|].
  cbn [LegacySplit.group_ids group_id set_group_id mbind result_bind].
  rewrite IH1 in IH2. rewrite IH1, IH2. done.
Qed.

(** X5: when [test_size] is above the guard of the later version, the
    first version of [create_datasets], which reads the groups back from
    the ['group_id'] entries it has just written, returns what the later
    version returns. *)
Theorem legacy_create_datasets_agrees
    (splitter : Q → Z → list Z → result (list nat * list nat))
    (data_list : list item) (test_size : Q) (seed : Z) :
  ¬ (test_size <= min_test_size)%Q →
  LegacySplit.create_datasets extract_base splitter data_list test_size seed
  = GroupSplit.create_datasets extract_base splitter data_list test_size seed.
Proof.
  intros Hts. unfold LegacySplit.create_datasets, create_datasets.
  destruct (Qle_bool test_size min_test_size) eqn:Hle.
  { by apply Qle_bool_iff in Hle. }
  unfold LegacySplit.group_data, GroupSplit.group_data.
  destruct (legacy_group_data_loop scanner data_list ∅) as [-> Hids].
  destruct (GroupSplit.group_data_loop extract_base scanner ∅ data_list)
    as [[gm items] ids].
  cbn [fst snd] in *. by rewrite Hids.
Qed.

(** X6: without the guard, the first version of [create_datasets] raises
    [ValueError] for every [test_size <= 0] (the scikit-learn splitter
    rejects it), whatever the data; the later version returns the whole
    list as training data there. *)
Theorem legacy_create_datasets_rejects_zero
    (rng_permutation : Z → nat → list nat)
    (data_list : list item) (test_size : Q) (seed : Z) :
  (test_size <= 0)%Q →
  (∃ msg,
     LegacySplit.create_datasets extract_base
       (group_shuffle_split rng_permutation) data_list test_size seed
     = Raise (ValueError msg)) ∧
  GroupSplit.create_datasets extract_base
    (group_shuffle_split rng_permutation) data_list test_size seed
  = Ok (data_list, []).
Proof.
  intros Hts. split.
  - unfold LegacySplit.create_datasets, LegacySplit.group_data.
    destruct (legacy_group_data_loop scanner data_list ∅) as [_ ->].
    cbn [mbind result_bind].
    unfold group_shuffle_split, validate_shuffle_split.
    apply Qle_bool_iff in Hts. rewrite Hts. cbn. by eexists.
  - unfold create_datasets.
    assert (Qle_bool test_size min_test_size = true) as ->; [|done].
    apply Qle_bool_iff. by apply (Qle_trans _ 0).
Qed.

End Legacy.

Lemma legacy_create_datasets_agrees_witness :
  LegacySplit.create_datasets id (group_shuffle_split rotate_permutation)
    [ct "A1 - #1"; ct "B2 - #1"; ct "A1 - #2"; ct "C1 - #1"] (1 # 2) 42
  = GroupSplit.create_datasets id (group_shuffle_split rotate_permutation)
      [ct "A1 - #1"; ct "B2 - #1"; ct "A1 - #2"; ct "C1 - #1"] (1 # 2) 42.
Proof.
  apply (legacy_create_datasets_agrees id
           (group_shuffle_split rotate_permutation)
           [ct "A1 - #1"; ct "B2 - #1"; ct "A1 - #2"; ct "C1 - #1"]
           (1 # 2) 42).
  vm_compute. by intros.
Defined.

Lemma legacy_create_datasets_rejects_zero_witness :
  (∃ msg,
     LegacySplit.create_datasets id (group_shuffle_split rotate_permutation)
       [ct "A1 - #1"; ct "B2 - #1"] 0 42
     = Raise (ValueError msg)) ∧
  GroupSplit.create_datasets id (group_shuffle_split rotate_permutation)
    [ct "A1 - #1"; ct "B2 - #1"] 0 42
  = Ok ([ct "A1 - #1"; ct "B2 - #1"], []).
Proof.
  apply (legacy_create_datasets_rejects_zero id rotate_permutation
           [ct "A1 - #1"; ct "B2 - #1"] 0 42).
  done.
Defined.

End GroupDataFacts.

(** ** The rows of [run_inference] *)

Module OscarRowFacts.
Import Oscar OscarFacts.

Section Rows.
Context {F Img : Type}.
Context (SERIES_NUMBER_FIELD SERIES_DESCRIPTION_FIELD
         MANUFACTURER_MODEL_NAME_FIELD MANUFACTURER_FIELD
         SLICE_THICKNESS_FIELD : string).
Context (forward : Img → result (list F)).

Local Abbreviation make_record :=
  (Oscar.make_record SERIES_NUMBER_FIELD SERIES_DESCRIPTION_FIELD
     MANUFACTURER_MODEL_NAME_FIELD MANUFACTURER_FIELD SLICE_THICKNESS_FIELD
     forward).
Local Abbreviation write_records :=
  (Oscar.write_records SERIES_NUMBER_FIELD SERIES_DESCRIPTION_FIELD
     MANUFACTURER_MODEL_NAME_FIELD MANUFACTURER_FIELD SLICE_THICKNESS_FIELD
     forward).
Local Abbreviation run_inference :=
  (Oscar.run_inference SERIES_NUMBER_FIELD SERIES_DESCRIPTION_FIELD
     MANUFACTURER_MODEL_NAME_FIELD MANUFACTURER_FIELD SLICE_THICKNESS_FIELD
     forward).
Local Abbreviation processable :=
  (Oscar.processable SERIES_NUMBER_FIELD SERIES_DESCRIPTION_FIELD
     MANUFACTURER_MODEL_NAME_FIELD MANUFACTURER_FIELD SLICE_THICKNESS_FIELD
     forward).

Lemma info_first_inv (b : batch Img) (field : string) (c : cell F) :
  info_first b field = Ok c →
  ∃ l v, info b !! field = Some l ∧ l !! 0%nat = Some v ∧ c = Str v.
Proof.
  unfold info_first, dict_get, py_getitem.
  destruct (info b !! field) as [l|] eqn:Hl; [|done]. cbn.
  destruct (l !! 0%nat) as [v|] eqn:Hv; [|done]. cbn.
  intros [= <-]. by exists l, v.
Qed.

(** The row of a batch, column by column. *)
Lemma make_record_row (b : batch Img) (row : list (cell F)) :
  (record ← make_record b; writerow fieldnames record) = Ok row →
  processable b ∧
  ∃ latentrep roi sn sd mm mf st,
    forward (image b) = Ok latentrep ∧
    py_getitem (roi_label b) 0 = Ok roi ∧
    info_first (F := F) b SERIES_NUMBER_FIELD = Ok (Str sn) ∧
    info_first (F := F) b SERIES_DESCRIPTION_FIELD = Ok (Str sd) ∧
    info_first (F := F) b MANUFACTURER_MODEL_NAME_FIELD = Ok (Str mm) ∧
    info_first (F := F) b MANUFACTURER_FIELD = Ok (Str mf) ∧
    info_first (F := F) b SLICE_THICKNESS_FIELD = Ok (Str st) ∧
    row = [Str sn; Features latentrep; Str roi; Str sd; Str mm; Str mf;
           Str st].
Proof.
  unfold Oscar.make_record.
  destruct (forward (image b)) as [latentrep|] eqn:Hf; [|done].
  cbn [mbind result_bind].
  destruct (info_first b SERIES_NUMBER_FIELD) as [c1|] eqn:H1; [|done].
  cbn [mbind result_bind].
  destruct (py_getitem (roi_label b) 0) as [roi|] eqn:Hroi; [|done].
  cbn [mbind result_bind].
  destruct (info_first b SERIES_DESCRIPTION_FIELD) as [c2|] eqn:H2; [|done].
  cbn [mbind result_bind].
  destruct (info_first b MANUFACTURER_MODEL_NAME_FIELD) as [c3|] eqn:H3;
    [|done].
  cbn [mbind result_bind].
  destruct (info_first b MANUFACTURER_FIELD) as [c4|] eqn:H4; [|done].
  cbn [mbind result_bind].
  destruct (info_first b SLICE_THICKNESS_FIELD) as [c5|] eqn:H5; [|done].
  cbn [mbind result_bind].
  pose proof H1 as (l1 & sn & Hl1 & Hv1 & ->)%info_first_inv.
  pose proof H2 as (l2 & sd & Hl2 & Hv2 & ->)%info_first_inv.
  pose proof H3 as (l3 & mm & Hl3 & Hv3 & ->)%info_first_inv.
  pose proof H4 as (l4 & mf & Hl4 & Hv4 & ->)%info_first_inv.
  pose proof H5 as (l5 & st & Hl5 & Hv5 & ->)%info_first_inv.
  assert (processable b) as Hb.
  { split_and!; [by eexists| |].
    - unfold py_getitem in Hroi.
      destruct (roi_label b !! 0%nat) as [r|]; [by eexists|done].
    - repeat (constructor; [by eexists _, _|]). constructor. }
  destruct (writerow_record _ _ _ _ _ _ b Hb) as (row' & Hrow & _).
  unfold Oscar.make_record in Hrow.
  rewrite Hf, H1, Hroi, H2, H3, H4, H5 in Hrow.
  cbn [mbind result_bind] in Hrow. rewrite Hrow. intros [= <-].
  split; [done|]. exists latentrep, roi, sn, sd, mm, mf, st.
  split_and!; try done.
  unfold writerow in Hrow. case_decide; [|done].
  injection Hrow as <-. cbn [fmap list_fmap fieldnames].
  repeat (rewrite lookup_insert_eq || rewrite lookup_insert_ne by done).
  done.
Qed.

Lemma write_records_inv (dataload : list (batch Img)) :
  ∀ (written out : list (list (cell F))) (r : result unit),
    write_records dataload written = (r, out) →
    ∃ (done_ : list (batch Img)) (records : list (list (cell F))),
      out = written ++ records ∧
      Forall2 (λ b row,
                 (record ← make_record b; writerow fieldnames record) = Ok row)
        done_ records ∧
      match r with
      | Ok _ => done_ = dataload
      | Raise e =>
          ∃ b rest, dataload = done_ ++ b :: rest ∧
                    (record ← make_record b; writerow fieldnames record)
                    = Raise e
      end.
Proof.
  induction dataload as [|b dataload IH]; intros written out r.
  - intros [= <- <-]. exists [], []. rewrite app_nil_r.
    split_and!; [done|constructor|done].
  - cbn [Oscar.write_records].
    destruct (record ← make_record b; writerow fieldnames record)
      as [row|e] eqn:Hrow.
    + intros (done_ & records & -> & Hall & Hr)%IH.
      exists (b :: done_), (row :: records).
      rewrite <- (assoc_L (++)). split_and!; [done|by constructor|].
      destruct r as [[]|e]; [by subst|].
      destruct Hr as (b' & rest & -> & Hb'). by exists b', rest.
    + intros [= <- <-]. exists [], []. rewrite app_nil_r.
      split_and!; [done|constructor|]. by exists b, dataload.
Qed.

(** X7: in the file of a run of [run_inference] that completes, the row
    of every batch holds, in this order, [info[SERIES_NUMBER][0]], the
    features the network returns for the batch's image,
    [roi_label[0]], and the first entries of the series description,
    model name, manufacturer and slice thickness. *)
Theorem run_inference_rows (dataload : list (batch Img))
    (file : csv_file F) :
  run_inference dataload = (Ok tt, file) →
  ∃ records,
    rows file = writeheader fieldnames :: records ∧
    Forall2
      (λ b row,
         ∃ latentrep roi sn sd mm mf st,
           forward (image b) = Ok latentrep ∧
           py_getitem (roi_label b) 0 = Ok roi ∧
           info_first (F := F) b SERIES_NUMBER_FIELD = Ok (Str sn) ∧
           info_first (F := F) b SERIES_DESCRIPTION_FIELD = Ok (Str sd) ∧
           info_first (F := F) b MANUFACTURER_MODEL_NAME_FIELD = Ok (Str mm) ∧
           info_first (F := F) b MANUFACTURER_FIELD = Ok (Str mf) ∧
           info_first (F := F) b SLICE_THICKNESS_FIELD = Ok (Str st) ∧
           row = [Str sn; Features latentrep; Str roi; Str sd; Str mm;
                  Str mf; Str st])
      dataload records.
Proof.
  unfold Oscar.run_inference.
  destruct (write_records dataload [writeheader fieldnames])
    as [r out] eqn:Hrun.
  intros [= -> <-].
  apply write_records_inv in Hrun as (done_ & records & -> & Hall & ->).
  exists records. split; [done|].
  eapply Forall2_impl; [exact Hall|].
  intros b row Hrow. by apply make_record_row in Hrow as [_ ?].
Qed.

(** X8: [run_inference] completes exactly when every batch can be
    processed; at the first batch that cannot, it raises, and the file
    keeps the header and the rows of the batches before it and gets no
    row for that batch or any later one. *)
Theorem run_inference_stops_at_first_failure
    (done_ rest : list (batch Img)) (b : batch Img) :
  Forall processable done_ →
  ¬ processable b →
  ∃ e records,
    run_inference (done_ ++ b :: rest)
    = (Raise e,
       {| path := "torch_normalized_deepfeaturesoscar.csv";
          rows := writeheader fieldnames :: records |}) ∧
    length records = length done_ ∧
    (∀ more, (run_inference (done_ ++ more)).1 = Ok tt ↔
             Forall processable more).
Proof.
  intros Hdone Hb. unfold Oscar.run_inference.
  destruct (write_records (done_ ++ b :: rest) [writeheader fieldnames])
    as [r out] eqn:Hrun.
  apply write_records_inv in Hrun as (done' & records & -> & Hall & Hr).
  assert (∀ l recs, Forall2 (λ b row,
                 (record ← make_record b; writerow fieldnames record) = Ok row)
                 l recs → Forall processable l) as Hproc.
  { intros l recs Hl. clear -Hl. induction Hl as [|x row l recs Hx _ IH];
      constructor; [|done]. by apply make_record_row in Hx as [? _]. }
  destruct r as [[]|e].
  - subst done'. apply Hproc in Hall.
    apply Forall_app in Hall as [_ Hall]. by apply Forall_cons in Hall as [? _].
  - destruct Hr as (b' & rest' & Heq & Hb').
    assert (done' = done_) as ->.
    { pose proof (Hproc _ _ Hall) as Hdone'.
      clear -Heq Hdone Hdone' Hb Hb'. revert done' Heq Hdone'.
      induction Hdone as [|x done_ Hx _ IH]; intros [|y done'] Heq Hdone'.
      - done.
      - injection Heq as -> _. by apply Forall_cons in Hdone' as [? _].
      - injection Heq as -> _.
        destruct (writerow_record _ _ _ _ _ _ b' Hx) as (row & Hrow & _).
        congruence.
      - injection Heq as -> Heq. apply Forall_cons in Hdone' as [_ Hdone'].
        f_equal. by apply IH. }
    exists e, records. split_and!; [done|symmetry; by eapply Forall2_length|].
    intros more. split.
    + destruct (write_records (done_ ++ more) [writeheader fieldnames])
        as [r out] eqn:Hrun.
      cbn. intros ->.
      apply write_records_inv in Hrun as (d & recs & _ & Hall' & ->).
      apply Hproc in Hall'. by apply Forall_app in Hall' as [_ ?].
    + intros Hmore.
      destruct (write_records_Ok SERIES_NUMBER_FIELD SERIES_DESCRIPTION_FIELD
                  MANUFACTURER_MODEL_NAME_FIELD MANUFACTURER_FIELD
                  SLICE_THICKNESS_FIELD forward (done_ ++ more)
                  [writeheader fieldnames]) as (recs & -> & _); [|done].
      apply Forall_app. by split.
Qed.

End Rows.

Lemma run_inference_rows_witness :
  ∃ records,
    rows {| path := "torch_normalized_deepfeaturesoscar.csv";
            rows :=
              [[Str "SeriesNumber"; Str "deepfeatures"; Str "ROI";
                Str "SeriesDescription"; Str "ManufacturerModelName";
                Str "Manufacturer"; Str "SliceThickness"];
               [Str "4"; Features [1; 2]; Str "cyst1"; Str "A1 - #1";
                Str "SOMATOM"; Str "SIEMENS"; Str "2.0"]] |}
    = writeheader fieldnames :: records ∧
    Forall2
      (λ b row,
         ∃ latentrep roi sn sd mm mf st,
           (λ _ : unit, Ok [1; 2]) (image b) = Ok latentrep ∧
           py_getitem (roi_label b) 0 = Ok roi ∧
           info_first (F := Z) b "SeriesNumber" = Ok (Str sn) ∧
           info_first (F := Z) b "SeriesDescription" = Ok (Str sd) ∧
           info_first (F := Z) b "ManufacturerModelName" = Ok (Str mm) ∧
           info_first (F := Z) b "Manufacturer" = Ok (Str mf) ∧
           info_first (F := Z) b "SliceThickness" = Ok (Str st) ∧
           row = [Str sn; Features latentrep; Str roi; Str sd; Str mm;
                  Str mf; Str st])
      [toy_batch] records.
Proof.
  apply (run_inference_rows "SeriesNumber" "SeriesDescription"
           "ManufacturerModelName" "Manufacturer" "SliceThickness"
           (λ _ : unit, Ok [1; 2]) [toy_batch]).
  vm_compute. reflexivity.
Defined.

Lemma run_inference_stops_at_first_failure_witness :
  ∃ e records,
    toy_run_inference
      ([toy_batch]
         ++ {| image := tt; info := info toy_batch; roi_label := [] |}
         :: [toy_batch])
    = (Raise e,
       {| path := "torch_normalized_deepfeaturesoscar.csv";
          rows := writeheader fieldnames :: records |}) ∧
    length records = length [toy_batch] ∧
    (∀ more, (toy_run_inference ([toy_batch] ++ more)).1 = Ok tt ↔
             Forall (processable "SeriesNumber" "SeriesDescription"
                       "ManufacturerModelName" "Manufacturer" "SliceThickness"
                       (λ _ : unit, Ok [1; 2])) more).
Proof.
  apply (run_inference_stops_at_first_failure "SeriesNumber"
           "SeriesDescription" "ManufacturerModelName" "Manufacturer"
           "SliceThickness" (λ _ : unit, Ok [1; 2])
           [toy_batch] [toy_batch]
           {| image := tt; info := info toy_batch; roi_label := [] |}).
  - constructor; [apply toy_batch_processable|constructor].
  - intros (_ & [roi Hroi] & _). discriminate Hroi.
Defined.

End OscarRowFacts.

(** ** [test_epoch] and [compute_accuracy] *)

Module TestEpochFacts.
Import Torch Train.

Section TestEpoch.
Context {F : Type} (fadd : F → F → F) (float_of_Z : Z → F).
Context (np_mean : list Z → F).

Local Abbreviation test_epoch_loop :=
  (Train.test_epoch_loop fadd float_of_Z).
Local Abbreviation test_epoch := (Train.test_epoch fadd float_of_Z np_mean).
Local Abbreviation py_add := (Train.py_add fadd float_of_Z).

(** The loop reads [losses_dict['total_loss']] once per batch and looks
    at nothing of the batch. *)
Lemma test_epoch_loop_run (test_loader : list (batch F)) :
  ∀ (running : pyval F) (s : core F),
    test_loader ≠ [] →
    match losses_dict s !! "total_loss" with
    | Some (PyTensor x) =>
        ∃ v, test_epoch_loop running test_loader s = (Ok v, s, [])
    | Some v =>
        ∃ msg, test_epoch_loop running test_loader s
               = (Raise (AttributeError msg), s, [])
    | None =>
        test_epoch_loop running test_loader s
        = (Raise (KeyError "total_loss"), s, [])
    end.
Proof.
  induction test_loader as [|b rest IH]; intros running s Hne; [done|].
  cbn [Train.test_epoch_loop].
  unfold get_loss, mbind, M_bind, get, lift, dict_get.
  destruct (losses_dict s !! "total_loss") as [[z|x|x]|] eqn:Hl;
    cbn; try by eexists.
  destruct rest as [|b' rest]; [by eexists|].
  specialize (IH (py_add running (PyFloat x)) s ltac:(done)).
  rewrite Hl in IH. destruct IH as [v ->]. by eexists.
Qed.

Lemma test_epoch_Ok_run (test_loader : list (batch F)) (s : core F) (x : F) :
  test_loader ≠ [] →
  losses_dict s !! "total_loss" = Some (PyTensor x) →
  test_epoch test_loader s
  = (Ok tt,
     set_acc_dict s
       (<["best_test_acc" :=
            PyFloat (np_mean (replicate (length test_loader) 0))]>
          (acc_dict s)), []).
Proof.
  intros Hne Hx.
  pose proof (test_epoch_loop_run test_loader (PyInt 0) s Hne) as Hloop.
  rewrite Hx in Hloop. destruct Hloop as [v Hv].
  unfold Train.test_epoch, mbind, M_bind. rewrite Hv.
  by destruct test_loader.
Qed.

Lemma test_epoch_Raise_run (test_loader : list (batch F)) (s : core F) :
  test_loader = [] ∨
  (∀ x, losses_dict s !! "total_loss" ≠ Some (PyTensor x)) →
  ∃ e, test_epoch test_loader s = (Raise e, s, []) ∧
       (test_loader = [] → e = ZeroDivisionError).
Proof.
  destruct test_loader as [|b rest]; [by eexists|].
  intros [?|Hx]; [done|].
  pose proof (test_epoch_loop_run (b :: rest) (PyInt 0) s ltac:(done)) as Hloop.
  unfold Train.test_epoch, mbind, M_bind.
  destruct (losses_dict s !! "total_loss") as [[z|x|x]|] eqn:Hl.
  - destruct Hloop as [msg ->]. by eexists.
  - destruct Hloop as [msg ->]. by eexists.
  - by destruct (Hx x).
  - rewrite Hloop. by eexists.
Qed.

Lemma test_epoch_Ok_inv (test_loader : list (batch F)) (s s' : core F)
    (evs : list (event F)) :
  test_epoch test_loader s = (Ok tt, s', evs) →
  test_loader ≠ [] ∧ ∃ x, losses_dict s !! "total_loss" = Some (PyTensor x).
Proof.
  intros Hrun.
  destruct (decide (test_loader = [])) as [->|Hne]; [done|].
  split; [done|].
  destruct (losses_dict s !! "total_loss") as [[z|x|x]|] eqn:Hl;
    try (by eexists);
    (destruct (test_epoch_Raise_run test_loader s) as (e & He & _);
     [right; intros x'; congruence|congruence]).
Qed.



End TestEpoch.

End TestEpochFacts.

Module AccuracyFacts.
Import Accuracy.

(** The rows on which two columns agree, counted over the pairs and
    counted over the positions. *)
Lemma count_equal_positions (a : list Z) :
  ∀ b : list Z,
    length a = length b →
    count_equal a b
    = length (filter (λ i, a !! i = b !! i) (seq 0 (length a))).
Proof.
  unfold count_equal.
  induction a as [|x a IH]; intros [|y b] [=]; [done|].
  assert (length (filter (λ i, (x :: a) !! i = (y :: b) !! i)
                    (S <$> seq 0 (length a)))
          = length (filter (λ i, a !! i = b !! i) (seq 0 (length a))))
    as Hshift.
  { generalize (seq 0 (length a)). intros l.
    induction l as [|i l IHl]; [done|].
    rewrite fmap_cons, !filter_cons. cbn [lookup list_lookup].
    destruct (decide (a !! i = b !! i)); cbn [length]; by rewrite IHl. }
  cbn [zip zip_with length seq]. rewrite <- fmap_S_seq.
  rewrite (filter_cons _ (x, y)), (filter_cons _ 0%nat).
  cbn [fst snd lookup list_lookup].
  destruct (decide (x = y)) as [->|Hne].
  - rewrite decide_True by done. cbn [length].
    rewrite Hshift. f_equal. by apply IH.
  - rewrite decide_False by congruence. rewrite Hshift. by apply IH.
Qed.

Section Accuracy.
Context {F : Type} (fmul fdiv : F → F → F) (float_of_Z : Z → F).
Context (argmax : list F → Z).

Local Abbreviation compute_accuracy :=
  (Accuracy.compute_accuracy fmul fdiv float_of_Z argmax).

Lemma count_equal_le (a b : list Z) :
  (count_equal a b ≤ length a)%nat.
Proof.
  unfold count_equal. etrans; [apply length_filter|].
  rewrite length_zip. lia.
Qed.

Lemma count_equal_all (a : list Z) :
  ∀ b, length a = length b → count_equal a b = length a ↔ a = b.
Proof.
  unfold count_equal.
  induction a as [|x a IH]; intros [|y b] [=]; [done|].
  cbn [zip zip_with]. rewrite filter_cons. cbn [fst snd length].
  case_decide as Hxy.
  - subst y. cbn [length]. specialize (IH b ltac:(done)). split.
    + intros [= Hc]. f_equal. by apply IH.
    + intros [= ->%IH]. by f_equal.
  - pose proof (length_filter (λ p : Z * Z, p.1 = p.2) (zip a b)) as Hle.
    rewrite length_zip in Hle. split; [lia|by intros [=]].
Qed.

(** X11: with [acc_metric='class_mean'], [compute_accuracy] never
    returns a value: when its assertion holds and the logits have a
    class, it gets to [torch.mean(class_accuracies)], whose argument is
    a Python list, and raises there. *)
Theorem compute_accuracy_class_mean_raises (logits : list (list F))
    (classes : nat) (true_labels : list Z) :
  ∃ e,
    compute_accuracy logits classes true_labels "class_mean" = Raise e ∧
    (length logits = length true_labels → classes ≠ 0%nat →
     e = OtherException
           "TypeError: mean(): argument 'input' must be Tensor, not list").
Proof.
  unfold Accuracy.compute_accuracy, max_indices, torch_mean_of_list.
  destruct (Nat.eqb_spec (length logits) (length true_labels)) as [Hlen|Hlen];
    cbn [negb]; [|by eexists].
  cbn [String.eqb Ascii.eqb Bool.eqb].
  destruct (Nat.eqb_spec classes 0) as [->|Hc]; cbn [mbind result_bind];
    by eexists.
Qed.

(** X12: with [acc_metric='total_mean'], [compute_accuracy] returns
    exactly when the logits and the labels have the same, non-zero
    number of rows and there is a class to take the maximum over; the
    value is [100.0 * correct / n], where [correct] is the number of
    rows [i] whose [torch.max] index is the label of row [i]; so
    [correct <= n], and [correct = n] exactly when every row is
    right. *)
Theorem compute_accuracy_total_mean_counts (logits : list (list F))
    (classes : nat) (true_labels : list Z) :
  (length logits = length true_labels ∧ logits ≠ [] ∧ classes ≠ 0%nat ↔
   ∃ acc, compute_accuracy logits classes true_labels "total_mean" = Ok acc) ∧
  ∀ acc,
    compute_accuracy logits classes true_labels "total_mean" = Ok acc →
    let correct :=
      length (filter (λ i, (argmax <$> logits) !! i = true_labels !! i)
                (seq 0 (length logits))) in
    acc = fdiv (fmul (float_of_Z 100) (float_of_Z (Z.of_nat correct)))
               (float_of_Z (Z.of_nat (length logits))) ∧
    (correct ≤ length logits)%nat ∧
    (correct = length logits ↔ argmax <$> logits = true_labels).
Proof.
  unfold Accuracy.compute_accuracy, max_indices.
  destruct (Nat.eqb_spec (length logits) (length true_labels)) as [Hlen|Hlen];
    cbn [negb].
  2:{ split; [|done]. split; [by intros [? _]|by intros [acc [=]]]. }
  cbn [String.eqb Ascii.eqb Bool.eqb].
  destruct (Nat.eqb_spec classes 0) as [->|Hc]; cbn [mbind result_bind].
  { split; [|done]. split; [by intros (_ & _ & ?)|by intros [acc [=]]]. }
  destruct (Nat.eqb_spec (length logits) 0) as [Hn|Hn].
  { split; [|done]. split; [|by intros [acc [=]]].
    intros (_ & Hne & _). by destruct logits. }
  split.
  - split; [by eexists|]. intros _. split_and!; [done| |done].
    intros ->. done.
  - intros acc [= <-]. cbv zeta.
    assert (length (argmax <$> logits) = length true_labels) as Hlen'
      by (by rewrite length_fmap).
    pose proof (count_equal_positions (argmax <$> logits) true_labels Hlen')
      as Hcount.
    rewrite length_fmap in Hcount. rewrite <- Hcount.
    split; [done|].
    pose proof (count_equal_le (argmax <$> logits) true_labels) as Hle.
    rewrite length_fmap in Hle. split; [done|].
    rewrite <- (count_equal_all (argmax <$> logits) true_labels) by done.
    by rewrite length_fmap.
Qed.

End Accuracy.

End AccuracyFacts.

Module StepFacts.
Import Torch Train TrainViews.

(** Every tenth step, the first among them, is recorded. *)
Lemma recorded_steps (n : nat) :
  length (filter (λ i, Z.of_nat i `mod` step_interval = 0) (seq 0 n))
  = ((n + 9) / 10)%nat.
Proof.
  unfold step_interval. induction n as [|n IH]; [done|].
  rewrite seq_S, filter_app, length_app, IH.
  rewrite filter_cons, filter_nil. cbn [plus].
  apply Nat2Z.inj. rewrite Nat2Z.inj_add, !Nat2Z.inj_div.
  change (Z.of_nat 10) with 10.
  case_decide as Hmod; cbn [length]; zify; Z.div_mod_to_equations; lia.
Qed.

Section Step.
Context {F : Type} (fadd fdiv : F → F → F) (float_of_Z : Z → F).
Context (swinViT : tensor F → list (tensor F)).
Context (reconstruct : tensor F → tensor F).
Context (recons_loss : tensor F → tensor F → F).

Local Abbreviation train_step :=
  (Train.train_step fadd float_of_Z swinViT reconstruct recons_loss).
Local Abbreviation py_add := (Train.py_add fadd float_of_Z).

Lemma train_step_cases (b : batch F) (s : core F) :
  ∃ r s' evs,
    train_step b s = (r, s', evs) ∧
    train_losses s' = train_losses s ∧ epoch s' = epoch s ∧
    acc_dict s' = acc_dict s ∧
    contrastive_latentsize s' = contrastive_latentsize s ∧
    losses_dict s' !! "contrast_loss" = losses_dict s !! "contrast_loss" ∧
    Forall (λ e, step_call e = true) evs ∧
    match r with
    | Ok out =>
        ∃ latents4 x,
          swinViT (image b) !! 4%nat = Some latents4 ∧
          evs = [ZeroGrad; Reconstruct latents4;
                 NibSave "reconstructed_image.nii";
                 NibSave "original_image.nii";
                 Backward (PyTensor x); OptimizerStep] ∧
          out = (losses_dict s', 0) ∧
          is_Some (losses_dict s !! "contrast_loss") ∧
          losses_dict s'
          = <["total_loss" := PyTensor x]>
              (<["reconstruction_loss" :=
                   PyTensor (recons_loss (reconstruct latents4) (image b))]>
                 (<["classification_loss" := PyFloat (float_of_Z 0)]>
                    (losses_dict s)))
    | Raise e => OptimizerStep ∉ evs
    end.
Proof.
  unfold Train.train_step.
  repeat (progress unfold mbind, M_bind, mret, M_ret, emit, lift, get, set_loss,
    get_loss, modify, reconstruct_image, reconstruction_step, first_sample,
    backward, py_getitem, dict_get).
  cbn [epoch set_losses_dict losses_dict].
  destruct (swinViT (image b) !! 4%nat) as [latents4|] eqn:H4.
  2:{ eexists _, _, _. split; [done|]. split_and!; try done.
      - by repeat constructor.
      - set_solver. }
  destruct (split_latent latents4 (contrastive_latentsize s)) as [[nl bt]|e0].
  2:{ eexists _, _, _. split; [done|]. split_and!; try done.
      - by repeat constructor.
      - set_solver. }
  destruct (swinViT (image b) !! 0%nat) as [l0|].
  2:{ eexists _, _, _. split; [done|]. split_and!; try done.
      - by repeat constructor.
      - set_solver. }
  destruct (swinViT (image b) !! 1%nat) as [l1|].
  2:{ eexists _, _, _. split; [done|]. split_and!; try done.
      - by repeat constructor.
      - set_solver. }
  destruct (swinViT (image b) !! 2%nat) as [l2|].
  2:{ eexists _, _, _. split; [done|]. split_and!; try done.
      - by repeat constructor.
      - set_solver. }
  destruct (swinViT (image b) !! 3%nat) as [l3|].
  2:{ eexists _, _, _. split; [done|]. split_and!; try done.
      - by repeat constructor.
      - set_solver. }
  destruct (_ =? _)%nat.
  { eexists _, _, _. split; [done|]. cbn [train_losses set_losses_dict epoch acc_dict contrastive_latentsize losses_dict]. split_and!; try done.
      - by rewrite lookup_insert_ne.
      - by repeat constructor.
      - set_solver. }
  cbn [train_losses set_losses_dict epoch acc_dict contrastive_latentsize losses_dict].
  destruct (data (reconstruct latents4) !! 0%nat) as [r0|].
  2:{ eexists _, _, _. split; [done|]. cbn [train_losses set_losses_dict epoch acc_dict contrastive_latentsize losses_dict]. split_and!; try done.
      - by rewrite lookup_insert_ne.
      - by repeat constructor.
      - set_solver. }
  destruct (data (image b) !! 0%nat) as [i0|].
  2:{ eexists _, _, _. split; [done|]. cbn [train_losses set_losses_dict epoch acc_dict contrastive_latentsize losses_dict]. split_and!; try done.
      - by rewrite lookup_insert_ne.
      - by repeat constructor.
      - set_solver. }
  cbn [train_losses set_losses_dict epoch acc_dict contrastive_latentsize losses_dict].
  set (rl := recons_loss (reconstruct latents4) (image b)).
  destruct (0 <=? epoch s); cbv beta;
    cbn [train_losses set_losses_dict epoch acc_dict contrastive_latentsize losses_dict].
  - rewrite lookup_insert_ne, lookup_insert_eq by done.
    cbn [train_losses set_losses_dict epoch acc_dict contrastive_latentsize losses_dict].
    rewrite !lookup_insert_ne by done.
    destruct (losses_dict s !! "contrast_loss") as [c|] eqn:Hc.
    2:{ eexists _, _, _. split; [done|]. cbn [train_losses set_losses_dict epoch acc_dict contrastive_latentsize losses_dict]. split_and!; try done.
      - by rewrite !lookup_insert_ne.
      - by repeat constructor.
      - set_solver. }
    rewrite lookup_insert_eq.
    cbn [train_losses set_losses_dict epoch acc_dict contrastive_latentsize losses_dict].
    rewrite lookup_insert_eq.
    rewrite (TrainStepFacts.py_add_tensor fadd float_of_Z).
    eexists _, _, _. split; [done|]. cbn [train_losses set_losses_dict epoch acc_dict contrastive_latentsize losses_dict app]. split_and!; try done.
    + by rewrite !lookup_insert_ne.
    + by repeat constructor.
    + eexists _, _. split_and!; done.
  - rewrite !lookup_insert_ne by done.
    destruct (losses_dict s !! "contrast_loss") as [c|] eqn:Hc.
    2:{ eexists _, _, _. split; [done|]. cbn [train_losses set_losses_dict epoch acc_dict contrastive_latentsize losses_dict]. split_and!; try done.
      - by rewrite !lookup_insert_ne.
      - by repeat constructor.
      - set_solver. }
    cbn [train_losses set_losses_dict epoch acc_dict contrastive_latentsize losses_dict].
    rewrite lookup_insert_eq.
    destruct c as [z|x|x].
    + eexists _, _, _. split; [done|]. cbn [train_losses set_losses_dict epoch acc_dict contrastive_latentsize losses_dict app]. split_and!; try done.
      * by rewrite !lookup_insert_ne.
      * by repeat constructor.
      * set_solver.
    + eexists _, _, _. split; [done|]. cbn [train_losses set_losses_dict epoch acc_dict contrastive_latentsize losses_dict app]. split_and!; try done.
      * by rewrite !lookup_insert_ne.
      * by repeat constructor.
      * set_solver.
    + eexists _, _, _. split; [done|]. cbn [train_losses set_losses_dict epoch acc_dict contrastive_latentsize losses_dict app]. split_and!; try done.
      * by rewrite !lookup_insert_ne.
      * by repeat constructor.
      * eexists _, _. split_and!; done.
Qed.

(** *** [save_losses] *)

Lemma save_losses_run (train_loss c k r : pyval F) (s : core F) :
  losses_dict s !! "contrast_loss" = Some c →
  losses_dict s !! "classification_loss" = Some k →
  losses_dict s !! "reconstruction_loss" = Some r →
  save_losses train_loss s
  = (Ok tt, recorded s train_loss c k r,
     json_dumps (train_losses (recorded s train_loss c k r))).
Proof.
  intros Hc Hk Hr.
  unfold save_losses, get_loss, mbind, M_bind, modify, get, lift, emit,
    dict_get.
  cbn [losses_dict set_train_losses train_losses contrast_losses
         classification_losses reconstruction_losses total_losses].
  rewrite Hc.
  cbn [losses_dict set_train_losses train_losses contrast_losses
         classification_losses reconstruction_losses total_losses].
  rewrite Hk.
  cbn [losses_dict set_train_losses train_losses contrast_losses
         classification_losses reconstruction_losses total_losses].
  rewrite Hr.
  reflexivity.
Qed.

Local Abbreviation train_epoch_loop :=
  (Train.train_epoch_loop fadd fdiv float_of_Z swinViT reconstruct recons_loss).

(** One round of the loop of [train_epoch]. *)
Lemma train_epoch_loop_cons (step : nat) (running : pyval F) (b : batch F)
    (batches : list (batch F)) (s : core F) :
  match train_step b s with
  | (Raise e, s1, evs1) =>
      train_epoch_loop step running (b :: batches) s
      = (Raise e, s1, IterateBatch step :: evs1)
  | (Ok out, s1, evs1) =>
      ∃ x c rl,
        losses_dict s !! "contrast_loss" = Some c ∧
        let running' := py_add running (PyFloat x) in
        let avg :=
          fdiv (to_float float_of_Z running')
               (float_of_Z (Z.of_nat step + 1)) in
        let s2 :=
          if Z.of_nat step `mod` step_interval =? 0
          then recorded s1 (PyFloat avg) c (PyFloat (float_of_Z 0))
                 (PyTensor rl)
          else s1 in
        train_epoch_loop step running (b :: batches) s
        = let '(r, s3, evs3) :=
            train_epoch_loop (S step) running' batches s2 in
          (r, s3,
           IterateBatch step
             :: evs1
             ++ SetDescription (step + 1) avg
             :: (if Z.of_nat step `mod` step_interval =? 0
                 then json_dumps (train_losses s2) else [])
             ++ evs3)
  end.
Proof.
  destruct (train_step_cases b s)
    as (r & s1 & evs1 & Hstep & Hl & He & Ha & Hk & Hc & Hev & Hr).
  rewrite Hstep. cbn [Train.train_epoch_loop].
  repeat (progress unfold mbind, M_bind, lift, emit, dict_get, item, mret, M_ret).
  rewrite Hstep.
  destruct r as [out|e]; [|done].
  destruct Hr as (latents4 & x & H4 & -> & -> & [c Hc'] & Hd).
  exists x, c, (recons_loss (reconstruct latents4) (image b)).
  split; [done|]. cbv zeta.
  assert (losses_dict s1 !! "total_loss" = Some (PyTensor x)) as Ht
    by (by rewrite Hd, lookup_insert_eq).
  assert (losses_dict s1 !! "classification_loss"
          = Some (PyFloat (float_of_Z 0))) as Hcl.
  { rewrite Hd, !lookup_insert_ne by done. by rewrite lookup_insert_eq. }
  assert (losses_dict s1 !! "reconstruction_loss"
          = Some (PyTensor (recons_loss (reconstruct latents4) (image b))))
    as Hrl.
  { rewrite Hd, lookup_insert_ne by done. by rewrite lookup_insert_eq. }
  rewrite Hc' in Hc.
  cbn [fst].
  rewrite Ht, Hc, Hcl.
  destruct (Z.of_nat step `mod` step_interval =? 0).
  - rewrite (save_losses_run _ _ _ _ _ Hc Hcl Hrl).
    destruct (train_epoch_loop _ _ _ _) as [[r s3] evs3].
    cbn [app]. done.
  - destruct (train_epoch_loop _ _ _ _) as [[r s3] evs3].
    cbn [app]. done.
Qed.


Lemma step_call_not_closing (evs : list (event F)) :
  Forall (λ e, step_call e = true) evs →
  Forall (λ e, closing_call e = false) evs.
Proof. intros H. eapply Forall_impl; [exact H|]. by intros []. Qed.

Lemma optimizer_view_app (evs1 evs2 : list (event F)) :
  optimizer_view (evs1 ++ evs2) = optimizer_view evs1 ++ optimizer_view evs2.
Proof. apply filter_app. Qed.

(** What the loop of [train_epoch] does to [self] and which calls it
    makes, for every outcome; and, when it returns, how many losses it
    has recorded and the calls on the optimizer. *)
Lemma train_epoch_loop_spec (batches : list (batch F)) :
  ∀ (step : nat) (running : pyval F) (s : core F),
    ∃ r s' evs cs ks rs ts,
      train_epoch_loop step running batches s = (r, s', evs) ∧
      losses_dict s' !! "contrast_loss" = losses_dict s !! "contrast_loss" ∧
      train_losses s'
      = {| contrast_losses := contrast_losses (train_losses s) ++ cs;
           classification_losses :=
             classification_losses (train_losses s) ++ ks;
           reconstruction_losses :=
             reconstruction_losses (train_losses s) ++ rs;
           total_losses := total_losses (train_losses s) ++ ts |} ∧
      (length cs = length ts ∧ length ks = length ts ∧
       length rs = length ts) ∧
      Forall (λ v, losses_dict s !! "contrast_loss" = Some v) cs ∧
      Forall (λ v, v = PyFloat (float_of_Z 0)) ks ∧
      Forall (λ v, is_tensor v = true) rs ∧
      Forall (λ v, is_tensor v = false) ts ∧
      Forall (λ e, closing_call e = false) evs ∧
      (r = Ok tt →
       length ts
       = length (filter (λ i, Z.of_nat i `mod` step_interval = 0)
                   (seq step (length batches))) ∧
       ∃ losses : list F,
         length losses = length batches ∧
         optimizer_view evs
         = losses ≫= λ x, [ZeroGrad; Backward (PyTensor x); OptimizerStep]).
Proof.
  induction batches as [|b batches IH]; intros step running s.
  { exists (Ok tt), s, [], [], [], [], []. rewrite !app_nil_r.
    split_and!; try done; [by destruct s as [? ? ? ? []]|].
    intros _. split; [done|]. by exists []. }
  destruct (train_step_cases b s)
    as (r1 & s1 & evs1 & Hstep & Hl1 & He1 & Ha1 & Hk1 & Hc1 & Hev1 & Hr1).
  pose proof (train_epoch_loop_cons step running b batches s) as Hcons.
  rewrite Hstep in Hcons. destruct r1 as [out|e].
  2:{ exists (Raise e), s1, (IterateBatch step :: evs1), [], [], [], [].
      rewrite !app_nil_r, Hl1.
      split_and!; try done; [by destruct (train_losses s)|].
      constructor; [done|]. by apply step_call_not_closing. }
  destruct Hcons as (x & c & rl & Hc & Hcons). cbv zeta in Hcons.
  destruct Hr1 as (latents4 & x' & _ & Hevs1 & _ & _ & _).
  set (running' := py_add running (PyFloat x)) in *.
  set (avg := fdiv (to_float float_of_Z running')
                (float_of_Z (Z.of_nat step + 1))) in *.
  cbn [length seq]. rewrite filter_cons.
  destruct (Z.eqb_spec (Z.of_nat step `mod` step_interval) 0) as [Hmod|Hmod].
  - set (s2 := recorded s1 (PyFloat avg) c (PyFloat (float_of_Z 0))
                 (PyTensor rl)) in *.
    destruct (IH (S step) running' s2)
      as (r & s3 & evs3 & cs & ks & rs & ts & Hrun & Hc3 & Hl3 & (Hlc & Hlk & Hlr) & Hcs
          & Hks & Hrs & Hts & Hev3 & Hok).
    rewrite Hrun in Hcons.
    eexists r, s3, _, (c :: cs), (PyFloat (float_of_Z 0) :: ks),
      (PyTensor rl :: rs), (PyFloat avg :: ts).
    split; [exact Hcons|].
    assert (losses_dict s2 !! "contrast_loss" = Some c) as Hc2.
    { subst s2. cbn. by rewrite Hc1. }
    split_and!; try done.
    + by rewrite Hc3, Hc2.
    + rewrite Hl3. subst s2. cbn. rewrite Hl1.
      by rewrite <- !(assoc_L (++)).
    + cbn [length]. lia.
    + cbn [length]. lia.
    + cbn [length]. lia.
    + constructor; [done|]. eapply Forall_impl; [exact Hcs|].
      intros v. by rewrite Hc2, Hc.
    + by constructor.
    + by constructor.
    + by constructor.
    + constructor; [done|]. apply Forall_app. split.
      { by apply step_call_not_closing. }
      constructor; [done|]. apply Forall_app. split; [|done].
      by repeat constructor.
    + intros ->. destruct (Hok eq_refl) as (Hcount & losses & Hll & Hview).
      rewrite decide_True by done. cbn [length]. split; [by rewrite Hcount|].
      exists (x' :: losses). split; [cbn; by rewrite Hll|].
      rewrite Hevs1. cbn [app].
      change (IterateBatch step :: ?l) with ([IterateBatch step] ++ l).
      rewrite bind_cons, <- Hview.
      by rewrite !optimizer_view_app.
  - destruct (IH (S step) running' s1)
      as (r & s3 & evs3 & cs & ks & rs & ts & Hrun & Hc3 & Hl3 & (Hlc & Hlk & Hlr) & Hcs
          & Hks & Hrs & Hts & Hev3 & Hok).
    rewrite Hrun in Hcons.
    eexists r, s3, _, cs, ks, rs, ts.
    split; [exact Hcons|].
    split_and!; try done.
    + by rewrite Hc3.
    + by rewrite Hl3, Hl1.
    + eapply Forall_impl; [exact Hcs|]. intros v. by rewrite Hc1.
    + constructor; [done|]. apply Forall_app. split.
      { by apply step_call_not_closing. }
      constructor; [done|]. done.
    + intros ->. destruct (Hok eq_refl) as (Hcount & losses & Hll & Hview).
      rewrite decide_False by done. split; [done|].
      exists (x' :: losses). split; [cbn; by rewrite Hll|].
      rewrite Hevs1. cbn [app].
      change (IterateBatch step :: ?l) with ([IterateBatch step] ++ l).
      rewrite bind_cons, <- Hview.
      by rewrite !optimizer_view_app.
Qed.


Local Abbreviation train_epoch :=
  (Train.train_epoch fadd fdiv float_of_Z swinViT reconstruct recons_loss).

Lemma train_epoch_unfold (batches : list (batch F)) (s : core F) :
  train_epoch batches s
  = match train_epoch_loop 0 (PyInt 0) batches s with
    | (Ok _, s', evs) =>
        (Ok tt, set_epoch s' (epoch s' + 1), evs ++ [ProgressUpdate])
    | (Raise e, s', evs) => (Raise e, s', evs)
    end.
Proof.
  unfold Train.train_epoch, mbind, M_bind, emit, modify.
  by destruct (train_epoch_loop 0 (PyInt 0) batches s) as [[[[]|e] s'] evs].
Qed.

(** *** Properties of one epoch *)

(** X13: [save_losses] is not atomic: when [losses_dict] has no
    ['classification_loss'] (as right after [__init__]), it raises
    [KeyError] after it has appended to [total_losses] and
    [contrast_losses], leaves the four lists with different lengths and
    writes no file. *)
Theorem save_losses_not_atomic (train_loss c : pyval F) (s : core F) :
  losses_dict s !! "contrast_loss" = Some c →
  losses_dict s !! "classification_loss" = None →
  ∃ s',
    save_losses train_loss s = (Raise (KeyError "classification_loss"), s', []) ∧
    train_losses s'
    = {| contrast_losses := contrast_losses (train_losses s) ++ [c];
         classification_losses := classification_losses (train_losses s);
         reconstruction_losses := reconstruction_losses (train_losses s);
         total_losses := total_losses (train_losses s) ++ [train_loss] |} ∧
    (balanced (train_losses s) → ¬ balanced (train_losses s')).
Proof.
  intros Hc Hk.
  unfold save_losses, get_loss, mbind, M_bind, modify, get, lift, emit,
    dict_get.
  cbn [losses_dict set_train_losses train_losses contrast_losses
         classification_losses reconstruction_losses total_losses].
  rewrite Hc.
  cbn [losses_dict set_train_losses train_losses contrast_losses
         classification_losses reconstruction_losses total_losses].
  rewrite Hk. eexists. split; [reflexivity|].
  cbn [losses_dict set_train_losses train_losses contrast_losses
         classification_losses reconstruction_losses total_losses app].
  split; [done|].
  intros (H1 & H2 & H3) (H1' & H2' & H3').
  cbn [contrast_losses classification_losses reconstruction_losses
         total_losses] in *.
  rewrite length_app in H2'. cbn in H2'. lia.
Qed.

(** X14: whatever its outcome, [train_epoch] keeps the four lists of
    [train_losses] at one length: the keys [save_losses] needs are set
    by the step before it. *)
Theorem train_epoch_keeps_balanced (batches : list (batch F)) (s : core F) :
  balanced (train_losses s) →
  balanced (train_losses (train_epoch batches s).1.2).
Proof.
  intros (H1 & H2 & H3). rewrite train_epoch_unfold.
  destruct (train_epoch_loop_spec batches 0 (PyInt 0) s)
    as (r & s' & evs & cs & ks & rs & ts & -> & _ & Hl & (Hc & Hk & Hr) & _).
  assert (balanced (train_losses s')) as Hb.
  { rewrite Hl. unfold balanced. cbn. rewrite !length_app. lia. }
  by destruct r as [[]|e].
Qed.


(** X16: in an epoch that returns, the optimizer sees, for every batch
    in turn, [zero_grad()], then [backward()] on a tensor, then
    [step()], and nothing else. *)
Theorem train_epoch_optimizer_protocol (batches : list (batch F))
    (s : core F) :
  (train_epoch batches s).1.1 = Ok tt →
  ∃ losses : list F,
    length losses = length batches ∧
    optimizer_view (train_epoch batches s).2
    = losses ≫= λ x, [ZeroGrad; Backward (PyTensor x); OptimizerStep].
Proof.
  rewrite train_epoch_unfold.
  destruct (train_epoch_loop_spec batches 0 (PyInt 0) s)
    as (r & s1 & evs1 & cs & ks & rs & ts & -> & _ & _ & _ & _ & _ & _ & _
        & _ & Hok).
  destruct r as [[]|e]; [|done]. intros _. cbn [fst snd].
  destruct (Hok eq_refl) as (_ & losses & Hlen & Hview).
  exists losses. split; [done|].
  by rewrite optimizer_view_app, Hview, app_nil_r.
Qed.

(** X21: when [contrastive_latentsize] is negative or larger than the
    number of channels of [latents[4]], [train_step] raises the
    [RuntimeError] of [torch.split] right after [zero_grad()]: no loss
    is written, nothing is reconstructed or saved, and the optimizer
    makes no step. *)
Theorem train_step_bad_latentsize (b : batch F) (s : core F)
    (latents4 : tensor F) :
  swinViT (image b) !! 4%nat = Some latents4 →
  ¬ (0 ≤ contrastive_latentsize s ≤ Z.of_nat (size1 latents4)) →
  ∃ msg, train_step b s = (Raise (RuntimeError msg), s, [ZeroGrad]).
Proof.
  intros H4 Hk. unfold Train.train_step.
  repeat (progress unfold mbind, M_bind, mret, M_ret, emit, lift, get,
    py_getitem).
  rewrite H4. unfold split_latent, split_dim1.
  destruct (Z.ltb_spec (contrastive_latentsize s) 0) as [Hneg|Hpos];
    [by eexists|].
  destruct (Z.ltb_spec (Z.of_nat (size1 latents4) - contrastive_latentsize s) 0);
    [by eexists|lia].
Qed.

End Step.
End StepFacts.

(** ** Whole runs of [train] *)

Module TrainRunFacts.
Import Torch Train TrainViews TraceFacts TrainLoopFacts StepFacts.

Section Run.
Context {F : Type} (fadd fdiv : F → F → F) (float_of_Z : Z → F).
Context (swinViT : tensor F → list (tensor F)).
Context (reconstruct : tensor F → tensor F).
Context (recons_loss : tensor F → tensor F → F).
Context (train_loader : Z → list (batch F)).
Context (plot_path : string → Z → string).
Context (reconstruction_path : string → string).

Local Abbreviation train_epoch :=
  (Train.train_epoch fadd fdiv float_of_Z swinViT reconstruct recons_loss).
Local Abbreviation train_epoch_loop :=
  (Train.train_epoch_loop fadd fdiv float_of_Z swinViT reconstruct recons_loss).
Local Abbreviation train_round :=
  (Train.train_round fadd fdiv float_of_Z swinViT reconstruct recons_loss
     train_loader).
Local Abbreviation train_loop :=
  (Train.train_loop fadd fdiv float_of_Z swinViT reconstruct recons_loss
     train_loader).
Local Abbreviation train :=
  (Train.train fadd fdiv float_of_Z swinViT reconstruct recons_loss
     train_loader).

Implicit Types (plot_outcome : Z → option exn) (st : self F).

(** What an epoch does, for every outcome. *)
Lemma train_epoch_any (batches : list (batch F)) (s : core F) :
  ∃ r s' evs ks,
    train_epoch batches s = (r, s', evs) ∧
    classification_losses (train_losses s')
    = classification_losses (train_losses s) ++ ks ∧
    Forall (λ v, is_tensor v = false) ks ∧
    Forall (λ e, closing_call e = false) evs ∧
    Forall (λ e, plot_related e = false) evs ∧
    (r = Ok tt → epoch s' = epoch s + 1 ∧ (batches ≠ [] → ks ≠ [])) ∧
    (∀ e, r = Raise e → epoch s' = epoch s).
Proof.
  pose proof (train_epoch_plot_free fadd fdiv float_of_Z swinViT reconstruct
                recons_loss batches s) as Hfree.
  destruct (train_epoch batches s) as [[r s'] evs] eqn:Hrun.
  cbn [snd] in Hfree.
  rewrite (train_epoch_unfold fadd fdiv float_of_Z swinViT reconstruct recons_loss) in Hrun.
  destruct (train_epoch_loop_spec fadd fdiv float_of_Z swinViT reconstruct
              recons_loss batches 0 (PyInt 0) s)
    as (r1 & s1 & evs1 & cs & ks & rs & ts & Hloop & _ & Hl & (_ & Hk & _)
        & _ & Hks & _ & _ & Hev & Hok).
  pose proof (traces_train_epoch_loop fadd fdiv float_of_Z swinViT reconstruct
                recons_loss batches 0 (PyInt 0) s) as Htr.
  rewrite Hloop in Hrun, Htr. destruct Htr as (He & _).
  exists r, s', evs, ks.
  assert (Forall (λ v : pyval F, is_tensor v = false) ks) as Hks'.
  { eapply Forall_impl; [exact Hks|]. by intros v ->. }
  destruct r1 as [[]|e]; injection Hrun as <- <- <-.
  - split_and!; try done.
    + cbn. by rewrite Hl.
    + apply Forall_app. split; [done|]. by repeat constructor.
    + intros _. cbn. split; [lia|]. intros Hne Hnil.
      destruct (Hok eq_refl) as [Hcount _].
      rewrite recorded_steps in Hcount.
      subst ks. cbn in Hk. rewrite <- Hk in Hcount.
      destruct batches as [|b batches]; [done|].
      cbn [length] in Hcount. symmetry in Hcount.
      apply Nat.div_small_iff in Hcount; lia.
  - split_and!; try done; first [by rewrite Hl | by intros e' [= ->]].
Qed.

(** What one round of the loop does, for every outcome. *)
Lemma train_round_any plot_outcome st :
  ∃ r st' evs ks,
    train_round plot_outcome plot_path st = (r, st', evs) ∧
    num_epoch st' = num_epoch st ∧ save_name st' = save_name st ∧
    classification_losses (train_losses (inner st'))
    = classification_losses (train_losses (inner st)) ++ ks ∧
    Forall (λ v, is_tensor v = false) ks ∧
    Forall (λ e, closing_call e = false) evs ∧
    epoch (inner st) ≤ epoch (inner st') ≤ epoch (inner st) + 1 ∧
    (r = Ok tt →
     epoch (inner st') = epoch (inner st) + 1 ∧
     (train_loader (epoch (inner st)) ≠ [] → ks ≠ []) ∧
     plots_attempted evs
     = (if epoch (inner st') `mod` 5 =? 0 then [epoch (inner st')] else []) ∧
     tsne_plots st'
     = tsne_plots st
         ++ omap (λ ep, match plot_outcome ep with
                        | None => Some (plot_path (save_name st) ep)
                        | Some _ => None
                        end) (plots_attempted evs)).
Proof.
  rewrite train_round_unfold.
  destruct (train_epoch_any (train_loader (epoch (inner st))) (inner st))
    as (r0 & c & evs0 & ks & -> & Hk & Hks & Hcl & Hpf & Hok & Hraise).
  apply plot_free in Hpf as [Hpa _].
  destruct r0 as [[]|e].
  2:{ eexists _, _, _, ks. split; [done|]. cbn [inner set_inner num_epoch save_name].
      rewrite (Hraise e eq_refl). split_and!; try done; lia. }
  destruct (Hok eq_refl) as [He Hne].
  assert (∀ tail : list (event F),
            Forall (λ e, closing_call e = false) tail →
            Forall (λ e, closing_call e = false) (evs0 ++ tail)) as Hcl'.
  { intros tail Htail. apply Forall_app. by split. }
  assert (∀ tail : list (event F),
            plots_attempted (evs0 ++ tail) = plots_attempted tail) as Hpa'.
  { intros tail. unfold plots_attempted in *. by rewrite omap_app, Hpa. }
  destruct (epoch c `mod` 5 =? 0) eqn:Hmod.
  - destruct (plot_outcome (epoch c)) as [e|] eqn:Hplot;
      [destruct (is_Exception e)|].
    + eexists _, _, _, ks. split; [done|].
      cbn [inner set_inner num_epoch save_name tsne_plots set_tsne_plots].
      rewrite Hmod, Hpa'. cbn. rewrite Hplot, app_nil_r.
      split_and!; try done; try lia. apply Hcl'. by repeat constructor.
    + eexists _, _, _, ks. split; [done|].
      cbn [inner set_inner num_epoch save_name tsne_plots set_tsne_plots].
      split_and!; try done; try lia. apply Hcl'. by repeat constructor.
    + eexists _, _, _, ks. split; [done|].
      cbn [inner set_inner num_epoch save_name tsne_plots set_tsne_plots].
      rewrite Hmod, Hpa'. cbn. rewrite Hplot.
      split_and!; try done; try lia. apply Hcl'. by repeat constructor.
  - eexists _, _, _, ks. split; [done|].
    cbn [inner set_inner num_epoch save_name tsne_plots set_tsne_plots].
    rewrite Hmod, Hpa'. cbn. rewrite app_nil_r.
    split_and!; try done; try lia. apply Hcl'. by repeat constructor.
Qed.

(** What the loop does, for every outcome. *)
Lemma train_loop_any plot_outcome (fuel : nat) :
  ∀ st (r : result unit) st' (evs : list (event F)),
    train_loop plot_outcome plot_path fuel st = Some (r, st', evs) →
    num_epoch st' = num_epoch st ∧ save_name st' = save_name st ∧
    Forall (λ e, closing_call e = false) evs ∧
    (∃ ks,
       classification_losses (train_losses (inner st'))
       = classification_losses (train_losses (inner st)) ++ ks ∧
       Forall (λ v, is_tensor v = false) ks ∧
       (r = Ok tt →
        ∀ ep, epoch (inner st) ≤ ep < num_epoch st →
              train_loader ep ≠ [] → ks ≠ [])) ∧
    (r = Ok tt →
     epoch (inner st') = Z.max (epoch (inner st)) (num_epoch st) ∧
     plots_attempted evs
     = filter (λ ep, ep `mod` 5 = 0)
         (seqZ (epoch (inner st) + 1) (num_epoch st - epoch (inner st))) ∧
     tsne_plots st'
     = tsne_plots st
         ++ omap (λ ep, match plot_outcome ep with
                        | None => Some (plot_path (save_name st) ep)
                        | Some _ => None
                        end) (plots_attempted evs)) ∧
    (∀ e, r = Raise e →
          epoch (inner st) ≤ epoch (inner st') ≤ num_epoch st).
Proof.
  assert (∀ st : self F,
            ¬ epoch (inner st) < num_epoch st →
            seqZ (epoch (inner st) + 1) (num_epoch st - epoch (inner st)) = [])
    as Hnil.
  { intros st Hge. apply seqZ_nil. lia. }
  induction fuel as [|fuel IH]; intros st r st' evs; cbn [Train.train_loop].
  { destruct (Z.ltb_spec (epoch (inner st)) (num_epoch st)) as [Hlt|Hge];
      [done|].
    intros [= <- <- <-]. rewrite Hnil by lia.
    split_and!; try done.
    - exists []. rewrite app_nil_r. split_and!; [done|done|].
      intros _ ep Hep. lia.
    - intros _. rewrite filter_nil. cbn. rewrite app_nil_r.
      split_and!; [lia|done..]. }
  destruct (Z.ltb_spec (epoch (inner st)) (num_epoch st)) as [Hlt|Hge].
  2:{ intros [= <- <- <-]. rewrite Hnil by lia.
      split_and!; try done.
      - exists []. rewrite app_nil_r. split_and!; [done|done|].
      intros _ ep Hep. lia.
      - intros _. rewrite filter_nil. cbn. rewrite app_nil_r.
        split_and!; [lia|done..]. }
  destruct (train_round_any plot_outcome st)
    as (r1 & st1 & evs1 & ks1 & -> & Hn1 & Hs1 & Hk1 & Hks1 & Hcl1 & He1 & Hok1).
  destruct r1 as [[]|e].
  2:{ intros [= <- <- <-]. split_and!; try done.
      - exists ks1. by split_and!.
      - intros e' _. lia. }
  destruct (Hok1 eq_refl) as (He1' & Hne1 & Hpa1 & Hts1).
  destruct (train_loop plot_outcome plot_path fuel st1)
    as [[[r2 st2] evs2]|] eqn:Hloop; [|done].
  intros [= <- <- <-].
  destruct (IH _ _ _ _ Hloop)
    as (Hn2 & Hs2 & Hcl2 & (ks2 & Hk2 & Hks2 & Hne2) & Hok2 & Hraise2).
  split_and!.
  - congruence.
  - congruence.
  - apply Forall_app. by split.
  - exists (ks1 ++ ks2). split_and!.
    + by rewrite Hk2, Hk1, (assoc_L (++)).
    + apply Forall_app. by split.
    + intros -> ep Hep Hload.
      destruct (decide (ep = epoch (inner st))) as [->|Hother].
      * specialize (Hne1 Hload). by destruct ks1.
      * specialize (Hne2 eq_refl ep ltac:(lia) Hload).
        by destruct ks1, ks2.
  - intros ->. destruct (Hok2 eq_refl) as (He2 & Hpa2 & Hts2).
    split_and!.
    + lia.
    + unfold plots_attempted in *. rewrite omap_app, Hpa1, Hpa2.
      rewrite (seqZ_cons (epoch (inner st) + 1)) by lia.
      rewrite filter_cons, He1', Hn1.
      replace (Z.succ (epoch (inner st) + 1)) with (epoch (inner st) + 1 + 1)
        by lia.
      replace (Z.pred (num_epoch st - epoch (inner st)))
        with (num_epoch st - (epoch (inner st) + 1)) by lia.
      destruct (Z.eqb_spec ((epoch (inner st) + 1) `mod` 5) 0).
      * by rewrite decide_True.
      * by rewrite decide_False.
    + rewrite Hts2, Hts1, Hs1. unfold plots_attempted.
      by rewrite !omap_app, (assoc_L (++)).
  - intros e Hr. specialize (Hraise2 e Hr). lia.
Qed.

Lemma detach_all_cases (l : list (pyval F)) :
  (∃ xs, detach_all l = Ok xs ∧ Forall (λ v, is_tensor v = true) l) ∨
  (∃ msg, detach_all l = Raise (AttributeError msg)).
Proof.
  induction l as [|v l IH]; [left; by eexists|].
  cbn [detach_all]. destruct v as [z|x|x]; cbn; [right; by eexists..|].
  destruct IH as [(xs & -> & Hall)|[msg ->]]; cbn.
  - left. eexists. split; [done|]. by constructor.
  - right. by eexists.
Qed.

(** [plot_losses] on lists that hold a Python number. *)
Lemma plot_losses_AttributeError (c : core F) (v : pyval F) :
  v ∈ classification_losses (train_losses c) → is_tensor v = false →
  ∃ msg, plot_losses c = (Raise (AttributeError msg), c, []).
Proof.
  intros Hin Hv.
  unfold plot_losses, mbind, M_bind, get, lift, emit.
  destruct (detach_all_cases (contrast_losses (train_losses c)))
    as [(xs & -> & _)|[msg ->]]; [|by eexists].
  destruct (detach_all_cases (classification_losses (train_losses c)))
    as [(ys & _ & Hall)|[msg ->]]; [|by eexists].
  eapply Forall_forall in Hall; [|exact Hin]. congruence.
Qed.

(** X17: a run whose loop completes after at least one training step
    and with at least one latent-space plot made does not get to the
    final [return].  After the loop come, in this order and each once,
    the shutdown of the train dataset, the shutdown of the test
    dataset, the message, the saving of the model and of the
    reconstruction model, and the GIF of the plots made; then
    [plot_losses] raises [AttributeError], for the classification
    losses recorded are the Python float [0.0], which has no [detach],
    and no loss plot is made.  (With no plot made, [create_gif] would
    have no image to write; such runs are not covered.) *)
Theorem train_fails_in_plot_losses plot_outcome (fuel : nat) st st'
    (loop_evs : list (event F)) (ep : Z) :
  train_loop plot_outcome plot_path fuel st = Some (Ok tt, st', loop_evs) →
  epoch (inner st) ≤ ep < num_epoch st →
  train_loader ep ≠ [] →
  tsne_plots st' ≠ [] →
  ∃ msg st'' plots before,
    train plot_outcome plot_path reconstruction_path fuel st
    = Some (Raise (AttributeError msg), st'',
            before
              ++ [DatasetShutdown; TestDatasetShutdown;
                  ProgressWrite "Finish training";
                  SaveModel (save_name st);
                  SaveReconstructionModel
                    (reconstruction_path (save_name st));
                  CreateGif plots]) ∧
    plots ≠ [] ∧ tsne_plots st'' = plots ∧
    DatasetStart ∈ before ∧
    Forall (λ e, closing_call e = false) before.
Proof.
  intros Hloop Hep Hload Hplots. unfold Train.train. rewrite Hloop.
  destruct (train_loop_any _ _ _ _ _ _ Hloop)
    as (_ & Hname & Hcl & (ks & Hk & Hks & Hne) & _).
  specialize (Hne eq_refl ep Hep Hload).
  destruct ks as [|v ks]; [done|]. apply Forall_cons in Hks as [Hv _].
  destruct (plot_losses_AttributeError (inner st') v) as [msg Hplot];
    [rewrite Hk; set_solver|done|].
  rewrite train_finish_unfold, Hplot, Hname.
  exists msg, (set_inner st' (inner st')), (tsne_plots st'),
    (train_start ++ loop_evs).
  split_and!.
  - by rewrite app_nil_r, <- (assoc_L (++)).
  - done.
  - by destruct st'.
  - set_solver.
  - apply Forall_app. split; [by repeat constructor|done].
Qed.

(** X18: with enough rounds granted, the loop of [train] ends.  When it
    returns, the epoch counter is [num_epoch], or where it was if that
    was already past [num_epoch]; when it raises, the counter has not
    passed [num_epoch]; [num_epoch] and [save_name] are never
    changed. *)
Theorem train_loop_runs_to_num_epoch plot_outcome (fuel : nat) st :
  (Z.to_nat (num_epoch st - epoch (inner st)) ≤ fuel)%nat →
  ∃ r st' evs,
    train_loop plot_outcome plot_path fuel st = Some (r, st', evs) ∧
    num_epoch st' = num_epoch st ∧ save_name st' = save_name st ∧
    (r = Ok tt →
     epoch (inner st') = Z.max (epoch (inner st)) (num_epoch st)) ∧
    (∀ e, r = Raise e →
          epoch (inner st) ≤ epoch (inner st') ≤ num_epoch st).
Proof.
  intros Hfuel.
  destruct (train_loop_terminates fadd fdiv float_of_Z swinViT reconstruct
              recons_loss train_loader plot_path plot_outcome fuel st Hfuel)
    as [[[r st'] evs] Hloop].
  exists r, st', evs. split; [done|].
  destruct (train_loop_any _ _ _ _ _ _ Hloop)
    as (Hn & Hname & _ & _ & Hok & Hraise).
  split_and!; [done|done| |done].
  intros Hr. by destruct (Hok Hr).
Qed.

(** X19: in a loop that completes, a latent-space plot is attempted
    after exactly those epochs at whose end the epoch counter is a
    multiple of 5, in order, and
    [tsne_plots] gains the paths of the plots that did not fail. *)
Theorem train_plots_every_fifth_epoch plot_outcome (fuel : nat) st :
  (Z.to_nat (num_epoch st - epoch (inner st)) ≤ fuel)%nat →
  ∃ r st' evs,
    train_loop plot_outcome plot_path fuel st = Some (r, st', evs) ∧
    (r = Ok tt →
     plots_attempted evs
     = filter (λ ep, ep `mod` 5 = 0)
         (seqZ (epoch (inner st) + 1) (num_epoch st - epoch (inner st))) ∧
     tsne_plots st'
     = tsne_plots st
         ++ omap (λ ep, match plot_outcome ep with
                        | None => Some (plot_path (save_name st) ep)
                        | Some _ => None
                        end) (plots_attempted evs)).
Proof.
  intros Hfuel.
  destruct (train_loop_terminates fadd fdiv float_of_Z swinViT reconstruct
              recons_loss train_loader plot_path plot_outcome fuel st Hfuel)
    as [[[r st'] evs] Hloop].
  exists r, st', evs. split; [done|]. intros Hr.
  destruct (train_loop_any _ _ _ _ _ _ Hloop) as (_ & _ & _ & _ & Hok & _).
  by destruct (Hok Hr) as (_ & ? & ?).
Qed.

(** X20: when a round of the loop raises, [train] ends with that
    exception at once: neither dataset is shut down, no model is saved,
    no GIF and no loss plot is made. *)
Theorem train_failure_skips_shutdown plot_outcome (fuel : nat) st st'
    (e : exn) (loop_evs : list (event F)) :
  train_loop plot_outcome plot_path fuel st = Some (Raise e, st', loop_evs) →
  ∃ st'' evs,
    train plot_outcome plot_path reconstruction_path fuel st
    = Some (Raise e, st'', evs) ∧
    Forall (λ ev, closing_call ev = false) evs ∧
    DatasetStart ∈ evs ∧ DatasetShutdown ∉ evs.
Proof.
  intros Hloop. unfold Train.train. rewrite Hloop.
  destruct (train_loop_any _ _ _ _ _ _ Hloop) as (_ & _ & Hcl & _).
  eexists _, _. split; [reflexivity|].
  assert (Forall (λ ev : event F, closing_call ev = false)
            (train_start ++ loop_evs)) as Hall.
  { apply Forall_app. split; [by repeat constructor|done]. }
  split_and!; [done|set_solver|].
  intros Hin. eapply Forall_forall in Hall; [|exact Hin]. done.
Qed.

End Run.

End TrainRunFacts.

(** ** More on [contrastive_step] *)

Module ContrastiveMoreFacts.
Import Torch Train ContrastiveFacts.

Section Cover.
Context {F : Type}.

Lemma rows_voxels (t : tensor F) (ids : list Z) (j : nat) (todo : list Z) :
  (labelled_rows t ids j todo).*2
  = (todo ≫= positions_of ids)
      ≫= λ i, voxel_row (default [] (data t !! i))
                <$> seq 0 (numel_spatial t).
Proof.
  revert j. induction todo as [|id todo IH]; intros j; [done|].
  cbn [labelled_rows]. rewrite fmap_app, IH, bind_cons, bind_app. f_equal.
  unfold labelled_block.
  induction (positions_of ids id) as [|i pos IHpos]; [done|].
  rewrite !bind_cons, fmap_app, IHpos. f_equal.
  by rewrite <- list_fmap_compose.
Qed.

Lemma bind_by_position {A B : Type} (g : A → list B) (a0 : A) (d : list A) :
  ∀ pre : list A,
    d ≫= g
    = seq (length pre) (length d) ≫= λ i, g (default a0 ((pre ++ d) !! i)).
Proof.
  induction d as [|a d IH]; intros pre; [done|].
  cbn [length seq]. rewrite !bind_cons.
  rewrite list_lookup_middle by done. cbn [default from_option]. f_equal.
  specialize (IH (pre ++ [a])).
  rewrite <- (assoc_L (++)), length_app, Nat.add_1_r in IH. exact IH.
Qed.

Lemma permute_by_position (t : tensor F) :
  permute_02341 t
  = seq 0 (length (data t))
      ≫= λ i, voxel_row (default [] (data t !! i))
                <$> seq 0 (numel_spatial t).
Proof.
  unfold permute_02341.
  exact (bind_by_position
           (λ sample, voxel_row sample <$> seq 0 (numel_spatial t)) []
           (data t) []).
Qed.


(** X23: a batch of ids whose length is not the batch size of
    [latents[4]] is refused at the first boolean mask: [contrastive_step]
    raises [IndexError] and leaves [losses_dict] as it was. *)
Theorem contrastive_step_id_count_mismatch
    (contrast_loss : list (option (list F)) → list (option Z) → F)
    (latents : list (tensor F)) (t : tensor F) (ids : list Z)
    (latentsize : Z) (s : core F) :
  latents !! 4%nat = Some t →
  0 ≤ latentsize →
  ids ≠ [] →
  length ids ≠ size0 t →
  contrastive_step contrast_loss latents ids latentsize s
  = (Raise IndexError, s, []).
Proof.
  intros H4 Hl Hne Hlen.
  unfold contrastive_step, mbind, M_bind, lift, contrastive_inputs,
    py_getitem.
  rewrite H4. cbn [mbind result_bind].
  destruct (Z.ltb_spec latentsize 0); [lia|].
  destruct (unique ids) as [|id todo] eqn:Hu.
  { destruct ids as [|x ids]; [done|].
    assert (x ∈ unique (x :: ids)) as Hin by (apply elem_of_unique; by left).
    rewrite Hu in Hin. by apply elem_of_nil in Hin. }
  cbn [contrastive_loop]. unfold contrastive_round, mask_select.
  rewrite length_fmap.
  apply Nat.eqb_neq in Hlen. rewrite Hlen.
  reflexivity.
Qed.

End Cover.


Lemma contrastive_step_id_count_mismatch_witness :
  Toy.contrastive_step (Toy.swinViT Toy.image_2) [5] 3
    (inner (init 1 2 "model.pth"))
  = (Raise IndexError, inner (init 1 2 "model.pth"), []).
Proof.
  apply (contrastive_step_id_count_mismatch Toy.contrast_loss
           (Toy.swinViT Toy.image_2) Toy.latent_2x3x2 [5] 3
           (inner (init 1 2 "model.pth"))).
  - reflexivity.
  - lia.
  - discriminate.
  - vm_compute. lia.
Defined.

End ContrastiveMoreFacts.

Module ToyRunFacts.
Import Torch Train TrainViews StepFacts TrainRunFacts TestEpochFacts.


Lemma save_losses_not_atomic_witness :
  ∃ s',
    save_losses (PyFloat 7) ToyRuns.fresh
    = (Raise (KeyError "classification_loss"), s', []) ∧
    train_losses s'
    = {| contrast_losses := contrast_losses (train_losses ToyRuns.fresh) ++ [PyInt 0];
         classification_losses := classification_losses (train_losses ToyRuns.fresh);
         reconstruction_losses := reconstruction_losses (train_losses ToyRuns.fresh);
         total_losses := total_losses (train_losses ToyRuns.fresh) ++ [PyFloat 7] |} ∧
    (balanced (train_losses ToyRuns.fresh) → ¬ balanced (train_losses s')).
Proof.
  apply (save_losses_not_atomic (PyFloat 7) (PyInt 0) ToyRuns.fresh);
    reflexivity.
Defined.

Lemma train_epoch_keeps_balanced_witness :
  balanced (train_losses ToyRuns.fresh) ∧
  balanced (train_losses (ToyRuns.train_epoch [Toy.batch0] ToyRuns.fresh).1.2).
Proof.
  split; [by split_and!|].
  apply (train_epoch_keeps_balanced Z.add Z.div id Toy.swinViT Toy.reconstruct
           Toy.recons_loss [Toy.batch0] ToyRuns.fresh).
  by split_and!.
Defined.


Lemma train_epoch_optimizer_protocol_witness :
  ∃ losses : list Z,
    length losses = length [Toy.batch0; Toy.batch0] ∧
    optimizer_view
      (ToyRuns.train_epoch [Toy.batch0; Toy.batch0] ToyRuns.fresh).2
    = losses ≫= λ x, [ZeroGrad; Backward (PyTensor x); OptimizerStep].
Proof.
  apply (train_epoch_optimizer_protocol Z.add Z.div id Toy.swinViT
           Toy.reconstruct Toy.recons_loss [Toy.batch0; Toy.batch0]
           ToyRuns.fresh).
  vm_compute. reflexivity.
Defined.

Lemma train_step_bad_latentsize_witness :
  ∃ msg,
    Toy.train_step Toy.batch0 (inner (init 1 5 "model.pth"))
    = (Raise (RuntimeError msg), inner (init 1 5 "model.pth"), [ZeroGrad]).
Proof.
  apply (train_step_bad_latentsize Z.add id Toy.swinViT Toy.reconstruct
           Toy.recons_loss Toy.batch0 (inner (init 1 5 "model.pth"))
           Toy.latent_2x3x2).
  - reflexivity.
  - vm_compute. intros [_ H]. by apply H.
Defined.

Lemma train_fails_in_plot_losses_witness :
  ∃ msg st'' plots before,
    Toy.train (λ _, None) Toy.plot_path Toy.reconstruction_path 5
      (init 5 2 "model.pth")
    = Some (Raise (AttributeError msg), st'',
            before
              ++ [DatasetShutdown; TestDatasetShutdown;
                  ProgressWrite "Finish training";
                  SaveModel (save_name (init (F := Z) 5 2 "model.pth"));
                  SaveReconstructionModel
                    (Toy.reconstruction_path
                       (save_name (init (F := Z) 5 2 "model.pth")));
                  CreateGif plots]) ∧
    plots ≠ [] ∧ tsne_plots st'' = plots ∧
    DatasetStart ∈ before ∧
    Forall (λ e, closing_call e = false) before.
Proof.
  eapply (train_fails_in_plot_losses Z.add Z.div id Toy.swinViT
            Toy.reconstruct Toy.recons_loss Toy.train_loader Toy.plot_path
            Toy.reconstruction_path (λ _, None) 5 (init 5 2 "model.pth")
            _ _ 0).
  - vm_compute. reflexivity.
  - vm_compute. split; [by intros|reflexivity].
  - discriminate.
  - discriminate.
Defined.

Lemma train_loop_runs_to_num_epoch_witness :
  ∃ r st' evs,
    Toy.train_loop Toy.plot_outcome Toy.plot_path 5 (init 5 2 "model.pth")
    = Some (r, st', evs) ∧
    num_epoch st' = num_epoch (init (F := Z) 5 2 "model.pth") ∧
    save_name st' = save_name (init (F := Z) 5 2 "model.pth") ∧
    (r = Ok tt →
     epoch (inner st')
     = Z.max (epoch (inner (init (F := Z) 5 2 "model.pth")))
         (num_epoch (init (F := Z) 5 2 "model.pth"))) ∧
    (∀ e, r = Raise e →
          epoch (inner (init (F := Z) 5 2 "model.pth"))
          ≤ epoch (inner st')
          ≤ num_epoch (init (F := Z) 5 2 "model.pth")).
Proof.
  apply (train_loop_runs_to_num_epoch Z.add Z.div id Toy.swinViT
           Toy.reconstruct Toy.recons_loss Toy.train_loader Toy.plot_path
           Toy.plot_outcome 5 (init 5 2 "model.pth")).
  vm_compute. lia.
Defined.

Lemma train_plots_every_fifth_epoch_witness :
  ∃ r st' evs,
    Toy.train_loop (λ _, None) Toy.plot_path 10 (init 10 2 "model.pth")
    = Some (r, st', evs) ∧
    (r = Ok tt →
     plots_attempted evs
     = filter (λ ep, ep `mod` 5 = 0)
         (seqZ (epoch (inner (init (F := Z) 10 2 "model.pth")) + 1)
            (num_epoch (init (F := Z) 10 2 "model.pth")
             - epoch (inner (init (F := Z) 10 2 "model.pth")))) ∧
     tsne_plots st'
     = tsne_plots (init (F := Z) 10 2 "model.pth")
         ++ omap (λ ep, match (λ _ : Z, @None exn) ep with
                        | None =>
                            Some (Toy.plot_path
                                    (save_name (init (F := Z) 10 2 "model.pth"))
                                    ep)
                        | Some _ => None
                        end) (plots_attempted evs)).
Proof.
  apply (train_plots_every_fifth_epoch Z.add Z.div id Toy.swinViT
           Toy.reconstruct Toy.recons_loss Toy.train_loader Toy.plot_path
           (λ _, None) 10 (init 10 2 "model.pth")).
  vm_compute. lia.
Defined.

Lemma train_failure_skips_shutdown_witness :
  ∃ st'' evs,
    Toy.train (λ _, Some KeyboardInterrupt) Toy.plot_path
      Toy.reconstruction_path 5 (init 5 2 "model.pth")
    = Some (Raise KeyboardInterrupt, st'', evs) ∧
    Forall (λ ev, closing_call ev = false) evs ∧
    DatasetStart ∈ evs ∧ DatasetShutdown ∉ evs.
Proof.
  eapply (train_failure_skips_shutdown Z.add Z.div id Toy.swinViT
            Toy.reconstruct Toy.recons_loss Toy.train_loader Toy.plot_path
            Toy.reconstruction_path (λ _, Some KeyboardInterrupt) 5
            (init 5 2 "model.pth")).
  vm_compute. reflexivity.
Defined.

End ToyRunFacts.
